(** * Scoring engine of the dota2 advanced matchmaking system

    A shallow embedding of the scoring code of the repository
    (metrics.py, performance.py, exceptional.py, safety.py, algorithm.py,
    quality.py and the top-level matchmaking.py) together with the
    properties its specification states about it.

    Conventions of the embedding.
    - Python [int] values are [Z]; Python [float] values are exact
      rationals [Q] (rounding is not modelled, comparisons and arithmetic
      are the ideal ones).
    - A Python call that may raise returns a [Py.result]; the exceptions
      that the modelled code can raise are listed in [Py.exn].
    - A [Dict] read by the code with fixed keys is a record of optional
      fields: [None] is an absent key.
    - A method or module-level name that the code uses but that no file
      of the repository binds is an optional component that is [None] in
      the class (module) as written. *)

From Stdlib Require Import QArith Qminmax Lqa ZArith Lia String List Bool.
From Stdlib Require Import Qabs DecimalString.
Import ListNotations.

Local Open Scope Q_scope.

(** ** Fragments of the Python runtime *)

Module Py.

Inductive exn : Type :=
| ZeroDivisionError
| KeyError (key : string)
| NameError (name : string)
| AttributeError (attr : string).

Inductive result (A : Type) : Type :=
| Ok (a : A)
| Raise (e : exn).

Arguments Ok {A} a.
Arguments Raise {A} e.

Definition bind {A B : Type} (r : result A) (k : A -> result B) : result B :=
  match r with
  | Ok a => k a
  | Raise e => Raise e
  end.

(** [x / y] on numbers. *)
Definition truediv (x y : Q) : result Q :=
  if Qeq_bool y 0 then Raise ZeroDivisionError else Ok (x / y).

(** [d[key]] *)
Definition getitem {A : Type} (field : option A) (key : string) : result A :=
  match field with
  | Some v => Ok v
  | None => Raise (KeyError key)
  end.

(** [d.get(key, default)] *)
Definition get {A : Type} (field : option A) (default : A) : A :=
  match field with
  | Some v => v
  | None => default
  end.

(** [obj.attr] for an attribute that [obj] may lack. *)
Definition getattr {A : Type} (field : option A) (attr : string) : result A :=
  match field with
  | Some v => Ok v
  | None => Raise (AttributeError attr)
  end.

(** A module-level name that may be unbound. *)
Definition load_global {A : Type} (binding : option A) (name : string) : result A :=
  match binding with
  | Some v => Ok v
  | None => Raise (NameError name)
  end.

(** [sum(xs)] *)
Definition sum (xs : list Q) : Q := fold_left Qplus xs 0.

(** [xs[-n:]] *)
Definition last_n {A : Type} (n : nat) (xs : list A) : list A :=
  skipn (length xs - n) xs.

(** Comparisons of numbers, as booleans. *)
Definition leb (x y : Q) : bool := Qle_bool x y.
Definition ltb (x y : Q) : bool := negb (Qle_bool y x).
Definition geb (x y : Q) : bool := leb y x.
Definition gtb (x y : Q) : bool := ltb y x.

(** [str(n)] for an [int]. *)
Definition str_int (n : Z) : string :=
  DecimalString.NilZero.string_of_int (Z.to_int n).

(** The call returned normally with a value satisfying [P]. *)
Definition returns {A : Type} (r : result A) (P : A -> Prop) : Prop :=
  match r with
  | Ok a => P a
  | Raise _ => False
  end.

Definition raises {A : Type} (r : result A) (e : exn) : Prop := r = Raise e.

End Py.

Notation "x <- c1 ;; c2" := (Py.bind c1 (fun x => c2))
  (at level 61, c1 at next level, right associativity).

Definition in_unit_interval (x : Q) : Prop := 0 <= x /\ x <= 1.

(** ** metrics.py *)

Module Metrics.

(** The five keys of the role tables.  The methods receive the role as a
    [str]; a string that is none of these keys raises KeyError at the
    table lookup, which [MetricsCalculator] below models.  The functions
    of this module are the methods on the five keys. *)
Inductive Role : Type := carry | mid | offlane | soft_support | hard_support.

(** The dataclass [GameMetrics].  [death_impact_score] is not a field of
    the dataclass: it is [Some] only when that attribute was attached to
    the instance, which [calculate_survival_score] tests with [hasattr]. *)
Record GameMetrics : Type := {
  kills : Z;
  deaths : Z;
  assists : Z;
  last_hits : Z;
  denies : Z;
  gpm : Q;
  xpm : Q;
  hero_damage : Z;
  tower_damage : Z;
  hero_healing : Z;
  stun_duration : Q;
  camps_stacked : Z;
  runes_collected : Z;
  wards_placed : Z;
  wards_destroyed : Z;
  teamfight_participation : Q;
  death_impact_score : option Q
}.

(** The keys of [game_data] that the calculators read. *)
Record GameData : Type := {
  duration : option Z;
  team_damage : option Z;
  team_fights : option Z;
  teleports_used : option Q;
  lane_participation : option (list (string * Q));
  objective_presence : option Q;
  enemy_attention_score : option Q;
  rotations_forced : option Q;
  team_tower_damage : option Q;
  roshan_participation : option Q;
  objective_control : option Q;
  teamfight_damage_share : option Q;
  total_fight_duration : option Q
}.

Inductive ScoreName : Type :=
| farm_efficiency | damage_output | vision_control | utility | survival
| map_presence | space_creation | objective_focus | teamfight_impact.

(** [self.role_weights] *)
Definition role_weights (role : Role) : list (ScoreName * Q) :=
  match role with
  | carry =>
      [(farm_efficiency, 0.3); (damage_output, 0.3);
       (survival, 0.2); (objective_focus, 0.2)]
  | mid =>
      [(farm_efficiency, 0.25); (damage_output, 0.3);
       (map_presence, 0.25); (objective_focus, 0.2)]
  | offlane =>
      [(space_creation, 0.3); (survival, 0.25);
       (damage_output, 0.25); (objective_focus, 0.2)]
  | soft_support =>
      [(map_presence, 0.3); (utility, 0.3);
       (teamfight_impact, 0.2); (vision_control, 0.2)]
  | hard_support =>
      [(vision_control, 0.3); (utility, 0.3);
       (survival, 0.2); (teamfight_impact, 0.2)]
  end.

Record Expectation : Type := { cs : Q; exp_gpm : Q }.

Definition role_expectations (role : Role) : Expectation :=
  match role with
  | carry => {| cs := 10; exp_gpm := 600 |}
  | mid => {| cs := 8; exp_gpm := 550 |}
  | offlane => {| cs := 6; exp_gpm := 450 |}
  | soft_support => {| cs := 2; exp_gpm := 300 |}
  | hard_support => {| cs := 1; exp_gpm := 250 |}
  end.

Definition calculate_farming_efficiency
    (metrics : GameMetrics) (game_duration : Z) (role : Role) : Py.result Q :=
  let minutes := inject_Z game_duration / 60 in
  let expected := role_expectations role in
  cs_ratio <- Py.truediv (inject_Z (last_hits metrics)) (cs expected * minutes) ;;
  let cs_score := Qmin 1 cs_ratio in
  gpm_ratio <- Py.truediv (gpm metrics) (exp_gpm expected) ;;
  let gpm_score := Qmin 1 gpm_ratio in
  Py.Ok ((cs_score + gpm_score) / 2).

Definition role_damage_expectations (role : Role) : Q :=
  match role with
  | carry => 0.35
  | mid => 0.30
  | offlane => 0.20
  | soft_support => 0.10
  | hard_support => 0.05
  end.

Definition calculate_combat_efficiency
    (metrics : GameMetrics) (team_damage : Z) (role : Role) : Py.result Q :=
  damage_share <-
    Py.truediv (inject_Z (hero_damage metrics)) (inject_Z (Z.max 1 team_damage)) ;;
  kda <-
    Py.truediv (inject_Z (kills metrics + assists metrics))
               (inject_Z (Z.max 1 (deaths metrics))) ;;
  damage_ratio <- Py.truediv damage_share (role_damage_expectations role) ;;
  let damage_score := Qmin 1 damage_ratio in
  let kda_score := Qmin 1 (kda / 4) in
  Py.Ok (damage_score * 0.6 + kda_score * 0.4).

Definition calculate_vision_score
    (metrics : GameMetrics) (game_duration : Z) : Py.result Q :=
  let minutes := inject_Z game_duration / 60 in
  placed <- Py.truediv (inject_Z (wards_placed metrics)) minutes ;;
  destroyed <- Py.truediv (inject_Z (wards_destroyed metrics)) minutes ;;
  let ward_score := placed * 0.6 + destroyed * 0.4 in
  Py.Ok (Qmin 1 (ward_score / 2)).

Definition calculate_utility_score
    (metrics : GameMetrics) (team_fights : Z) : Py.result Q :=
  stun_ratio <- Py.truediv (stun_duration metrics) (inject_Z (team_fights * 5)) ;;
  let stun_score := Qmin 1 stun_ratio in
  let healing_score := Qmin 1 (inject_Z (hero_healing metrics) / 5000) in
  let teamfight_score := Qmin 1 (teamfight_participation metrics) in
  Py.Ok (stun_score * 0.4 + healing_score * 0.3 + teamfight_score * 0.3).

Definition role_death_thresholds (role : Role) : Q :=
  match role with
  | carry => 0.12
  | mid => 0.14
  | offlane => 0.16
  | soft_support => 0.2
  | hard_support => 0.25
  end.

Definition calculate_survival_score
    (metrics : GameMetrics) (game_duration : Z) (role : Role) : Py.result Q :=
  let minutes := inject_Z game_duration / 60 in
  death_rate <- Py.truediv (inject_Z (deaths metrics)) minutes ;;
  let threshold := role_death_thresholds role in
  rate_ratio <- Py.truediv death_rate threshold ;;
  let survival_score := Qmax 0 (1 - rate_ratio) in
  let survival_score :=
    match death_impact_score metrics with
    | Some impact => survival_score * (1 + impact)
    | None => survival_score
    end in
  Py.Ok (Qmin 1 survival_score).

Definition calculate_map_presence
    (metrics : GameMetrics) (game_data : GameData) : Py.result Q :=
  let tp_score := Qmin 1 (Py.get (teleports_used game_data) 0 / 10) in
  let lane_participation := Py.get (lane_participation game_data) [] in
  let lane_presence := Py.sum (map snd lane_participation) / 3 in
  let objective_presence := Py.get (objective_presence game_data) 0.5 in
  Py.Ok (tp_score * 0.3 + lane_presence * 0.4 + objective_presence * 0.3).

Definition calculate_space_creation
    (metrics : GameMetrics) (game_data : GameData) : Py.result Q :=
  let attention_score := Py.get (enemy_attention_score game_data) 0.5 in
  d <- Py.getitem (duration game_data) "duration" ;;
  tower_pressure <-
    Py.truediv (inject_Z (tower_damage metrics)) (inject_Z (Z.max 1 d)) ;;
  let rotations_forced := Py.get (rotations_forced game_data) 0 / 10 in
  let space_score :=
    attention_score * 0.4 +
    Qmin 1 (tower_pressure / 100) * 0.3 +
    Qmin 1 rotations_forced * 0.3 in
  Py.Ok (Qmin 1 space_score).

Definition calculate_objective_focus
    (metrics : GameMetrics) (game_data : GameData) : Py.result Q :=
  tower_contribution <-
    Py.truediv (inject_Z (tower_damage metrics))
               (Qmax 1 (Py.get (team_tower_damage game_data) 1)) ;;
  let roshan_score := Py.get (roshan_participation game_data) 0 in
  let objective_control := Py.get (objective_control game_data) 0 in
  Py.Ok (tower_contribution * 0.5 + roshan_score * 0.3 + objective_control * 0.2).

Definition calculate_teamfight_impact
    (metrics : GameMetrics) (game_data : GameData) : Py.result Q :=
  let participation := teamfight_participation metrics in
  let fight_impact := Py.get (teamfight_damage_share game_data) 0 in
  utility_impact <-
    Py.truediv (stun_duration metrics)
               (Qmax 1 (Py.get (total_fight_duration game_data) 1)) ;;
  Py.Ok (participation * 0.4 + fight_impact * 0.3 + utility_impact * 0.3).

(** The dict [base_scores], keyed by the nine score names. *)
Record BaseScores : Type := {
  bs_farm_efficiency : Q;
  bs_damage_output : Q;
  bs_vision_control : Q;
  bs_utility : Q;
  bs_survival : Q;
  bs_map_presence : Q;
  bs_space_creation : Q;
  bs_objective_focus : Q;
  bs_teamfight_impact : Q
}.

(** [base_scores[metric]] *)
Definition base_score (b : BaseScores) (metric : ScoreName) : Q :=
  match metric with
  | farm_efficiency => bs_farm_efficiency b
  | damage_output => bs_damage_output b
  | vision_control => bs_vision_control b
  | utility => bs_utility b
  | survival => bs_survival b
  | map_presence => bs_map_presence b
  | space_creation => bs_space_creation b
  | objective_focus => bs_objective_focus b
  | teamfight_impact => bs_teamfight_impact b
  end.

Record OverallPerformance : Type := {
  detailed_scores : BaseScores;
  overall_score : Q;
  weighted_scores : list (ScoreName * Q)
}.

Definition calculate_overall_performance
    (metrics : GameMetrics) (game_data : GameData) (role : Role)
    : Py.result OverallPerformance :=
  d <- Py.getitem (duration game_data) "duration" ;;
  farm <- calculate_farming_efficiency metrics d role ;;
  td <- Py.getitem (team_damage game_data) "team_damage" ;;
  damage <- calculate_combat_efficiency metrics td role ;;
  d <- Py.getitem (duration game_data) "duration" ;;
  vision <- calculate_vision_score metrics d ;;
  tf <- Py.getitem (team_fights game_data) "team_fights" ;;
  util <- calculate_utility_score metrics tf ;;
  d <- Py.getitem (duration game_data) "duration" ;;
  surv <- calculate_survival_score metrics d role ;;
  presence <- calculate_map_presence metrics game_data ;;
  space <- calculate_space_creation metrics game_data ;;
  objective <- calculate_objective_focus metrics game_data ;;
  impact <- calculate_teamfight_impact metrics game_data ;;
  let base_scores :=
    {| bs_farm_efficiency := farm;
       bs_damage_output := damage;
       bs_vision_control := vision;
       bs_utility := util;
       bs_survival := surv;
       bs_map_presence := presence;
       bs_space_creation := space;
       bs_objective_focus := objective;
       bs_teamfight_impact := impact |} in
  let weights := role_weights role in
  let final_score :=
    Py.sum (map (fun mw => base_score base_scores (fst mw) * snd mw) weights) in
  Py.Ok {| detailed_scores := base_scores;
           overall_score := final_score;
           weighted_scores :=
             map (fun mw => (fst mw, base_score base_scores (fst mw) * snd mw))
                 weights |}.

End Metrics.

(** ** core/player.py and the match dictionaries *)

Module Core.

(** The dataclass [PlayerStats].  The last five components are not
    fields of the dataclass; the analysis code reads them as attributes
    of [player.stats], so each is [Some] only on an instance to which
    that attribute was attached and [None] on a [PlayerStats] as
    declared. *)
Record PlayerStats : Type := {
  kills : Z;
  deaths : Z;
  assists : Z;
  last_hits : Z;
  denies : Z;
  gpm : Q;
  xpm : Q;
  damage_dealt : Z;
  damage_taken : Z;
  healing : Z;
  building_damage : Z;
  vision_score : Q;
  teamfight_participation : Q;
  wards_placed : option Z;
  wards_destroyed : option Z;
  vision_uptime : option Q;
  objective_participation : option Q;
  roshan_participation : option Q
}.

(** [PlayerStats(...)] with the declared fields only. *)
Definition as_declared (s : PlayerStats) : Prop :=
  wards_placed s = None /\ wards_destroyed s = None /\
  vision_uptime s = None /\ objective_participation s = None /\
  roshan_participation s = None.

(** An entry of [performance_history]: the keys the code reads. *)
Record HistoryEntry : Type := {
  score : option Q;
  victory : option bool
}.

(** The attributes of [Player] that the scoring code reads. *)
Record Player : Type := {
  id : string;
  mmr : Z;
  stats : PlayerStats;
  tilt_factor : Q;
  performance_history : list HistoryEntry
}.

(** The keys of [match_data] that the analysis and safety code read. *)
Record MatchData : Type := {
  duration : option Z;
  team_total_damage : option Z;
  team_building_damage : option Z
}.

(** [Player.add_match_performance] *)
Definition add_match_performance (p : Player) (entry : HistoryEntry) : Player :=
  let history := performance_history p ++ [entry] in
  let history :=
    if (20 <? Z.of_nat (length history))%Z then tl history else history in
  {| id := id p; mmr := mmr p; stats := stats p;
     tilt_factor := tilt_factor p; performance_history := history |}.

End Core.

(** ** performance.py *)

Module Performance.
Import Core.

Definition calculate_vision_score (player : Player) (match_data : MatchData)
    : Py.result Q :=
  d <- Py.getitem (duration match_data) "duration" ;;
  let game_duration_minutes := inject_Z d / 60 in
  placed <- Py.getattr (wards_placed (stats player)) "wards_placed" ;;
  placed_rate <- Py.truediv (inject_Z placed) game_duration_minutes ;;
  let ward_score := placed_rate * 0.4 in
  destroyed <- Py.getattr (wards_destroyed (stats player)) "wards_destroyed" ;;
  destroyed_rate <- Py.truediv (inject_Z destroyed) game_duration_minutes ;;
  let deward_score := destroyed_rate * 0.3 in
  let vision_uptime := Py.get (vision_uptime (stats player)) 0.5 in
  let uptime_score := vision_uptime * 0.3 in
  let total_score := ward_score + deward_score + uptime_score in
  Py.Ok (Qmin 1 total_score).

Definition calculate_objective_score (player : Player) (match_data : MatchData)
    : Py.result Q :=
  let team_building_damage := Py.get (team_building_damage match_data) 1%Z in
  building_damage_share <-
    Py.truediv (inject_Z (building_damage (stats player)))
               (inject_Z team_building_damage) ;;
  let objective_participation :=
    Py.get (objective_participation (stats player)) 0.5 in
  let roshan_participation := Py.get (roshan_participation (stats player)) 0 in
  let score :=
    building_damage_share * 0.4 +
    objective_participation * 0.4 +
    roshan_participation * 0.2 in
  Py.Ok (Qmin 1 score).

(** The dict returned by [calculate_base_metrics]. *)
Record BaseMetrics : Type := {
  kda : Q;
  cs_per_min : Q;
  damage_share : Q;
  vision_score : Q;
  objective_score : Q
}.

Definition calculate_base_metrics (player : Player) (match_data : MatchData)
    : Py.result BaseMetrics :=
  kda_v <-
    Py.truediv (inject_Z (kills (stats player) + assists (stats player)))
               (inject_Z (Z.max 1 (deaths (stats player)))) ;;
  d <- Py.getitem (duration match_data) "duration" ;;
  cs_v <- Py.truediv (inject_Z (last_hits (stats player))) (inject_Z d / 60) ;;
  total <- Py.getitem (team_total_damage match_data) "team_total_damage" ;;
  share_v <- Py.truediv (inject_Z (damage_dealt (stats player))) (inject_Z total) ;;
  vision_v <- calculate_vision_score player match_data ;;
  objective_v <- calculate_objective_score player match_data ;;
  Py.Ok {| kda := kda_v; cs_per_min := cs_v; damage_share := share_v;
           vision_score := vision_v; objective_score := objective_v |}.

End Performance.

(** ** The module-level names of the analysis and matchmaking files *)

Module Globals.

Inductive module : Type := numpy.

(** exceptional.py imports from [typing], [dataclasses] and [datetime]
    only: the name [np] that [validate_consistency] uses is unbound. *)
Definition exceptional_np : option module := None.

(** algorithm.py and quality.py start with [import numpy as np]. *)
Definition algorithm_np : option module := Some numpy.
Definition quality_np : option module := Some numpy.

(** [np.std(xs)] is the square root of the population variance of [xs];
    the root is kept exact as its radicand. *)
Record root : Type := { radicand : Q }.

Definition mean (xs : list Q) : Q := Py.sum xs / inject_Z (Z.of_nat (length xs)).

Definition variance (xs : list Q) : Q :=
  let m := mean xs in
  mean (map (fun x => (x - m) * (x - m)) xs).

Definition std (xs : list Q) : root := {| radicand := variance xs |}.

(** [r > t] for a root [r]: decided on the squares when [t] is not
    negative. *)
Definition root_gtb (r : root) (t : Q) : bool :=
  if Py.leb 0 t then Py.ltb (t * t) (radicand r) else true.

End Globals.

(** ** exceptional.py *)

Module Exceptional.
Import Core.

Record ExceptionalMetrics : Type := {
  combat_score : Q;
  farm_efficiency : Q;
  map_impact : Q;
  objective_control : Q;
  teamfight_contribution : Q;
  vision_control : Q;
  utility_score : Q;
  game_impact : Q
}.

Record Config : Type := {
  exceptional_threshold : Q;
  excellent_threshold : Q;
  very_good_threshold : Q;
  max_mmr_gain : Q;
  min_game_duration : Z;
  min_teamfight_participation : Q;
  max_consecutive_exceptional : Z
}.

Definition default_config : Config := {|
  exceptional_threshold := 0.90;
  excellent_threshold := 0.80;
  very_good_threshold := 0.70;
  max_mmr_gain := 5;
  min_game_duration := 1500;
  min_teamfight_participation := 0.6;
  max_consecutive_exceptional := 3
|}.

(** [ExceptionalAnalyzer(config)]: [self.config = config or default_config()] *)
Definition init (config : option Config) : Config := Py.get config default_config.

Definition determine_tier_and_adjustment
    (config : Config) (overall_score : Q) (metrics : ExceptionalMetrics)
    (match_data : MatchData) : string * Q :=
  (* the statements after the exceptional-tier check *)
  let lower_tiers :=
    if Py.geb overall_score (excellent_threshold config)
    then ("excellent"%string, 0)
    else if Py.geb overall_score (very_good_threshold config)
    then ("very_good"%string, Qmax (-10) ((overall_score - 0.7) * -50))
    else ("normal"%string, -25) in
  if Py.geb overall_score (exceptional_threshold config) then
    if forallb (fun field => Py.geb (field metrics) 0.85)
               [combat_score; teamfight_contribution; game_impact]
    then ("exceptional"%string,
          Qmin (max_mmr_gain config) ((overall_score - 0.9) * 50))
    else lower_tiers
  else lower_tiers.

Definition validate_consistency
    (np : option Globals.module) (metrics : ExceptionalMetrics) : Py.result bool :=
  let metrics_list :=
    [combat_score metrics; farm_efficiency metrics; map_impact metrics;
     objective_control metrics; teamfight_contribution metrics] in
  _ <- Py.load_global np "np" ;;
  let std_dev := Globals.std metrics_list in
  if Globals.root_gtb std_dev 0.3 then Py.Ok false else Py.Ok true.

Definition validate_performance
    (np : option Globals.module) (config : Config)
    (metrics : ExceptionalMetrics) (match_data : MatchData) : Py.result bool :=
  d <- Py.getitem (duration match_data) "duration" ;;
  if (d <? min_game_duration config)%Z then Py.Ok false
  else if Py.ltb (teamfight_contribution metrics)
                 (min_teamfight_participation config)
  then Py.Ok false
  else
    consistent <- validate_consistency np metrics ;;
    if negb consistent then Py.Ok false else Py.Ok true.

Definition calculate_game_impact (metrics : ExceptionalMetrics) : Q :=
  Py.sum
    [combat_score metrics * 0.25;
     farm_efficiency metrics * 0.15;
     map_impact metrics * 0.15;
     objective_control metrics * 0.15;
     teamfight_contribution metrics * 0.15;
     vision_control metrics * 0.08;
     utility_score metrics * 0.07].

Section Analyzer.

(** [player_stats] and [game_context] are dictionaries that only the
    unbound methods below would read. *)
Variables PlayerStatsDict GameContext : Type.

(** The methods that [ExceptionalAnalyzer] calls on [self] without
    defining them; a component is [Some] when a definition is
    supplied. *)
Record Methods : Type := {
  calculate_combat_score :
    option (PlayerStatsDict -> MatchData -> GameContext -> Py.result Q);
  calculate_farm_efficiency :
    option (PlayerStatsDict -> MatchData -> GameContext -> Py.result Q);
  calculate_map_impact : option (PlayerStatsDict -> MatchData -> Py.result Q);
  calculate_objective_control :
    option (PlayerStatsDict -> MatchData -> Py.result Q);
  calculate_teamfight_contribution :
    option (PlayerStatsDict -> MatchData -> Py.result Q);
  calculate_vision_control :
    option (PlayerStatsDict -> MatchData -> Py.result Q);
  calculate_utility_score :
    option (PlayerStatsDict -> MatchData -> Py.result Q);
  calculate_overall_score : option (ExceptionalMetrics -> Py.result Q)
}.

(** The class as the repository has it. *)
Definition as_written : Methods := {|
  calculate_combat_score := None;
  calculate_farm_efficiency := None;
  calculate_map_impact := None;
  calculate_objective_control := None;
  calculate_teamfight_contribution := None;
  calculate_vision_control := None;
  calculate_utility_score := None;
  calculate_overall_score := None
|}.

Variable self : Methods.
Variable np : option Globals.module.
Variable config : Config.

Definition calculate_exceptional_metrics
    (player_stats : PlayerStatsDict) (match_data : MatchData)
    (game_context : GameContext) : Py.result ExceptionalMetrics :=
  f <- Py.getattr (calculate_combat_score self) "calculate_combat_score" ;;
  combat <- f player_stats match_data game_context ;;
  f <- Py.getattr (calculate_farm_efficiency self) "calculate_farm_efficiency" ;;
  farm <- f player_stats match_data game_context ;;
  f <- Py.getattr (calculate_map_impact self) "calculate_map_impact" ;;
  impact <- f player_stats match_data ;;
  f <- Py.getattr (calculate_objective_control self)
                  "calculate_objective_control" ;;
  objective <- f player_stats match_data ;;
  f <- Py.getattr (calculate_teamfight_contribution self)
                  "calculate_teamfight_contribution" ;;
  teamfight <- f player_stats match_data ;;
  f <- Py.getattr (calculate_vision_control self) "calculate_vision_control" ;;
  vision <- f player_stats match_data ;;
  f <- Py.getattr (calculate_utility_score self) "calculate_utility_score" ;;
  util <- f player_stats match_data ;;
  let metrics :=
    {| combat_score := combat; farm_efficiency := farm; map_impact := impact;
       objective_control := objective; teamfight_contribution := teamfight;
       vision_control := vision; utility_score := util; game_impact := 0 |} in
  Py.Ok {| combat_score := combat; farm_efficiency := farm;
           map_impact := impact; objective_control := objective;
           teamfight_contribution := teamfight; vision_control := vision;
           utility_score := util;
           game_impact := calculate_game_impact metrics |}.

(** Returns [(is_exceptional, tier, mmr_adjustment, detailed_metrics)]. *)
Definition analyze_exceptional_performance
    (player_stats : PlayerStatsDict) (match_data : MatchData)
    (game_context : GameContext)
    : Py.result (bool * string * Q * ExceptionalMetrics) :=
  metrics <- calculate_exceptional_metrics player_stats match_data game_context ;;
  valid <- validate_performance np config metrics match_data ;;
  if negb valid then Py.Ok (false, "normal"%string, 0, metrics)
  else
    f <- Py.getattr (calculate_overall_score self) "calculate_overall_score" ;;
    overall_score <- f metrics ;;
    let '(tier, mmr_adj) :=
      determine_tier_and_adjustment config overall_score metrics match_data in
    Py.Ok (negb (String.eqb tier "normal"), tier, mmr_adj, metrics).

End Analyzer.

Arguments as_written {PlayerStatsDict GameContext}.
Arguments calculate_exceptional_metrics {PlayerStatsDict GameContext}
  self player_stats match_data game_context.
Arguments analyze_exceptional_performance {PlayerStatsDict GameContext}
  self np config player_stats match_data game_context.

End Exceptional.

(** ** utils/safety.py *)

Module Safety.
Import Core.

Record Config : Type := {
  max_mmr_gain : Z;
  max_consecutive_exceptional : Z;
  time_window_hours : Z;
  minimum_game_duration : Z;
  required_teamfight_participation : Q;
  maximum_tilt_factor : Q;
  minimum_team_gold_difference : Z;
  suspicious_performance_threshold : Q;
  maximum_daily_games : Z
}.

Definition default_config : Config := {|
  max_mmr_gain := 5;
  max_consecutive_exceptional := 3;
  time_window_hours := 24;
  minimum_game_duration := 25;
  required_teamfight_participation := 0.6;
  maximum_tilt_factor := 0.3;
  minimum_team_gold_difference := 5000;
  suspicious_performance_threshold := 0.95;
  maximum_daily_games := 30
|}.

(** [SafetyChecker(config)]: [self.config = config or default_config()] *)
Definition init (config : option Config) : Config := Py.get config default_config.

(** A check result [(is_valid, reason)]. *)
Definition Check : Type := bool * string.

(** The methods that [SafetyChecker] calls on [self] without defining
    them; a component is [Some] when a definition is supplied. *)
Record Methods : Type := {
  check_teamfight_participation : option (Player -> MatchData -> Py.result Check);
  check_tilt_factor : option (Player -> Py.result Check);
  check_game_balance : option (MatchData -> Py.result Check);
  check_recent_performances : option (Player -> Py.result Check);
  check_impossible_stats : option (PlayerStats -> Py.result bool);
  check_unusual_ratios : option (PlayerStats -> Py.result bool);
  check_consistency_patterns : option (PlayerStats -> Py.result bool)
}.

(** The class as the repository has it. *)
Definition as_written : Methods := {|
  check_teamfight_participation := None;
  check_tilt_factor := None;
  check_game_balance := None;
  check_recent_performances := None;
  check_impossible_stats := None;
  check_unusual_ratios := None;
  check_consistency_patterns := None
|}.

Definition check_game_duration (config : Config) (match_data : MatchData)
    : Py.result Check :=
  let min_duration := (minimum_game_duration config * 60)%Z in
  d <- Py.getitem (duration match_data) "duration" ;;
  if (d <? min_duration)%Z
  then Py.Ok (false, ("Game too short: " ++ Py.str_int d ++ "s")%string)
  else Py.Ok (true, ""%string).

(** [recent_scores = [p['score'] for p in ...]] *)
Fixpoint scores_of (entries : list HistoryEntry) : Py.result (list Q) :=
  match entries with
  | [] => Py.Ok []
  | p :: rest =>
      s <- Py.getitem (score p) "score" ;;
      ss <- scores_of rest ;;
      Py.Ok (s :: ss)
  end.

Section Checker.

Variable self : Methods.
Variable config : Config.

Definition detect_unusual_patterns (stats : PlayerStats) : Py.result bool :=
  f <- Py.getattr (check_impossible_stats self) "check_impossible_stats" ;;
  impossible <- f stats ;;
  f <- Py.getattr (check_unusual_ratios self) "check_unusual_ratios" ;;
  unusual <- f stats ;;
  f <- Py.getattr (check_consistency_patterns self) "check_consistency_patterns" ;;
  patterned <- f stats ;;
  Py.Ok (existsb (fun b => b) [impossible; unusual; patterned]).

Definition check_suspicious_patterns (player : Player) (performance_score : Q)
    : Py.result Check :=
  (* first [if]: does it return the rejection? *)
  consistent_high <-
    (if Py.gtb performance_score (suspicious_performance_threshold config) then
       recent_scores <- scores_of (Py.last_n 5 (performance_history player)) ;;
       Py.Ok (forallb
                (fun score =>
                   Py.gtb score (suspicious_performance_threshold config))
                recent_scores)
     else Py.Ok false) ;;
  if consistent_high
  then Py.Ok (false, "Suspiciously consistent high performance"%string)
  else
    unusual <- detect_unusual_patterns (stats player) ;;
    if unusual then Py.Ok (false, "Unusual stat patterns detected"%string)
    else Py.Ok (true, ""%string).

(** The loop over [checks]: the first invalid entry is returned. *)
Fixpoint first_failure (checks : list Check) : Check :=
  match checks with
  | [] => (true, ""%string)
  | (is_valid, reason) :: rest =>
      if negb is_valid then (false, reason) else first_failure rest
  end.

(** The call of [self.logger.warning] before the early return only
    writes a log record and is left out. *)
Definition validate_performance
    (player : Player) (match_data : MatchData) (performance_score : Q)
    : Py.result Check :=
  c1 <- check_game_duration config match_data ;;
  f <- Py.getattr (check_teamfight_participation self)
                  "check_teamfight_participation" ;;
  c2 <- f player match_data ;;
  f <- Py.getattr (check_tilt_factor self) "check_tilt_factor" ;;
  c3 <- f player ;;
  f <- Py.getattr (check_game_balance self) "check_game_balance" ;;
  c4 <- f match_data ;;
  f <- Py.getattr (check_recent_performances self) "check_recent_performances" ;;
  c5 <- f player ;;
  c6 <- check_suspicious_patterns player performance_score ;;
  let checks := [c1; c2; c3; c4; c5; c6] in
  Py.Ok (first_failure checks).

End Checker.

End Safety.

(** ** matchmaking/algorithm.py *)

Module Algorithm.

Record Config : Type := {
  team_size : Z;
  max_mmr_spread : Q;
  min_quality_threshold : Q;
  role_importance : Q;
  skill_importance : Q;
  synergy_importance : Q;
  communication_importance : Q
}.

Definition default_config : Config := {|
  team_size := 5;
  max_mmr_spread := 1000;
  min_quality_threshold := 0.8;
  role_importance := 0.3;
  skill_importance := 0.3;
  synergy_importance := 0.2;
  communication_importance := 0.2
|}.

Record MatchQuality : Type := {
  team_balance : Q;
  role_synergy : Q;
  skill_distribution : Q;
  communication_compatibility : Q;
  hero_synergy : Q;
  overall_score : Q
}.

Section MatchMaker.

(** [Match] and its two teams, read only by the unbound methods. *)
Variables Team Match : Type.
Variables team1 team2 : Match -> Team.

(** The methods that [MatchMaker] calls on [self] without defining
    them. *)
Record Methods : Type := {
  calculate_team_mmr : option (Team -> Py.result Q);
  calculate_role_synergy : option (Match -> Py.result Q);
  calculate_skill_distribution : option (Match -> Py.result Q);
  evaluate_communication_compatibility : option (Match -> Py.result Q);
  calculate_hero_synergy : option (Match -> Py.result Q)
}.

Definition as_written : Methods := {|
  calculate_team_mmr := None;
  calculate_role_synergy := None;
  calculate_skill_distribution := None;
  evaluate_communication_compatibility := None;
  calculate_hero_synergy := None
|}.

Variable self : Methods.
Variable config : Config.

Definition calculate_team_balance (m : Match) : Py.result Q :=
  f <- Py.getattr (calculate_team_mmr self) "calculate_team_mmr" ;;
  team1_mmr <- f (team1 m) ;;
  f <- Py.getattr (calculate_team_mmr self) "calculate_team_mmr" ;;
  team2_mmr <- f (team2 m) ;;
  let mmr_difference := Qabs (team1_mmr - team2_mmr) in
  spread_ratio <- Py.truediv mmr_difference (max_mmr_spread config) ;;
  let balance_score := Qmax 0 (1 - spread_ratio) in
  Py.Ok balance_score.

Definition evaluate_match_quality (m : Match) : Py.result MatchQuality :=
  balance <- calculate_team_balance m ;;
  f <- Py.getattr (calculate_role_synergy self) "calculate_role_synergy" ;;
  synergy <- f m ;;
  f <- Py.getattr (calculate_skill_distribution self)
                  "calculate_skill_distribution" ;;
  distribution <- f m ;;
  f <- Py.getattr (evaluate_communication_compatibility self)
                  "evaluate_communication_compatibility" ;;
  communication <- f m ;;
  f <- Py.getattr (calculate_hero_synergy self) "calculate_hero_synergy" ;;
  hero <- f m ;;
  let overall :=
    balance * skill_importance config +
    synergy * role_importance config +
    distribution * skill_importance config +
    communication * communication_importance config +
    hero * synergy_importance config in
  Py.Ok {| team_balance := balance;
           role_synergy := synergy;
           skill_distribution := distribution;
           communication_compatibility := communication;
           hero_synergy := hero;
           overall_score := overall |}.

End MatchMaker.

Arguments as_written {Team Match}.
Arguments calculate_team_balance {Team Match} team1 team2 self config m.
Arguments evaluate_match_quality {Team Match} team1 team2 self config m.

End Algorithm.

(** ** matchmaking/quality.py *)

Module Quality.

(** [d[key]] on a dictionary with string keys. *)
Fixpoint lookup (d : list (string * Q)) (key : string) : Py.result Q :=
  match d with
  | [] => Py.Raise (Py.KeyError key)
  | (k, v) :: rest => if String.eqb k key then Py.Ok v else lookup rest key
  end.

(** The local [weights] of [calculate_overall_quality]. *)
Definition weights : list (string * Q) :=
  [("role_balance"%string, 0.25);
   ("skill_balance"%string, 0.25);
   ("hero_synergy"%string, 0.2);
   ("team_chemistry"%string, 0.15);
   ("playstyle_compatibility"%string, 0.15)].

(** The generator [metrics[key] * weights[key] for key in weights]. *)
Fixpoint weighted_terms (metrics ws : list (string * Q)) : Py.result (list Q) :=
  match ws with
  | [] => Py.Ok []
  | (key, _) :: rest =>
      v <- lookup metrics key ;;
      w <- lookup weights key ;;
      terms <- weighted_terms metrics rest ;;
      Py.Ok (v * w :: terms)
  end.

Definition calculate_overall_quality (metrics : list (string * Q)) : Py.result Q :=
  terms <- weighted_terms metrics weights ;;
  Py.Ok (Py.sum terms).

End Quality.

(** ** matchmaking.py (top level of the repository) *)

Module Matchmaking.

Section Adjustment.

(** [player] and [game_data] are objects; the function reads the
    attribute [game_data.victory] and passes both on. *)
Variables Player GameData : Type.
Variable victory : GameData -> bool.

(** The module-level functions that [calculate_mmr_adjustment] calls;
    the file defines none of them. *)
Record Helpers : Type := {
  calculate_performance_score : option (Player -> GameData -> Py.result Q);
  calculate_team_play_bonus : option (Player -> GameData -> Py.result Q);
  calculate_role_execution : option (Player -> GameData -> Py.result Q);
  calculate_behavior_modifier : option (Player -> GameData -> Py.result Q)
}.

Definition as_written : Helpers := {|
  calculate_performance_score := None;
  calculate_team_play_bonus := None;
  calculate_role_execution := None;
  calculate_behavior_modifier := None
|}.

Variable globals : Helpers.

Definition calculate_mmr_adjustment (player : Player) (game_data : GameData)
    : Py.result Q :=
  let base_mmr := 25 in
  let game_outcome := 0.8 * (if victory game_data then base_mmr else - base_mmr) in
  f <- Py.load_global (calculate_performance_score globals)
                      "calculate_performance_score" ;;
  performance <- f player game_data ;;
  let performance_modifier := 0.2 * (performance - 0.5) * base_mmr in
  f <- Py.load_global (calculate_team_play_bonus globals)
                      "calculate_team_play_bonus" ;;
  team_play <- f player game_data ;;
  f <- Py.load_global (calculate_role_execution globals)
                      "calculate_role_execution" ;;
  role_execution <- f player game_data ;;
  f <- Py.load_global (calculate_behavior_modifier globals)
                      "calculate_behavior_modifier" ;;
  behavior_modifier <- f player game_data ;;
  let mmr_change :=
    (game_outcome + performance_modifier) *
    (1 + team_play) *
    (1 + role_execution) *
    behavior_modifier in
  Py.Ok mmr_change.

End Adjustment.

Arguments calculate_performance_score {Player GameData} _.
Arguments calculate_team_play_bonus {Player GameData} _.
Arguments calculate_role_execution {Player GameData} _.
Arguments calculate_behavior_modifier {Player GameData} _.
Arguments as_written {Player GameData}.
Arguments calculate_mmr_adjustment {Player GameData} victory globals player game_data.

End Matchmaking.

(** ** Input domains and the inputs of the repository's tests *)

Module Inputs.

(** Statistics of a match as the telemetry produces them: counters are
    not negative, the participation ratio is in the unit interval and
    no attribute is attached beyond the declared fields. *)
Definition well_formed (m : Metrics.GameMetrics) : Prop :=
  (0 <= Metrics.kills m)%Z /\ (0 <= Metrics.deaths m)%Z /\
  (0 <= Metrics.assists m)%Z /\ (0 <= Metrics.last_hits m)%Z /\
  (0 <= Metrics.denies m)%Z /\ 0 <= Metrics.gpm m /\ 0 <= Metrics.xpm m /\
  (0 <= Metrics.hero_damage m)%Z /\ (0 <= Metrics.tower_damage m)%Z /\
  (0 <= Metrics.hero_healing m)%Z /\ 0 <= Metrics.stun_duration m /\
  (0 <= Metrics.camps_stacked m)%Z /\ (0 <= Metrics.runes_collected m)%Z /\
  (0 <= Metrics.wards_placed m)%Z /\ (0 <= Metrics.wards_destroyed m)%Z /\
  in_unit_interval (Metrics.teamfight_participation m) /\
  Metrics.death_impact_score m = None.

(** [GameMetrics()]: every field at its default. *)
Definition default_metrics : Metrics.GameMetrics := {|
  Metrics.kills := 0; Metrics.deaths := 0; Metrics.assists := 0;
  Metrics.last_hits := 0; Metrics.denies := 0; Metrics.gpm := 0;
  Metrics.xpm := 0; Metrics.hero_damage := 0; Metrics.tower_damage := 0;
  Metrics.hero_healing := 0; Metrics.stun_duration := 0;
  Metrics.camps_stacked := 0; Metrics.runes_collected := 0;
  Metrics.wards_placed := 0; Metrics.wards_destroyed := 0;
  Metrics.teamfight_participation := 0; Metrics.death_impact_score := None
|}.

(** [self.sample_metrics] of tests/test_metrics.py. *)
Definition sample_metrics : Metrics.GameMetrics := {|
  Metrics.kills := 10; Metrics.deaths := 3; Metrics.assists := 15;
  Metrics.last_hits := 300; Metrics.denies := 20; Metrics.gpm := 650;
  Metrics.xpm := 750; Metrics.hero_damage := 25000;
  Metrics.tower_damage := 5000; Metrics.hero_healing := 1500;
  Metrics.stun_duration := 100; Metrics.camps_stacked := 5;
  Metrics.runes_collected := 8; Metrics.wards_placed := 15;
  Metrics.wards_destroyed := 5; Metrics.teamfight_participation := 0.8;
  Metrics.death_impact_score := None
|}.

(** A [game_data] with the three keys [duration], [team_damage] and
    [team_fights] only. *)
Definition game_data_of (d td tf : Z) : Metrics.GameData := {|
  Metrics.duration := Some d; Metrics.team_damage := Some td;
  Metrics.team_fights := Some tf; Metrics.teleports_used := None;
  Metrics.lane_participation := None; Metrics.objective_presence := None;
  Metrics.enemy_attention_score := None; Metrics.rotations_forced := None;
  Metrics.team_tower_damage := None; Metrics.roshan_participation := None;
  Metrics.objective_control := None; Metrics.teamfight_damage_share := None;
  Metrics.total_fight_duration := None
|}.

(** [game_data] of [test_overall_performance] in tests/test_metrics.py. *)
Definition sample_game_data : Metrics.GameData := game_data_of 2400 100000 10.

(** An exceptional-metrics bundle with every component equal to [v]. *)
Definition uniform_metrics (v : Q) : Exceptional.ExceptionalMetrics := {|
  Exceptional.combat_score := v; Exceptional.farm_efficiency := v;
  Exceptional.map_impact := v; Exceptional.objective_control := v;
  Exceptional.teamfight_contribution := v; Exceptional.vision_control := v;
  Exceptional.utility_score := v; Exceptional.game_impact := v
|}.

(** A bundle that is strong overall but weak in combat. *)
Definition weak_combat_metrics : Exceptional.ExceptionalMetrics := {|
  Exceptional.combat_score := 0.8; Exceptional.farm_efficiency := 1;
  Exceptional.map_impact := 1; Exceptional.objective_control := 1;
  Exceptional.teamfight_contribution := 0.95; Exceptional.vision_control := 1;
  Exceptional.utility_score := 1; Exceptional.game_impact := 0.95
|}.

Definition match_data_of (d : Z) : Core.MatchData := {|
  Core.duration := Some d;
  Core.team_total_damage := None;
  Core.team_building_damage := None
|}.

(** [PlayerStats()] *)
Definition default_stats : Core.PlayerStats := {|
  Core.kills := 0; Core.deaths := 0; Core.assists := 0; Core.last_hits := 0;
  Core.denies := 0; Core.gpm := 0; Core.xpm := 0; Core.damage_dealt := 0;
  Core.damage_taken := 0; Core.healing := 0; Core.building_damage := 0;
  Core.vision_score := 0; Core.teamfight_participation := 0;
  Core.wards_placed := None; Core.wards_destroyed := None;
  Core.vision_uptime := None; Core.objective_participation := None;
  Core.roshan_participation := None
|}.

(** [Player(id)] followed by one [add_match_performance] per score. *)
Definition player_with_scores (name : string) (scores : list Q) : Core.Player :=
  fold_left
    (fun p s =>
       Core.add_match_performance p
         {| Core.score := Some s; Core.victory := Some true |})
    scores
    {| Core.id := name; Core.mmr := 2000; Core.stats := default_stats;
       Core.tilt_factor := 0; Core.performance_history := [] |}.

(** A player whose history is still empty. *)
Definition new_player : Core.Player := player_with_scores "new" [].

(** The history of Example 3 of the specification. *)
Definition streak_player : Core.Player :=
  player_with_scores "streak" [0.97; 0.98; 0.96; 0.99; 0.97].

(** A player with one earlier ordinary game. *)
Definition ordinary_player : Core.Player := player_with_scores "ordinary" [0.5].

(** Definitions for the methods that [MatchMaker] lacks, all reporting a
    perfect sub-score (equal team ratings give a team balance of 1). *)
Definition perfect_match_methods : Algorithm.Methods unit unit := {|
  Algorithm.calculate_team_mmr := Some (fun _ => Py.Ok 2500);
  Algorithm.calculate_role_synergy := Some (fun _ => Py.Ok 1);
  Algorithm.calculate_skill_distribution := Some (fun _ => Py.Ok 1);
  Algorithm.evaluate_communication_compatibility := Some (fun _ => Py.Ok 1);
  Algorithm.calculate_hero_synergy := Some (fun _ => Py.Ok 1)
|}.

(** A dictionary of quality metrics with every entry equal to [v]. *)
Definition uniform_quality (v : Q) : list (string * Q) :=
  map (fun kw => (fst kw, v)) Quality.weights.

(** Definitions for the methods that [SafetyChecker] lacks, all passing. *)
Definition passing_safety_methods : Safety.Methods := {|
  Safety.check_teamfight_participation := Some (fun _ _ => Py.Ok (true, ""%string));
  Safety.check_tilt_factor := Some (fun _ => Py.Ok (true, ""%string));
  Safety.check_game_balance := Some (fun _ => Py.Ok (true, ""%string));
  Safety.check_recent_performances := Some (fun _ => Py.Ok (true, ""%string));
  Safety.check_impossible_stats := Some (fun _ => Py.Ok false);
  Safety.check_unusual_ratios := Some (fun _ => Py.Ok false);
  Safety.check_consistency_patterns := Some (fun _ => Py.Ok false)
|}.

(** Definitions for the functions that matchmaking.py lacks, returning
    the given values. *)
Definition constant_helpers (performance team_play role_execution behavior : Q)
    : Matchmaking.Helpers unit bool := {|
  Matchmaking.calculate_performance_score := Some (fun _ _ => Py.Ok performance);
  Matchmaking.calculate_team_play_bonus := Some (fun _ _ => Py.Ok team_play);
  Matchmaking.calculate_role_execution := Some (fun _ _ => Py.Ok role_execution);
  Matchmaking.calculate_behavior_modifier := Some (fun _ _ => Py.Ok behavior)
|}.

End Inputs.

(** ** Dictionaries with string keys *)

Module Dict.

(** [d[key]] *)
Fixpoint getitem {A : Type} (d : list (string * A)) (key : string) : Py.result A :=
  match d with
  | [] => Py.Raise (Py.KeyError key)
  | (k, v) :: rest => if String.eqb k key then Py.Ok v else getitem rest key
  end.

(** [d.get(key, default)] *)
Fixpoint get {A : Type} (d : list (string * A)) (key : string) (default : A) : A :=
  match d with
  | [] => default
  | (k, v) :: rest => if String.eqb k key then v else get rest key default
  end.

(** [key in d] *)
Fixpoint mem {A : Type} (key : string) (d : list (string * A)) : bool :=
  match d with
  | [] => false
  | (k, _) :: rest => String.eqb k key || mem key rest
  end.

(** [d[key] = v] on a dictionary that has [key]: the entry keeps its
    place. *)
Fixpoint update {A : Type} (d : list (string * A)) (key : string) (v : A)
    : list (string * A) :=
  match d with
  | [] => []
  | (k, w) :: rest =>
      if String.eqb k key then (k, v) :: rest else (k, w) :: update rest key v
  end.

Definition keys {A : Type} (d : list (string * A)) : list string := map fst d.

Definition values {A : Type} (d : list (string * A)) : list A := map snd d.

End Dict.

(** ** metrics.py: the role as the string the methods receive *)

(** The methods of [MetricsCalculator] that take a [role] receive a [str]
    and use it as the key of a dict, so a role that is not one of the five
    keys raises KeyError at the lookup.  The three calculators with a
    role table and the aggregation are given here on strings, statement
    by statement in the order of the source; on the name of one of the
    five roles they are the functions of [Metrics]. *)

Module MetricsCalculator.

(** The key under which the tables hold a role. *)
Definition role_name (role : Metrics.Role) : string :=
  match role with
  | Metrics.carry => "carry"
  | Metrics.mid => "mid"
  | Metrics.offlane => "offlane"
  | Metrics.soft_support => "soft_support"
  | Metrics.hard_support => "hard_support"
  end.

Definition role_names : list string :=
  ["carry"; "mid"; "offlane"; "soft_support"; "hard_support"]%string.

(** [self.role_weights] *)
Definition role_weights : list (string * list (Metrics.ScoreName * Q)) :=
  [("carry"%string,
    [(Metrics.farm_efficiency, 0.3); (Metrics.damage_output, 0.3);
     (Metrics.survival, 0.2); (Metrics.objective_focus, 0.2)]);
   ("mid"%string,
    [(Metrics.farm_efficiency, 0.25); (Metrics.damage_output, 0.3);
     (Metrics.map_presence, 0.25); (Metrics.objective_focus, 0.2)]);
   ("offlane"%string,
    [(Metrics.space_creation, 0.3); (Metrics.survival, 0.25);
     (Metrics.damage_output, 0.25); (Metrics.objective_focus, 0.2)]);
   ("soft_support"%string,
    [(Metrics.map_presence, 0.3); (Metrics.utility, 0.3);
     (Metrics.teamfight_impact, 0.2); (Metrics.vision_control, 0.2)]);
   ("hard_support"%string,
    [(Metrics.vision_control, 0.3); (Metrics.utility, 0.3);
     (Metrics.survival, 0.2); (Metrics.teamfight_impact, 0.2)])].

(** The local [role_expectations] of [calculate_farming_efficiency]. *)
Definition role_expectations : list (string * Metrics.Expectation) :=
  [("carry"%string, {| Metrics.cs := 10; Metrics.exp_gpm := 600 |});
   ("mid"%string, {| Metrics.cs := 8; Metrics.exp_gpm := 550 |});
   ("offlane"%string, {| Metrics.cs := 6; Metrics.exp_gpm := 450 |});
   ("soft_support"%string, {| Metrics.cs := 2; Metrics.exp_gpm := 300 |});
   ("hard_support"%string, {| Metrics.cs := 1; Metrics.exp_gpm := 250 |})].

Definition calculate_farming_efficiency
    (metrics : Metrics.GameMetrics) (game_duration : Z) (role : string)
    : Py.result Q :=
  let minutes := inject_Z game_duration / 60 in
  expected <- Dict.getitem role_expectations role ;;
  cs_ratio <-
    Py.truediv (inject_Z (Metrics.last_hits metrics))
               (Metrics.cs expected * minutes) ;;
  let cs_score := Qmin 1 cs_ratio in
  gpm_ratio <- Py.truediv (Metrics.gpm metrics) (Metrics.exp_gpm expected) ;;
  let gpm_score := Qmin 1 gpm_ratio in
  Py.Ok ((cs_score + gpm_score) / 2).

(** The local [role_damage_expectations] of [calculate_combat_efficiency]. *)
Definition role_damage_expectations : list (string * Q) :=
  [("carry"%string, 0.35); ("mid"%string, 0.30); ("offlane"%string, 0.20);
   ("soft_support"%string, 0.10); ("hard_support"%string, 0.05)].

Definition calculate_combat_efficiency
    (metrics : Metrics.GameMetrics) (team_damage : Z) (role : string)
    : Py.result Q :=
  damage_share <-
    Py.truediv (inject_Z (Metrics.hero_damage metrics))
               (inject_Z (Z.max 1 team_damage)) ;;
  kda <-
    Py.truediv (inject_Z (Metrics.kills metrics + Metrics.assists metrics))
               (inject_Z (Z.max 1 (Metrics.deaths metrics))) ;;
  expectation <- Dict.getitem role_damage_expectations role ;;
  damage_ratio <- Py.truediv damage_share expectation ;;
  let damage_score := Qmin 1 damage_ratio in
  let kda_score := Qmin 1 (kda / 4) in
  Py.Ok (damage_score * 0.6 + kda_score * 0.4).

(** The local [role_death_thresholds] of [calculate_survival_score]. *)
Definition role_death_thresholds : list (string * Q) :=
  [("carry"%string, 0.12); ("mid"%string, 0.14); ("offlane"%string, 0.16);
   ("soft_support"%string, 0.2); ("hard_support"%string, 0.25)].

Definition calculate_survival_score
    (metrics : Metrics.GameMetrics) (game_duration : Z) (role : string)
    : Py.result Q :=
  let minutes := inject_Z game_duration / 60 in
  death_rate <- Py.truediv (inject_Z (Metrics.deaths metrics)) minutes ;;
  threshold <- Dict.getitem role_death_thresholds role ;;
  rate_ratio <- Py.truediv death_rate threshold ;;
  let survival_score := Qmax 0 (1 - rate_ratio) in
  let survival_score :=
    match Metrics.death_impact_score metrics with
    | Some impact => survival_score * (1 + impact)
    | None => survival_score
    end in
  Py.Ok (Qmin 1 survival_score).

Definition calculate_overall_performance
    (metrics : Metrics.GameMetrics) (game_data : Metrics.GameData) (role : string)
    : Py.result Metrics.OverallPerformance :=
  d <- Py.getitem (Metrics.duration game_data) "duration" ;;
  farm <- calculate_farming_efficiency metrics d role ;;
  td <- Py.getitem (Metrics.team_damage game_data) "team_damage" ;;
  damage <- calculate_combat_efficiency metrics td role ;;
  d <- Py.getitem (Metrics.duration game_data) "duration" ;;
  vision <- Metrics.calculate_vision_score metrics d ;;
  tf <- Py.getitem (Metrics.team_fights game_data) "team_fights" ;;
  util <- Metrics.calculate_utility_score metrics tf ;;
  d <- Py.getitem (Metrics.duration game_data) "duration" ;;
  surv <- calculate_survival_score metrics d role ;;
  presence <- Metrics.calculate_map_presence metrics game_data ;;
  space <- Metrics.calculate_space_creation metrics game_data ;;
  objective <- Metrics.calculate_objective_focus metrics game_data ;;
  impact <- Metrics.calculate_teamfight_impact metrics game_data ;;
  let base_scores :=
    {| Metrics.bs_farm_efficiency := farm;
       Metrics.bs_damage_output := damage;
       Metrics.bs_vision_control := vision;
       Metrics.bs_utility := util;
       Metrics.bs_survival := surv;
       Metrics.bs_map_presence := presence;
       Metrics.bs_space_creation := space;
       Metrics.bs_objective_focus := objective;
       Metrics.bs_teamfight_impact := impact |} in
  weights <- Dict.getitem role_weights role ;;
  let final_score :=
    Py.sum (map (fun mw => Metrics.base_score base_scores (fst mw) * snd mw)
                weights) in
  Py.Ok {| Metrics.detailed_scores := base_scores;
           Metrics.overall_score := final_score;
           Metrics.weighted_scores :=
             map (fun mw =>
                    (fst mw, Metrics.base_score base_scores (fst mw) * snd mw))
                 weights |}.

End MetricsCalculator.

(** ** core/player.py: ratings and tilt *)

Module PlayerOps.

(** The two attributes of [Player] that [update_mmr] reads and writes. *)
Record Ratings : Type := {
  role_ratings : list (string * Z);
  mmr : Z
}.

(** The ratings set by [Player(id, initial_mmr)]. *)
Definition initial (initial_mmr : Z) : Ratings := {|
  role_ratings :=
    [("carry"%string, initial_mmr); ("mid"%string, initial_mmr);
     ("offlane"%string, initial_mmr); ("soft_support"%string, initial_mmr);
     ("hard_support"%string, initial_mmr)];
  mmr := initial_mmr
|}.

(** [max] of the collection made of [x] and [xs]. *)
Definition max_of (x : Z) (xs : list Z) : Z := fold_left Z.max xs x.

(** [self.role_ratings[role] += change] then
    [self.mmr = max(self.role_ratings.values())]; the maximum is taken
    from the new rating of [role], which is one of the values. *)
Definition update_mmr (self : Ratings) (change : Z) (role : string)
    : Py.result Ratings :=
  old <- Dict.getitem (role_ratings self) role ;;
  let updated := (old + change)%Z in
  let ratings := Dict.update (role_ratings self) role updated in
  Py.Ok {| role_ratings := ratings; mmr := max_of updated (Dict.values ratings) |}.

(** [not match.get('victory', False)] *)
Definition is_loss (entry : Core.HistoryEntry) : bool :=
  negb (Py.get (Core.victory entry) false).

Definition calculate_tilt (self : Core.Player) : Q :=
  match Core.performance_history self with
  | [] => 0
  | _ =>
      let recent_losses :=
        Z.of_nat
          (length (filter is_loss (Py.last_n 5 (Core.performance_history self)))) in
      Qmin 1 (inject_Z recent_losses * 0.2)
  end.

End PlayerOps.

(** ** performance.py: game state, impact scores and the overall score *)

Module PerformanceAnalysis.

Record PerformanceContext : Type := {
  game_state : string;
  game_time : Z;
  team_networth : Z;
  enemy_networth : Z;
  team_kills : Z;
  enemy_kills : Z;
  structures_standing : list (string * Z)
}.

(** [self.role_expectations] *)
Definition role_expectations : list (string * list (string * list (string * Q))) :=
  [("carry"%string,
    [("early_game"%string,
      [("gpm"%string, 500); ("xpm"%string, 600); ("lh"%string, 50)]);
     ("mid_game"%string,
      [("gpm"%string, 650); ("xpm"%string, 750); ("lh"%string, 160)]);
     ("late_game"%string,
      [("gpm"%string, 800); ("xpm"%string, 850); ("lh"%string, 300)])]);
   ("mid"%string,
    [("early_game"%string,
      [("gpm"%string, 450); ("xpm"%string, 550); ("rotations"%string, 1)]);
     ("mid_game"%string,
      [("gpm"%string, 600); ("xpm"%string, 700); ("rotations"%string, 3)]);
     ("late_game"%string,
      [("gpm"%string, 700); ("xpm"%string, 800); ("impact"%string, 0.7)])]);
   ("offlane"%string,
    [("early_game"%string,
      [("gpm"%string, 400); ("xpm"%string, 500); ("space"%string, 0.6)]);
     ("mid_game"%string,
      [("gpm"%string, 500); ("xpm"%string, 600); ("space"%string, 0.7)]);
     ("late_game"%string,
      [("gpm"%string, 600); ("xpm"%string, 700); ("impact"%string, 0.6)])]);
   ("soft_support"%string,
    [("early_game"%string, [("impact"%string, 0.6); ("rotations"%string, 2)]);
     ("mid_game"%string, [("impact"%string, 0.7); ("vision"%string, 0.7)]);
     ("late_game"%string, [("impact"%string, 0.7); ("saves"%string, 0.6)])]);
   ("hard_support"%string,
    [("early_game"%string, [("vision"%string, 0.7); ("harass"%string, 0.6)]);
     ("mid_game"%string, [("vision"%string, 0.8); ("saves"%string, 0.6)]);
     ("late_game"%string, [("vision"%string, 0.8); ("positioning"%string, 0.7)])])].

Definition determine_game_phase (game_time : Z) : string :=
  if (game_time <? 15)%Z then "early_game"
  else if (game_time <? 30)%Z then "mid_game"
  else "late_game".

(** The local [role_modifiers] of [get_role_state_modifier]. *)
Definition role_modifiers : list (string * list (string * Q)) :=
  [("carry"%string,
    [("kda"%string, 1.0); ("cs_per_min"%string, 1.2);
     ("damage_share"%string, 1.1); ("vision_score"%string, 0.8);
     ("objective_score"%string, 1.1)]);
   ("mid"%string,
    [("kda"%string, 1.1); ("cs_per_min"%string, 1.0);
     ("damage_share"%string, 1.1); ("vision_score"%string, 0.9);
     ("objective_score"%string, 1.0)]);
   ("offlane"%string,
    [("kda"%string, 0.9); ("cs_per_min"%string, 0.8);
     ("damage_share"%string, 1.0); ("vision_score"%string, 1.0);
     ("objective_score"%string, 1.2)]);
   ("soft_support"%string,
    [("kda"%string, 0.8); ("cs_per_min"%string, 0.6);
     ("damage_share"%string, 0.8); ("vision_score"%string, 1.2);
     ("objective_score"%string, 0.9)]);
   ("hard_support"%string,
    [("kda"%string, 0.7); ("cs_per_min"%string, 0.5);
     ("damage_share"%string, 0.7); ("vision_score"%string, 1.3);
     ("objective_score"%string, 0.8)])].

Definition get_role_state_modifier (role metric : string) : Q :=
  Dict.get (Dict.get role_modifiers role []) metric 1.0.

(** The local [state_multiplier] of [adjust_for_game_state]. *)
Definition state_multiplier : list (string * Q) :=
  [("winning"%string, 0.9); ("losing"%string, 1.2); ("even"%string, 1.0)].

Definition adjust_for_game_state
    (metrics : list (string * Q)) (context : PerformanceContext) (role : string)
    : Py.result (list (string * Q)) :=
  multiplier <- Dict.getitem state_multiplier (game_state context) ;;
  Py.Ok (map (fun item =>
                let role_modifier := get_role_state_modifier role (fst item) in
                (fst item, snd item * multiplier * role_modifier))
             metrics).

Fixpoint calculate_impact_scores
    (metrics expectations : list (string * Q)) (context : PerformanceContext)
    : Py.result (list (string * Q)) :=
  match metrics with
  | [] => Py.Ok []
  | (metric, value) :: rest =>
      if Dict.mem metric expectations then
        expected <- Dict.getitem expectations metric ;;
        let modifier :=
          if String.eqb (game_state context) "losing" then 1.2 else 1.0 in
        ratio <- Py.truediv value expected ;;
        scores <- calculate_impact_scores rest expectations context ;;
        Py.Ok ((metric, Qmin 1 (ratio * modifier)) :: scores)
      else calculate_impact_scores rest expectations context
  end.

(** The local [weights] of [calculate_overall_score]. *)
Definition weights : list (string * Q) :=
  [("kda"%string, 0.2); ("cs_per_min"%string, 0.15);
   ("damage_share"%string, 0.25); ("vision_score"%string, 0.2);
   ("objective_score"%string, 0.2)].

(** One turn of the loop of [calculate_overall_score] on the pair
    [(total_score, total_weight)]. *)
Definition accumulate (totals : Q * Q) (item : string * Q) : Q * Q :=
  let weight := Dict.get weights (fst item) 0.0 in
  (fst totals + snd item * weight, snd totals + weight).

Definition calculate_overall_score (impact_scores : list (string * Q)) : Q :=
  let totals := fold_left accumulate impact_scores (0.0, 0.0) in
  let final_score :=
    if Py.gtb (snd totals) 0 then fst totals / snd totals else 0.0 in
  Qmin 1 final_score.

(** The dict that [calculate_base_metrics] returns, with its keys. *)
Definition base_metrics_items (b : Performance.BaseMetrics) : list (string * Q) :=
  [("kda"%string, Performance.kda b);
   ("cs_per_min"%string, Performance.cs_per_min b);
   ("damage_share"%string, Performance.damage_share b);
   ("vision_score"%string, Performance.vision_score b);
   ("objective_score"%string, Performance.objective_score b)].

(** The dict returned by [analyze_performance]. *)
Record Analysis : Type := {
  base_metrics : list (string * Q);
  adjusted_metrics : list (string * Q);
  impact_scores : list (string * Q);
  overall_score : Q
}.

(** [role] is the attribute [player.role]; the class [Player] sets no such
    attribute, so it is [Some] only on a player to which it was attached. *)
Definition analyze_performance
    (role : option string) (player : Core.Player) (match_data : Core.MatchData)
    (context : PerformanceContext) : Py.result Analysis :=
  let phase := determine_game_phase (game_time context) in
  player_role <- Py.getattr role "role" ;;
  by_phase <- Dict.getitem role_expectations player_role ;;
  role_metrics <- Dict.getitem by_phase phase ;;
  base <- Performance.calculate_base_metrics player match_data ;;
  adjusted <- adjust_for_game_state (base_metrics_items base) context player_role ;;
  impact <- calculate_impact_scores adjusted role_metrics context ;;
  Py.Ok {| base_metrics := base_metrics_items base;
           adjusted_metrics := adjusted;
           impact_scores := impact;
           overall_score := calculate_overall_score impact |}.

End PerformanceAnalysis.

(** ** matchmaking/quality.py: role balance *)

Module RoleBalance.

Section Teams.

(** The attributes of a player that [assess_role_balance] reads. *)
Variable Player : Type.
Variable preferred_roles : Player -> list string.
Variable role_ratings : Player -> list (string * Z).

(** The generator [p.role_ratings[role] for p in players]. *)
Fixpoint ratings_for (players : list Player) (role : string) : Py.result (list Z) :=
  match players with
  | [] => Py.Ok []
  | p :: rest =>
      r <- Dict.getitem (role_ratings p) role ;;
      rs <- ratings_for rest role ;;
      Py.Ok (r :: rs)
  end.

Definition get_role_strength (team : list Player) (role : string) : Py.result Q :=
  let players :=
    filter (fun p => existsb (String.eqb role) (preferred_roles p)) team in
  match players with
  | [] => Py.Ok 0.0
  | p :: others =>
      r <- Dict.getitem (role_ratings p) role ;;
      rs <- ratings_for others role ;;
      Py.Ok (inject_Z (fold_left Z.max rs r))
  end.

Definition roles : list string :=
  ["carry"; "mid"; "offlane"; "soft_support"; "hard_support"]%string.

(** The loop that fills [role_differences]. *)
Fixpoint role_differences (team1 team2 : list Player) (rs : list string)
    : Py.result (list Q) :=
  match rs with
  | [] => Py.Ok []
  | role :: rest =>
      team1_strength <- get_role_strength team1 role ;;
      team2_strength <- get_role_strength team2 role ;;
      diffs <- role_differences team1 team2 rest ;;
      Py.Ok (Qabs (team1_strength - team2_strength) :: diffs)
  end.

Definition assess_role_balance (team1 team2 : list Player) : Py.result Q :=
  diffs <- role_differences team1 team2 roles ;;
  Py.Ok (1.0 - Qmin 1 (Py.sum diffs / inject_Z (1000 * Z.of_nat (length roles)))).

End Teams.

Arguments ratings_for {Player} role_ratings players role.
Arguments get_role_strength {Player} preferred_roles role_ratings team role.
Arguments role_differences {Player} preferred_roles role_ratings team1 team2 rs.
Arguments assess_role_balance {Player} preferred_roles role_ratings team1 team2.

End RoleBalance.

(** ** matchmaking/algorithm.py: team composition and the search *)

Module MatchSearch.

(** [itertools.combinations] raises ValueError on a negative size, an
    exception that the scoring code never raises itself. *)
Inductive raised : Type :=
| Builtin (e : Py.exn)
| ValueError (message : string).

Inductive outcome (A : Type) : Type :=
| Return (a : A)
| Raised (e : raised).

Arguments Return {A} a.
Arguments Raised {A} e.

Definition lift {A : Type} (r : Py.result A) : outcome A :=
  match r with
  | Py.Ok a => Return a
  | Py.Raise e => Raised (Builtin e)
  end.

Definition bind {A B : Type} (o : outcome A) (k : A -> outcome B) : outcome B :=
  match o with
  | Return a => k a
  | Raised e => Raised e
  end.

(** The subsequences of [pool] of length [r], in the order of
    [itertools.combinations]. *)
Fixpoint subsequences {A : Type} (pool : list A) (r : nat) : list (list A) :=
  match r with
  | O => [[]]
  | S r' =>
      match pool with
      | [] => []
      | x :: rest => map (cons x) (subsequences rest r') ++ subsequences rest r
      end
  end.

(** [list(itertools.combinations(pool, r))] *)
Definition combinations {A : Type} (pool : list A) (r : Z) : outcome (list (list A)) :=
  if (r <? 0)%Z then Raised (ValueError "r must be non-negative")
  else Return (subsequences pool (Z.to_nat r)).

Definition required_roles : list string :=
  ["carry"; "mid"; "offlane"; "soft_support"; "hard_support"]%string.

Section Search.

(** The attribute of a player that the composition check reads. *)
Variable Player : Type.
Variable preferred_roles : Player -> list string.

(** A match object and its two teams. *)
Variable Match : Type.
Variables team1 team2 : Match -> list Player.

Definition is_valid_team_composition
    (config : Algorithm.Config) (team : list Player) : bool :=
  if negb (Z.of_nat (length team) =? Algorithm.team_size config)%Z then false
  else
    let available_roles := flat_map preferred_roles team in
    forallb (fun role => existsb (String.eqb role) available_roles) required_roles.

(** What [MatchMaker] uses without defining it: two methods, and the
    name [Match], which algorithm.py does not import. *)
Record Missing : Type := {
  generate_team_splits :
    option (list Player -> Py.result (list (list Player * list Player)));
  remove_players_from_pool : option (Match -> list Player -> Py.result (list Player));
  match_class : option (list Player -> list Player -> Match)
}.

Definition as_written : Missing := {|
  generate_team_splits := None;
  remove_players_from_pool := None;
  match_class := None
|}.

(** The attributes of a [MatchMaker] that [find_match] reads and writes. *)
Record State : Type := {
  player_pool : list Player;
  recent_matches : list Match;
  quality_threshold : Q
}.

Variable missing : Missing.
Variable methods : Algorithm.Methods (list Player) Match.
Variable config : Algorithm.Config.

(** The inner loop of [generate_possible_matches], over the splits of one
    combination. *)
Fixpoint matches_of_splits (splits : list (list Player * list Player))
    : Py.result (list Match) :=
  match splits with
  | [] => Py.Ok []
  | team_split :: rest =>
      if is_valid_team_composition config (fst team_split)
         && is_valid_team_composition config (snd team_split)
      then
        make <- Py.load_global (match_class missing) "Match" ;;
        found <- matches_of_splits rest ;;
        Py.Ok (make (fst team_split) (snd team_split) :: found)
      else matches_of_splits rest
  end.

(** The outer loop, over the combinations. *)
Fixpoint matches_of_combinations (player_combinations : list (list Player))
    : Py.result (list Match) :=
  match player_combinations with
  | [] => Py.Ok []
  | players :: rest =>
      f <- Py.getattr (generate_team_splits missing) "generate_team_splits" ;;
      splits <- f players ;;
      here <- matches_of_splits splits ;;
      later <- matches_of_combinations rest ;;
      Py.Ok (here ++ later)
  end.

Definition generate_possible_matches (pool : list Player) : outcome (list Match) :=
  let team_size := Algorithm.team_size config in
  bind (combinations pool (team_size * 2))
       (fun player_combinations =>
          lift (matches_of_combinations player_combinations)).

(** The loop of [find_match] on the pair [(best_match, best_quality)]. *)
Fixpoint select_best (threshold : Q) (possible_matches : list Match)
    (best : option Match * Q) : Py.result (option Match * Q) :=
  match possible_matches with
  | [] => Py.Ok best
  | m :: rest =>
      quality <- Algorithm.evaluate_match_quality team1 team2 methods config m ;;
      if Py.gtb (Algorithm.overall_score quality) (snd best)
         && Py.geb (Algorithm.overall_score quality) threshold
      then select_best threshold rest (Some m, Algorithm.overall_score quality)
      else select_best threshold rest best
  end.

(** Returns the match found, if any, and the state left behind. *)
Definition find_match (self : State) : outcome (option Match * State) :=
  if (Z.of_nat (length (player_pool self)) <? Algorithm.team_size config * 2)%Z
  then Return (None, self)
  else
    bind (generate_possible_matches (player_pool self))
      (fun possible_matches =>
         bind (lift (select_best (quality_threshold self) possible_matches
                                 (None, 0.0)))
           (fun best =>
              match fst best with
              | Some best_match =>
                  lift
                    (f <- Py.getattr (remove_players_from_pool missing)
                                     "remove_players_from_pool" ;;
                     pool <- f best_match (player_pool self) ;;
                     Py.Ok (Some best_match,
                            {| player_pool := pool;
                               recent_matches := recent_matches self ++ [best_match];
                               quality_threshold := quality_threshold self |}))
              | None => Return (None, self)
              end)).

End Search.

Arguments is_valid_team_composition {Player} preferred_roles config team.
Arguments as_written {Player Match}.
Arguments select_best {Player Match} team1 team2 methods config threshold
  possible_matches best.
Arguments generate_possible_matches {Player} preferred_roles {Match} missing
  config pool.
Arguments find_match {Player} preferred_roles {Match} team1 team2 missing methods
  config self.
Arguments player_pool {Player Match} _.
Arguments recent_matches {Player Match} _.
Arguments quality_threshold {Player Match} _.

End MatchSearch.

(** ** Further inputs *)

Module Scenarios.

(** [m] with [last_hits] replaced. *)
Definition with_last_hits (m : Metrics.GameMetrics) (n : Z) : Metrics.GameMetrics := {|
  Metrics.kills := Metrics.kills m; Metrics.deaths := Metrics.deaths m;
  Metrics.assists := Metrics.assists m; Metrics.last_hits := n;
  Metrics.denies := Metrics.denies m; Metrics.gpm := Metrics.gpm m;
  Metrics.xpm := Metrics.xpm m; Metrics.hero_damage := Metrics.hero_damage m;
  Metrics.tower_damage := Metrics.tower_damage m;
  Metrics.hero_healing := Metrics.hero_healing m;
  Metrics.stun_duration := Metrics.stun_duration m;
  Metrics.camps_stacked := Metrics.camps_stacked m;
  Metrics.runes_collected := Metrics.runes_collected m;
  Metrics.wards_placed := Metrics.wards_placed m;
  Metrics.wards_destroyed := Metrics.wards_destroyed m;
  Metrics.teamfight_participation := Metrics.teamfight_participation m;
  Metrics.death_impact_score := Metrics.death_impact_score m
|}.

(** [m] with [deaths] replaced. *)
Definition with_deaths (m : Metrics.GameMetrics) (n : Z) : Metrics.GameMetrics := {|
  Metrics.kills := Metrics.kills m; Metrics.deaths := n;
  Metrics.assists := Metrics.assists m; Metrics.last_hits := Metrics.last_hits m;
  Metrics.denies := Metrics.denies m; Metrics.gpm := Metrics.gpm m;
  Metrics.xpm := Metrics.xpm m; Metrics.hero_damage := Metrics.hero_damage m;
  Metrics.tower_damage := Metrics.tower_damage m;
  Metrics.hero_healing := Metrics.hero_healing m;
  Metrics.stun_duration := Metrics.stun_duration m;
  Metrics.camps_stacked := Metrics.camps_stacked m;
  Metrics.runes_collected := Metrics.runes_collected m;
  Metrics.wards_placed := Metrics.wards_placed m;
  Metrics.wards_destroyed := Metrics.wards_destroyed m;
  Metrics.teamfight_participation := Metrics.teamfight_participation m;
  Metrics.death_impact_score := Metrics.death_impact_score m
|}.

(** A [game_data] with every key the calculators read. *)
Definition full_game_data : Metrics.GameData := {|
  Metrics.duration := Some 2400%Z; Metrics.team_damage := Some 100000%Z;
  Metrics.team_fights := Some 10%Z; Metrics.teleports_used := Some 6;
  Metrics.lane_participation :=
    Some [("top"%string, 0.5); ("mid"%string, 0.25); ("bot"%string, 1)];
  Metrics.objective_presence := Some 0.7;
  Metrics.enemy_attention_score := Some 0.6;
  Metrics.rotations_forced := Some 4;
  Metrics.team_tower_damage := Some 12000;
  Metrics.roshan_participation := Some 0.5;
  Metrics.objective_control := Some 0.4;
  Metrics.teamfight_damage_share := Some 0.3;
  Metrics.total_fight_duration := Some 400
|}.

(** A context with the given game state, 35 minutes into the game. *)
Definition context_of (state : string) : PerformanceAnalysis.PerformanceContext := {|
  PerformanceAnalysis.game_state := state;
  PerformanceAnalysis.game_time := 35;
  PerformanceAnalysis.team_networth := 50000;
  PerformanceAnalysis.enemy_networth := 42000;
  PerformanceAnalysis.team_kills := 30;
  PerformanceAnalysis.enemy_kills := 20;
  PerformanceAnalysis.structures_standing :=
    [("radiant"%string, 6%Z); ("dire"%string, 3%Z)]
|}.

(** Base metrics of a solid carry game. *)
Definition carry_metrics : list (string * Q) :=
  [("kda"%string, 12.5); ("cs_per_min"%string, 7.5);
   ("damage_share"%string, 0.25); ("vision_score"%string, 0.4);
   ("objective_score"%string, 0.6)].

(** Impact scores as [calculate_impact_scores] could produce them. *)
Definition some_impact_scores : list (string * Q) :=
  [("kda"%string, 1); ("damage_share"%string, 0.5); ("gpm"%string, 0.9)].

(** Statistics to which the ward counters were attached. *)
Definition warded_stats : Core.PlayerStats := {|
  Core.kills := 10; Core.deaths := 2; Core.assists := 15; Core.last_hits := 300;
  Core.denies := 20; Core.gpm := 650; Core.xpm := 750;
  Core.damage_dealt := 25000; Core.damage_taken := 12000; Core.healing := 1500;
  Core.building_damage := 5000; Core.vision_score := 0;
  Core.teamfight_participation := 0.8;
  Core.wards_placed := Some 15%Z; Core.wards_destroyed := Some 5%Z;
  Core.vision_uptime := None; Core.objective_participation := None;
  Core.roshan_participation := None
|}.

Definition warded_player : Core.Player := {|
  Core.id := "p1"; Core.mmr := 2000; Core.stats := warded_stats;
  Core.tilt_factor := 0; Core.performance_history := []
|}.

(** [match_data] of tests/test_performance.py, as far as it is read. *)
Definition test_match_data : Core.MatchData := {|
  Core.duration := Some 2400%Z;
  Core.team_total_damage := Some 100000%Z;
  Core.team_building_damage := None
|}.

(** The place of a tier in the order normal, very_good, excellent,
    exceptional. *)
Definition tier_rank (tier : string) : nat :=
  if String.eqb tier "exceptional" then 3
  else if String.eqb tier "excellent" then 2
  else if String.eqb tier "very_good" then 1
  else 0.

(** Definitions for the metric methods that [ExceptionalAnalyzer] lacks:
    every metric is 0.9 and the overall score is the game impact. *)
Definition steady_analyzer_methods : Exceptional.Methods unit unit := {|
  Exceptional.calculate_combat_score := Some (fun _ _ _ => Py.Ok 0.9);
  Exceptional.calculate_farm_efficiency := Some (fun _ _ _ => Py.Ok 0.9);
  Exceptional.calculate_map_impact := Some (fun _ _ => Py.Ok 0.9);
  Exceptional.calculate_objective_control := Some (fun _ _ => Py.Ok 0.9);
  Exceptional.calculate_teamfight_contribution := Some (fun _ _ => Py.Ok 0.9);
  Exceptional.calculate_vision_control := Some (fun _ _ => Py.Ok 0.9);
  Exceptional.calculate_utility_score := Some (fun _ _ => Py.Ok 0.9);
  Exceptional.calculate_overall_score :=
    Some (fun m => Py.Ok (Exceptional.game_impact m))
|}.

(** [p] with its history replaced. *)
Definition with_history (p : Core.Player) (history : list Core.HistoryEntry)
    : Core.Player := {|
  Core.id := Core.id p; Core.mmr := Core.mmr p; Core.stats := Core.stats p;
  Core.tilt_factor := Core.tilt_factor p; Core.performance_history := history
|}.

(** Definitions for the missing checks of [SafetyChecker] in which the
    tilt check fails and the game-balance check fails after it. *)
Definition tilted_safety_methods : Safety.Methods := {|
  Safety.check_teamfight_participation := Some (fun _ _ => Py.Ok (true, ""%string));
  Safety.check_tilt_factor :=
    Some (fun _ => Py.Ok (false, "Player tilt factor too high"%string));
  Safety.check_game_balance :=
    Some (fun _ => Py.Ok (false, "Game was too one-sided"%string));
  Safety.check_recent_performances := Some (fun _ => Py.Ok (true, ""%string));
  Safety.check_impossible_stats := Some (fun _ => Py.Ok false);
  Safety.check_unusual_ratios := Some (fun _ => Py.Ok false);
  Safety.check_consistency_patterns := Some (fun _ => Py.Ok false)
|}.

(** A small matchmaker: players are names, each of them prefers every
    role, teams have one player, a combination of two players is split
    into its first and its second player, and the selected players leave
    the pool. *)
Definition any_role (player : string) : list string := MatchSearch.required_roles.

Definition duel_config : Algorithm.Config := {|
  Algorithm.team_size := 1;
  Algorithm.max_mmr_spread := 1000;
  Algorithm.min_quality_threshold := 0.8;
  Algorithm.role_importance := 0.3;
  Algorithm.skill_importance := 0.3;
  Algorithm.synergy_importance := 0.2;
  Algorithm.communication_importance := 0.2
|}.

Definition duel_missing
    : MatchSearch.Missing string (list string * list string) := {|
  MatchSearch.generate_team_splits :=
    Some (fun players => Py.Ok [(firstn 1 players, skipn 1 players)]);
  MatchSearch.remove_players_from_pool :=
    Some (fun m pool =>
            Py.Ok (filter
                     (fun p => negb (existsb (String.eqb p) (fst m ++ snd m)))
                     pool));
  MatchSearch.match_class := Some (fun team1 team2 => (team1, team2))
|}.

Definition rating_of (player : string) : Q :=
  if String.eqb player "ana" then 2000
  else if String.eqb player "bo" then 2100
  else 2900.

Definition duel_methods
    : Algorithm.Methods (list string) (list string * list string) := {|
  Algorithm.calculate_team_mmr :=
    Some (fun team => Py.Ok (Py.sum (map rating_of team)));
  Algorithm.calculate_role_synergy := Some (fun _ => Py.Ok 1);
  Algorithm.calculate_skill_distribution := Some (fun _ => Py.Ok 1);
  Algorithm.evaluate_communication_compatibility := Some (fun _ => Py.Ok 1);
  Algorithm.calculate_hero_synergy := Some (fun _ => Py.Ok 1)
|}.

Definition duel_state
    : MatchSearch.State string (list string * list string) := {|
  MatchSearch.player_pool := ["ana"; "bo"; "cy"]%string;
  MatchSearch.recent_matches := [];
  MatchSearch.quality_threshold := 0.8
|}.

(** The role ratings of the players above: those of a new player with
    the player's rating. *)
Definition role_ratings_of (player : string) : list (string * Z) :=
  PlayerOps.role_ratings
    (PlayerOps.initial
       (if String.eqb player "ana" then 2000
        else if String.eqb player "bo" then 2100 else 2900)).

End Scenarios.

(** * Properties *)

(** ** Runtime lemmas *)

Lemma truediv_zero (x y : Q) : y == 0 -> Py.truediv x y = Py.Raise Py.ZeroDivisionError.
Proof.
  intros Hy. unfold Py.truediv.
  destruct (Qeq_bool y 0) eqn:E; [reflexivity|].
  apply Qeq_bool_neq in E. contradiction.
Qed.

Lemma truediv_nonzero (x y : Q) : ~ y == 0 -> Py.truediv x y = Py.Ok (x / y).
Proof.
  intros Hy. unfold Py.truediv.
  destruct (Qeq_bool y 0) eqn:E; [|reflexivity].
  apply Qeq_bool_iff in E. contradiction.
Qed.

Lemma truediv_pos (x y : Q) : 0 < y -> Py.truediv x y = Py.Ok (x / y).
Proof. intros Hy. apply truediv_nonzero. lra. Qed.

Lemma truediv_neg (x y : Q) : y < 0 -> Py.truediv x y = Py.Ok (x / y).
Proof. intros Hy. apply truediv_nonzero. lra. Qed.

Lemma leb_iff (x y : Q) : Py.leb x y = true <-> x <= y.
Proof. apply Qle_bool_iff. Qed.

Lemma ltb_iff (x y : Q) : Py.ltb x y = true <-> x < y.
Proof.
  unfold Py.ltb. rewrite negb_true_iff.
  destruct (Qle_bool y x) eqn:E.
  - apply Qle_bool_iff in E. split; [discriminate | lra].
  - split; [intros _ | reflexivity].
    apply Qnot_le_lt. intros H. apply Qle_bool_iff in H. congruence.
Qed.

Lemma geb_iff (x y : Q) : Py.geb x y = true <-> y <= x.
Proof. apply leb_iff. Qed.

Lemma gtb_iff (x y : Q) : Py.gtb x y = true <-> y < x.
Proof. apply ltb_iff. Qed.

Lemma geb_false_iff (x y : Q) : Py.geb x y = false <-> x < y.
Proof.
  rewrite <- not_true_iff_false, geb_iff. split; intros H; lra.
Qed.

Lemma gtb_false_iff (x y : Q) : Py.gtb x y = false <-> x <= y.
Proof.
  rewrite <- not_true_iff_false, gtb_iff. split; intros H; lra.
Qed.

(** [min(1.0, x)] and [max(0, x)] clamp. *)
Lemma clamp_min_unit (x : Q) : 0 <= x -> in_unit_interval (Qmin 1 x).
Proof.
  intros Hx. split; [apply Q.min_glb; lra | apply Q.le_min_l].
Qed.

Lemma clamp_min_max_unit (x : Q) : in_unit_interval (Qmin 1 (Qmax 0 x)).
Proof. apply clamp_min_unit, Q.le_max_l. Qed.

Lemma div_nonneg (x y : Q) : 0 <= x -> 0 < y -> 0 <= x / y.
Proof.
  intros Hx Hy. apply Qle_shift_div_l; [exact Hy | lra].
Qed.

Lemma div_nonpos_of_neg (x y : Q) : 0 <= x -> y < 0 -> x / y <= 0.
Proof.
  intros Hx Hy.
  assert (Hmul : x / y * y == x) by (field; lra).
  destruct (Qlt_le_dec 0 (x / y)) as [Hpos | Hle]; [| exact Hle].
  assert (0 < x / y * - y) by (apply Qmult_lt_0_compat; lra).
  lra.
Qed.

Lemma inject_Z_nonneg (z : Z) : (0 <= z)%Z -> 0 <= inject_Z z.
Proof. intros H. change 0 with (inject_Z 0). rewrite <- Zle_Qle. exact H. Qed.

Lemma inject_Z_pos (z : Z) : (0 < z)%Z -> 0 < inject_Z z.
Proof. intros H. change 0 with (inject_Z 0). rewrite <- Zlt_Qlt. exact H. Qed.

Lemma inject_Z_max_pos (z : Z) : 0 < inject_Z (Z.max 1 z).
Proof. apply inject_Z_pos. lia. Qed.

Lemma minutes_pos (d : Z) : (0 < d)%Z -> 0 < inject_Z d / 60.
Proof.
  intros H. apply Qlt_shift_div_l; [reflexivity|].
  pose proof (inject_Z_pos d H). lra.
Qed.

(** A weighted blend of values of the unit interval stays in it when the
    weights are non-negative and sum to one. *)
Lemma blend2_unit (a b wa wb : Q) :
  in_unit_interval a -> in_unit_interval b ->
  0 <= wa -> 0 <= wb -> wa + wb == 1 ->
  in_unit_interval (a * wa + b * wb).
Proof.
  intros [Ha0 Ha1] [Hb0 Hb1] Hwa Hwb Hs. split.
  - pose proof (Qmult_le_0_compat _ _ Ha0 Hwa).
    pose proof (Qmult_le_0_compat _ _ Hb0 Hwb). lra.
  - assert (a * wa <= 1 * wa) by (apply Qmult_le_compat_r; assumption).
    assert (b * wb <= 1 * wb) by (apply Qmult_le_compat_r; assumption).
    lra.
Qed.

Lemma blend3_unit (a b c wa wb wc : Q) :
  in_unit_interval a -> in_unit_interval b -> in_unit_interval c ->
  0 <= wa -> 0 <= wb -> 0 <= wc -> wa + wb + wc == 1 ->
  in_unit_interval (a * wa + b * wb + c * wc).
Proof.
  intros [Ha0 Ha1] [Hb0 Hb1] [Hc0 Hc1] Hwa Hwb Hwc Hs. split.
  - pose proof (Qmult_le_0_compat _ _ Ha0 Hwa).
    pose proof (Qmult_le_0_compat _ _ Hb0 Hwb).
    pose proof (Qmult_le_0_compat _ _ Hc0 Hwc). lra.
  - assert (a * wa <= 1 * wa) by (apply Qmult_le_compat_r; assumption).
    assert (b * wb <= 1 * wb) by (apply Qmult_le_compat_r; assumption).
    assert (c * wc <= 1 * wc) by (apply Qmult_le_compat_r; assumption).
    lra.
Qed.

(** ** metrics.py: the calculators that clamp *)

Lemma average_unit (a b : Q) :
  in_unit_interval a -> in_unit_interval b -> in_unit_interval ((a + b) / 2).
Proof.
  intros [Ha0 Ha1] [Hb0 Hb1]. split.
  - apply Qle_shift_div_l; [reflexivity | lra].
  - apply Qle_shift_div_r; [reflexivity | lra].
Qed.

Lemma role_expectations_pos (role : Metrics.Role) :
  0 < Metrics.cs (Metrics.role_expectations role) /\
  0 < Metrics.exp_gpm (Metrics.role_expectations role).
Proof. destruct role; split; reflexivity. Qed.

Lemma role_damage_expectations_pos (role : Metrics.Role) :
  0 < Metrics.role_damage_expectations role.
Proof. destruct role; reflexivity. Qed.

Lemma role_death_thresholds_pos (role : Metrics.Role) :
  0 < Metrics.role_death_thresholds role.
Proof. destruct role; reflexivity. Qed.

Ltac step_div :=
  match goal with
  | |- context [Py.truediv ?x ?y] =>
      rewrite (truediv_pos x y); [cbn [Py.bind] |]
  end.

Lemma farming_efficiency_range (m : Metrics.GameMetrics) (d : Z) (role : Metrics.Role) :
  (0 < d)%Z -> (0 <= Metrics.last_hits m)%Z -> 0 <= Metrics.gpm m ->
  Py.returns (Metrics.calculate_farming_efficiency m d role) in_unit_interval.
Proof.
  intros Hd Hlh Hgpm. unfold Metrics.calculate_farming_efficiency.
  destruct (role_expectations_pos role) as [Hcs Hexp].
  pose proof (minutes_pos d Hd) as Hmin.
  assert (Hden : 0 < Metrics.cs (Metrics.role_expectations role) * (inject_Z d / 60))
    by (apply Qmult_lt_0_compat; assumption).
  cbv zeta.
  step_div; [| exact Hden].
  step_div; [| exact Hexp].
  cbn [Py.returns].
  apply average_unit; apply clamp_min_unit; apply div_nonneg;
    auto using inject_Z_nonneg.
Qed.

Lemma combat_efficiency_range (m : Metrics.GameMetrics) (td : Z) (role : Metrics.Role) :
  (0 <= Metrics.hero_damage m)%Z -> (0 <= Metrics.kills m)%Z ->
  (0 <= Metrics.assists m)%Z ->
  Py.returns (Metrics.calculate_combat_efficiency m td role) in_unit_interval.
Proof.
  intros Hhd Hk Ha. unfold Metrics.calculate_combat_efficiency.
  pose proof (role_damage_expectations_pos role) as Hexp.
  step_div; [| apply inject_Z_max_pos].
  step_div; [| apply inject_Z_max_pos].
  step_div; [| exact Hexp].
  cbn [Py.returns].
  assert (Hshare : 0 <= inject_Z (Metrics.hero_damage m) /
                         inject_Z (Z.max 1 td))
    by (apply div_nonneg; [apply inject_Z_nonneg; assumption | apply inject_Z_max_pos]).
  assert (Hkda : 0 <= inject_Z (Metrics.kills m + Metrics.assists m) /
                       inject_Z (Z.max 1 (Metrics.deaths m)))
    by (apply div_nonneg; [apply inject_Z_nonneg; lia | apply inject_Z_max_pos]).
  apply blend2_unit; try lra.
  - apply clamp_min_unit, div_nonneg; assumption.
  - apply clamp_min_unit, div_nonneg; [assumption | reflexivity].
Qed.

Lemma vision_score_range (m : Metrics.GameMetrics) (d : Z) :
  (0 < d)%Z -> (0 <= Metrics.wards_placed m)%Z ->
  (0 <= Metrics.wards_destroyed m)%Z ->
  Py.returns (Metrics.calculate_vision_score m d) in_unit_interval.
Proof.
  intros Hd Hp Hw. unfold Metrics.calculate_vision_score.
  pose proof (minutes_pos d Hd) as Hmin. cbv zeta.
  step_div; [| exact Hmin].
  step_div; [| exact Hmin].
  cbn [Py.returns].
  apply clamp_min_unit, div_nonneg; [| reflexivity].
  pose proof (div_nonneg _ _ (inject_Z_nonneg _ Hp) Hmin).
  pose proof (div_nonneg _ _ (inject_Z_nonneg _ Hw) Hmin).
  lra.
Qed.

Lemma utility_score_range (m : Metrics.GameMetrics) (tf : Z) :
  (0 < tf)%Z -> 0 <= Metrics.stun_duration m ->
  (0 <= Metrics.hero_healing m)%Z -> 0 <= Metrics.teamfight_participation m ->
  Py.returns (Metrics.calculate_utility_score m tf) in_unit_interval.
Proof.
  intros Htf Hstun Hheal Hpart. unfold Metrics.calculate_utility_score.
  assert (Hden : 0 < inject_Z (tf * 5)) by (apply inject_Z_pos; lia).
  step_div; [| exact Hden].
  cbn [Py.returns].
  apply blend3_unit; try lra.
  - apply clamp_min_unit, div_nonneg; assumption.
  - apply clamp_min_unit, div_nonneg;
      [apply inject_Z_nonneg; assumption | reflexivity].
  - apply clamp_min_unit; assumption.
Qed.

Lemma survival_score_range (m : Metrics.GameMetrics) (d : Z) (role : Metrics.Role) :
  (0 < d)%Z -> Metrics.death_impact_score m = None ->
  Py.returns (Metrics.calculate_survival_score m d role) in_unit_interval.
Proof.
  intros Hd Himpact. unfold Metrics.calculate_survival_score.
  pose proof (minutes_pos d Hd) as Hmin. cbv zeta.
  step_div; [| exact Hmin].
  step_div; [| apply role_death_thresholds_pos].
  rewrite Himpact. cbn [Py.returns].
  apply clamp_min_max_unit.
Qed.

Lemma space_creation_range (m : Metrics.GameMetrics) (g : Metrics.GameData) (d : Z) :
  Metrics.duration g = Some d ->
  (0 <= Metrics.tower_damage m)%Z ->
  0 <= Py.get (Metrics.enemy_attention_score g) 0.5 ->
  0 <= Py.get (Metrics.rotations_forced g) 0 ->
  Py.returns (Metrics.calculate_space_creation m g) in_unit_interval.
Proof.
  intros Hdur Htd Hatt Hrot. unfold Metrics.calculate_space_creation.
  rewrite Hdur. cbn [Py.getitem Py.bind].
  step_div; [| apply inject_Z_max_pos].
  cbn [Py.returns].
  apply clamp_min_unit.
  assert (Hp : in_unit_interval
                 (Qmin 1 (inject_Z (Metrics.tower_damage m) /
                          inject_Z (Z.max 1 d) / 100))).
  { apply clamp_min_unit, div_nonneg; [| reflexivity].
    apply div_nonneg; [apply inject_Z_nonneg; assumption | apply inject_Z_max_pos]. }
  assert (Hr : in_unit_interval (Qmin 1 (Py.get (Metrics.rotations_forced g) 0 / 10))).
  { apply clamp_min_unit, div_nonneg; [assumption | reflexivity]. }
  destruct Hp as [Hp0 _]. destruct Hr as [Hr0 _]. lra.
Qed.

Ltac q_decide :=
  vm_compute; first [reflexivity | discriminate | intro; discriminate].

Lemma sample_metrics_well_formed : Inputs.well_formed Inputs.sample_metrics.
Proof. unfold Inputs.well_formed, in_unit_interval. repeat split; q_decide. Qed.

Lemma default_metrics_well_formed : Inputs.well_formed Inputs.default_metrics.
Proof. unfold Inputs.well_formed, in_unit_interval. repeat split; q_decide. Qed.

(** ** C2: the blends that do not clamp *)

(** Without the optional keys of [game_data] the objective score is half
    the player's tower damage, whatever its size. *)
Lemma objective_focus_without_optional_keys
    (m : Metrics.GameMetrics) (g : Metrics.GameData) :
  Metrics.team_tower_damage g = None ->
  Metrics.roshan_participation g = None ->
  Metrics.objective_control g = None ->
  Py.returns (Metrics.calculate_objective_focus m g)
    (fun v => v == inject_Z (Metrics.tower_damage m) / 2).
Proof.
  intros Ht Hr Ho. unfold Metrics.calculate_objective_focus.
  rewrite Ht, Hr, Ho. cbn [Py.get].
  rewrite truediv_pos by reflexivity. cbn [Py.bind Py.returns].
  change (Qmax 1 1) with 1.
  unfold Qdiv. setoid_replace (/ 1) with 1 by reflexivity.
  setoid_replace (/ 2) with 0.5 by reflexivity. ring.
Qed.

(** C2 (code defect witnessed on the input of the repository's own test).
    The specification asks every sub-score calculator to return a value in [0,1]
    on in-domain input.  On the statistics and the three-key [game_data]
    of [test_overall_performance] (well-formed, duration 2400 > 0, team
    damage 100000 > 0) [calculate_objective_focus] returns 2500 and
    [calculate_teamfight_impact] returns 30.32, neither being clamped, and
    the carry's overall score, which the test asserts to be at most 1,
    exceeds 500. *)
Theorem C2_unclamped_blends_exceed_one :
  Inputs.well_formed Inputs.sample_metrics /\
  Py.returns
    (Metrics.calculate_objective_focus Inputs.sample_metrics Inputs.sample_game_data)
    (fun v => v == 2500) /\
  Py.returns
    (Metrics.calculate_teamfight_impact Inputs.sample_metrics Inputs.sample_game_data)
    (fun v => v == 30.32) /\
  Py.returns
    (Metrics.calculate_overall_performance
       Inputs.sample_metrics Inputs.sample_game_data Metrics.carry)
    (fun r => 500 < Metrics.overall_score r).
Proof.
  split; [exact sample_metrics_well_formed |].
  repeat split; q_decide.
Qed.

(** ** C3: divisors *)

Lemma utility_score_divisor_zero (m : Metrics.GameMetrics) :
  Metrics.calculate_utility_score m 0 = Py.Raise Py.ZeroDivisionError.
Proof. reflexivity. Qed.

(** C3 (code defect).  The specification asks that no calculator raises on
    well-formed input and that every divisor read from the input is
    raised to at least 1 first.  [calculate_utility_score] divides by
    [team_fights * 5] as it is: with a teamfight count of 0 it raises
    ZeroDivisionError whatever the statistics are. *)
Theorem C3_utility_score_zero_teamfights (m : Metrics.GameMetrics) :
  Metrics.calculate_utility_score m 0 = Py.Raise Py.ZeroDivisionError.
Proof. apply utility_score_divisor_zero. Qed.

(** The whole aggregation fails the same way on in-domain input. *)
Lemma overall_performance_zero_teamfights
    (m : Metrics.GameMetrics) (d td : Z) (role : Metrics.Role) :
  Inputs.well_formed m -> (0 < d)%Z -> (0 < td)%Z ->
  Metrics.calculate_overall_performance m (Inputs.game_data_of d td 0) role
  = Py.Raise Py.ZeroDivisionError.
Proof.
  intros Hwf Hd Htd.
  destruct Hwf as (Hk & Hde & Ha & Hlh & _ & Hgpm & _ & Hhd & _ & _ & _ & _ & _
                   & Hwp & Hwd & _ & _).
  unfold Metrics.calculate_overall_performance, Inputs.game_data_of.
  cbn [Metrics.duration Metrics.team_damage Metrics.team_fights Py.getitem Py.bind].
  pose proof (farming_efficiency_range m d role Hd Hlh Hgpm) as Hfarm.
  destruct (Metrics.calculate_farming_efficiency m d role); [| contradiction].
  pose proof (combat_efficiency_range m td role Hhd Hk Ha) as Hcombat.
  destruct (Metrics.calculate_combat_efficiency m td role); [| contradiction].
  pose proof (vision_score_range m d Hd Hwp Hwd) as Hvision.
  destruct (Metrics.calculate_vision_score m d); [| contradiction].
  cbn [Py.bind]. rewrite utility_score_divisor_zero. reflexivity.
Qed.

(** [calculate_base_metrics] divides by [team_total_damage] as it is. *)
Lemma base_metrics_damage_divisor_not_clamped
    (p : Core.Player) (md : Core.MatchData) (d : Z) :
  Core.duration md = Some d -> d <> 0%Z ->
  Core.team_total_damage md = Some 0%Z ->
  Performance.calculate_base_metrics p md = Py.Raise Py.ZeroDivisionError.
Proof.
  intros Hd Hnz Ht. unfold Performance.calculate_base_metrics.
  rewrite truediv_pos by apply inject_Z_max_pos. cbn [Py.bind].
  rewrite Hd, Ht. cbn [Py.getitem Py.bind].
  rewrite truediv_nonzero; [reflexivity |].
  intros H. apply Hnz.
  assert (H60 : inject_Z d == 0).
  { setoid_replace (inject_Z d) with (inject_Z d / 60 * 60) by (field).
    rewrite H. reflexivity. }
  unfold Qeq in H60. cbn in H60. lia.
Qed.

(** On a [PlayerStats] with the declared fields only the vision part of
    [calculate_base_metrics] cannot be computed. *)
Lemma base_metrics_on_declared_stats
    (p : Core.Player) (md : Core.MatchData) (d t : Z) :
  Core.as_declared (Core.stats p) ->
  Core.duration md = Some d -> (0 < d)%Z ->
  Core.team_total_damage md = Some t -> (0 < t)%Z ->
  Performance.calculate_base_metrics p md
  = Py.Raise (Py.AttributeError "wards_placed").
Proof.
  intros (Hwp & _) Hd Hdpos Ht Htpos.
  unfold Performance.calculate_base_metrics, Performance.calculate_vision_score.
  rewrite truediv_pos by apply inject_Z_max_pos. cbn [Py.bind].
  rewrite Hd, Ht. cbn [Py.getitem Py.bind].
  rewrite truediv_pos by (apply minutes_pos; assumption). cbn [Py.bind].
  rewrite truediv_pos by (apply inject_Z_pos; assumption). cbn [Py.bind].
  rewrite Hwp. reflexivity.
Qed.

(** ** C4: farm efficiency on a non-positive duration *)

(** With a negative duration the calculator does not raise: the last-hit
    ratio is then not positive (for non-negative last hits), so
    [min(1.0, .)] leaves it as it is, and the result is the mean of that
    ratio and of the clamped gold ratio. *)
Lemma farming_efficiency_negative_duration
    (m : Metrics.GameMetrics) (d : Z) (role : Metrics.Role) :
  (d < 0)%Z -> (0 <= Metrics.last_hits m)%Z ->
  let expected := Metrics.role_expectations role in
  let cs_ratio :=
    inject_Z (Metrics.last_hits m) / (Metrics.cs expected * (inject_Z d / 60)) in
  Py.returns (Metrics.calculate_farming_efficiency m d role)
    (fun v =>
       cs_ratio <= 0 /\
       v == (cs_ratio + Qmin 1 (Metrics.gpm m / Metrics.exp_gpm expected)) / 2).
Proof.
  intros Hd Hlh expected cs_ratio.
  destruct (role_expectations_pos role) as [Hcs Hexp].
  fold expected in Hcs, Hexp.
  assert (Hmin : inject_Z d / 60 < 0).
  { apply Qlt_shift_div_r; [reflexivity |].
    assert (Hneg : inject_Z d < inject_Z 0) by (rewrite <- Zlt_Qlt; lia).
    change (inject_Z 0) with 0 in Hneg. lra. }
  assert (Hden : Metrics.cs expected * (inject_Z d / 60) < 0).
  { setoid_replace (Metrics.cs expected * (inject_Z d / 60))
      with (- (Metrics.cs expected * - (inject_Z d / 60))) by ring.
    assert (0 < Metrics.cs expected * - (inject_Z d / 60))
      by (apply Qmult_lt_0_compat; lra).
    lra. }
  assert (Hratio : cs_ratio <= 0).
  { apply (div_nonpos_of_neg _ _ (inject_Z_nonneg _ Hlh) Hden). }
  unfold Metrics.calculate_farming_efficiency. cbv zeta. fold expected.
  rewrite truediv_neg by exact Hden. cbn [Py.bind].
  rewrite truediv_pos by exact Hexp. cbn [Py.bind Py.returns].
  split; [exact Hratio |].
  fold cs_ratio. rewrite (Q.min_r 1 cs_ratio) by lra. reflexivity.
Qed.

(** The space-creation calculator of the same class divides by the same
    duration, raised to at least 1 first: it returns at duration 0. *)
Lemma space_creation_guards_duration
    (m : Metrics.GameMetrics) (td tf : Z) :
  exists v,
    Metrics.calculate_space_creation m (Inputs.game_data_of 0 td tf) = Py.Ok v.
Proof.
  unfold Metrics.calculate_space_creation, Inputs.game_data_of.
  cbn [Metrics.duration Metrics.enemy_attention_score Metrics.rotations_forced
       Py.getitem Py.bind].
  rewrite (truediv_pos _ _ (inject_Z_max_pos 0)). cbn [Py.bind].
  eexists. reflexivity.
Qed.

(** C4 (code defect).  The specification asks that the farm-efficiency
    calculator returns 0 when the duration is not positive, without
    raising.  [calculate_farming_efficiency] has no test of the duration:
    with duration 0 the divisor [expected['cs'] * minutes] is 0 and the
    call raises ZeroDivisionError, whatever the statistics and the role;
    with duration -60 on the test statistics it returns -14.5, which is
    neither 0 nor a score. *)
Theorem C4_farming_efficiency_unguarded_duration :
  (forall (m : Metrics.GameMetrics) (role : Metrics.Role),
      Metrics.calculate_farming_efficiency m 0 role
      = Py.Raise Py.ZeroDivisionError) /\
  Py.returns
    (Metrics.calculate_farming_efficiency Inputs.sample_metrics (-60) Metrics.carry)
    (fun v => v == -14.5 /\ ~ v == 0 /\ ~ in_unit_interval v).
Proof.
  split.
  - intros m role. unfold Metrics.calculate_farming_efficiency. cbv zeta.
    rewrite truediv_zero; [reflexivity |].
    setoid_replace (inject_Z 0 / 60) with 0 by reflexivity. ring.
  - vm_compute. split; [reflexivity |]. split; [discriminate |].
    intros [H _]. apply H. reflexivity.
Qed.

(** ** C1: the weight tables *)

Lemma role_weights_sum (role : Metrics.Role) :
  Py.sum (map snd (Metrics.role_weights role)) == 1.
Proof. destruct role; reflexivity. Qed.

(** The seven weights of [calculate_game_impact] sum to one: on a bundle
    whose components all equal [v] the impact is [v]. *)
Lemma game_impact_weights_sum (v : Q) :
  Exceptional.calculate_game_impact (Inputs.uniform_metrics v) == v.
Proof.
  unfold Exceptional.calculate_game_impact, Py.sum. cbn. ring.
Qed.

Lemma quality_weights_sum (v : Q) :
  Py.sum (map snd Quality.weights) == 1 /\
  Py.returns (Quality.calculate_overall_quality (Inputs.uniform_quality v))
             (fun overall => overall == v).
Proof.
  split; [reflexivity |].
  unfold Quality.calculate_overall_quality, Py.sum. cbn. ring.
Qed.

(** What [evaluate_match_quality] combines, for any definitions of the
    methods it lacks: the two skill-based sub-scores both take
    [skill_importance]. *)
Lemma match_quality_overall_score
    (Team Match : Type) (team1 team2 : Match -> Team)
    (self : Algorithm.Methods Team Match) (config : Algorithm.Config)
    (m : Match) (q : Algorithm.MatchQuality) :
  Algorithm.evaluate_match_quality team1 team2 self config m = Py.Ok q ->
  Algorithm.overall_score q ==
    Algorithm.team_balance q * Algorithm.skill_importance config +
    Algorithm.role_synergy q * Algorithm.role_importance config +
    Algorithm.skill_distribution q * Algorithm.skill_importance config +
    Algorithm.communication_compatibility q *
      Algorithm.communication_importance config +
    Algorithm.hero_synergy q * Algorithm.synergy_importance config.
Proof.
  unfold Algorithm.evaluate_match_quality. intros H.
  destruct (Algorithm.calculate_team_balance _ _ _ _ _); [| discriminate].
  cbn [Py.bind] in H.
  repeat match type of H with
         | context [Py.getattr ?o ?n] =>
             destruct o as [? |]; cbn [Py.getattr Py.bind] in H; [| discriminate]
         | context [Py.bind (?f m) _] =>
             destruct (f m); cbn [Py.bind] in H; [| discriminate]
         end.
  injection H as <-. reflexivity.
Qed.

(** The class as written cannot score a match at all: the first method
    it needs is not defined. *)
Lemma evaluate_match_quality_as_written
    (Team Match : Type) (team1 team2 : Match -> Team)
    (config : Algorithm.Config) (m : Match) :
  Algorithm.evaluate_match_quality team1 team2 Algorithm.as_written config m
  = Py.Raise (Py.AttributeError "calculate_team_mmr").
Proof. reflexivity. Qed.

(** C1 (code defect in the match-quality weights).  The five role tables
    of the aggregator, the seven [game_impact] weights and the five
    weights of [QualityAssessment.calculate_overall_quality] each sum to
    exactly 1.  The weights that [MatchMaker.evaluate_match_quality]
    applies to its five sub-scores are 0.3, 0.3, 0.3, 0.2 and 0.2
    ([skill_importance] is used twice): they sum to 1.3, so five perfect
    sub-scores give an overall score of 1.3, which is off 1 by far more
    than 1e-9. *)
Theorem C1_weight_sums :
  (forall role, Py.sum (map snd (Metrics.role_weights role)) == 1) /\
  (forall v, Exceptional.calculate_game_impact (Inputs.uniform_metrics v) == v) /\
  Py.sum (map snd Quality.weights) == 1 /\
  Algorithm.skill_importance Algorithm.default_config +
  Algorithm.role_importance Algorithm.default_config +
  Algorithm.skill_importance Algorithm.default_config +
  Algorithm.communication_importance Algorithm.default_config +
  Algorithm.synergy_importance Algorithm.default_config == 1.3 /\
  Py.returns
    (Algorithm.evaluate_match_quality (fun m : unit => m) (fun m : unit => m)
       Inputs.perfect_match_methods Algorithm.default_config tt)
    (fun q =>
       Algorithm.team_balance q == 1 /\ Algorithm.role_synergy q == 1 /\
       Algorithm.skill_distribution q == 1 /\
       Algorithm.communication_compatibility q == 1 /\
       Algorithm.hero_synergy q == 1 /\
       Algorithm.overall_score q == 1.3 /\
       1 + 1 / 1000000000 < Algorithm.overall_score q).
Proof.
  split; [exact role_weights_sum |].
  split; [exact game_impact_weights_sum |].
  repeat split; q_decide.
Qed.

(** ** C5: the sequential gate of the safety checker *)

(** The loop returns the reason of the first invalid check. *)
Lemma first_failure_found (passed : list Safety.Check) (reason : string)
    (rest : list Safety.Check) :
  Forall (fun c => fst c = true) passed ->
  Safety.first_failure (passed ++ (false, reason) :: rest) = (false, reason).
Proof.
  induction 1 as [| [valid r] passed Hvalid _ IH]; cbn.
  - reflexivity.
  - cbn in Hvalid. subst valid. cbn. exact IH.
Qed.

Lemma first_failure_none (checks : list Safety.Check) :
  Forall (fun c => fst c = true) checks ->
  Safety.first_failure checks = (true, ""%string).
Proof.
  induction 1 as [| [valid r] checks Hvalid _ IH]; cbn.
  - reflexivity.
  - cbn in Hvalid. subst valid. cbn. exact IH.
Qed.

Lemma first_failure_valid_iff (checks : list Safety.Check) :
  fst (Safety.first_failure checks) = true <->
  Forall (fun c => fst c = true) checks.
Proof.
  induction checks as [| [valid r] checks IH]; cbn.
  - split; [constructor | reflexivity].
  - destruct valid; cbn.
    + rewrite IH. split; [constructor; [reflexivity | assumption] |].
      intros H. inversion H. assumption.
    + split; [discriminate |]. intros H. inversion H. discriminate.
Qed.

(** With definitions supplied for the missing checks, the gate is the
    one the specification describes. *)
Lemma validate_performance_with_methods
    (self : Safety.Methods) (config : Safety.Config)
    (player : Core.Player) (match_data : Core.MatchData) (performance_score : Q)
    (f2 : Core.Player -> Core.MatchData -> Py.result Safety.Check)
    (f3 : Core.Player -> Py.result Safety.Check)
    (f4 : Core.MatchData -> Py.result Safety.Check)
    (f5 : Core.Player -> Py.result Safety.Check)
    (c1 c2 c3 c4 c5 c6 : Safety.Check) :
  Safety.check_teamfight_participation self = Some f2 ->
  Safety.check_tilt_factor self = Some f3 ->
  Safety.check_game_balance self = Some f4 ->
  Safety.check_recent_performances self = Some f5 ->
  Safety.check_game_duration config match_data = Py.Ok c1 ->
  f2 player match_data = Py.Ok c2 ->
  f3 player = Py.Ok c3 ->
  f4 match_data = Py.Ok c4 ->
  f5 player = Py.Ok c5 ->
  Safety.check_suspicious_patterns self config player performance_score = Py.Ok c6 ->
  Safety.validate_performance self config player match_data performance_score
  = Py.Ok (Safety.first_failure [c1; c2; c3; c4; c5; c6]).
Proof.
  intros H2 H3 H4 H5 E1 E2 E3 E4 E5 E6.
  unfold Safety.validate_performance.
  rewrite E1, H2, H3, H4, H5. cbn [Py.bind Py.getattr].
  rewrite E2. cbn [Py.bind]. rewrite E3. cbn [Py.bind].
  rewrite E4. cbn [Py.bind]. rewrite E5. cbn [Py.bind].
  rewrite E6. reflexivity.
Qed.

(** The gate on concrete runs, with passing definitions supplied for the
    missing checks: a short game is rejected with its reason, one
    excellent game after an ordinary one passes, the streak of Example 3
    is rejected. *)
Lemma validate_performance_runs :
  Safety.validate_performance Inputs.passing_safety_methods Safety.default_config
    Inputs.new_player (Inputs.match_data_of 1000) 0.5
  = Py.Ok (false, "Game too short: 1000s"%string) /\
  Safety.validate_performance Inputs.passing_safety_methods Safety.default_config
    Inputs.ordinary_player (Inputs.match_data_of 2400) 0.96
  = Py.Ok (true, ""%string) /\
  Safety.validate_performance Inputs.passing_safety_methods Safety.default_config
    Inputs.streak_player (Inputs.match_data_of 2400) 0.97
  = Py.Ok (false, "Suspiciously consistent high performance"%string).
Proof. repeat split. Qed.

(** C5 (code defect).  The specification asks [validate_performance] to run its
    six checks and to return a verdict without raising.  Four of the six
    checks it calls are methods that [SafetyChecker] does not define:
    building the list of checks stops at the second entry, so on every
    player, match record and score the call raises AttributeError (or
    KeyError when the match record has no duration) and no verdict is
    returned. *)
Theorem C5_validate_performance_as_written
    (config : Safety.Config) (player : Core.Player)
    (match_data : Core.MatchData) (performance_score : Q) :
  Safety.validate_performance Safety.as_written config player match_data
    performance_score
  = match Core.duration match_data with
    | Some _ => Py.Raise (Py.AttributeError "check_teamfight_participation")
    | None => Py.Raise (Py.KeyError "duration")
    end.
Proof.
  unfold Safety.validate_performance, Safety.check_game_duration.
  destruct (Core.duration match_data) as [d |]; cbn [Py.getitem Py.bind].
  - destruct (d <? _)%Z; reflexivity.
  - reflexivity.
Qed.

(** ** C6: suspicious patterns *)

Lemma scores_of_total (entries : list Core.HistoryEntry) :
  Forall (fun p => Core.score p <> None) entries ->
  Safety.scores_of entries
  = Py.Ok (map (fun p => Py.get (Core.score p) 0) entries).
Proof.
  induction 1 as [| p entries Hp _ IH]; cbn.
  - reflexivity.
  - destruct (Core.score p) as [s |]; [| contradiction].
    cbn. rewrite IH. reflexivity.
Qed.

(** What the code does: the rejection is returned exactly when the score
    is above the threshold and every one of the (at most five) last
    recorded scores is above it, which an empty history satisfies. *)
Lemma suspicious_patterns_rejection_iff
    (self : Safety.Methods) (config : Safety.Config)
    (player : Core.Player) (performance_score : Q) :
  let threshold := Safety.suspicious_performance_threshold config in
  let recent := Py.last_n 5 (Core.performance_history player) in
  Forall (fun p => Core.score p <> None) recent ->
  Safety.check_suspicious_patterns self config player performance_score
  = Py.Ok (false, "Suspiciously consistent high performance"%string)
  <->
  threshold < performance_score /\
  Forall (fun p => threshold < Py.get (Core.score p) 0) recent.
Proof.
  intros threshold recent Hscores.
  unfold Safety.check_suspicious_patterns. fold threshold. fold recent.
  rewrite (scores_of_total recent Hscores).
  destruct (Py.gtb performance_score threshold) eqn:Egt.
  - apply gtb_iff in Egt. cbn [Py.bind].
    destruct (forallb _ _) eqn:Eall.
    + split; [intros _ | reflexivity].
      split; [exact Egt |].
      rewrite forallb_forall in Eall. apply Forall_forall. intros p Hp.
      apply gtb_iff, Eall.
      apply (in_map (fun p => Py.get (Core.score p) 0)), Hp.
    + split.
      * intros H. exfalso.
        destruct (Safety.detect_unusual_patterns self (Core.stats player))
          as [[|] |]; discriminate.
      * intros [_ Hall]. exfalso.
        assert (forallb (fun score => Py.gtb score threshold)
                  (map (fun p => Py.get (Core.score p) 0) recent) = true).
        { apply forallb_forall. intros s Hs. apply in_map_iff in Hs.
          destruct Hs as (p & <- & Hp). apply gtb_iff.
          rewrite Forall_forall in Hall. apply Hall, Hp. }
        congruence.
  - cbn [Py.bind]. apply gtb_false_iff in Egt. split.
    + intros H. exfalso.
      destruct (Safety.detect_unusual_patterns self (Core.stats player))
        as [[|] |]; discriminate.
    + intros [Hgt _]. lra.
Qed.

(** C6 (code defect).  The history of Example 3 followed by a score of
    0.97 is flagged, as specified.  But the code does not ask for
    five recorded scores: [all] over the slice of an empty history is
    true, so for a player with no history a single game scored 0.96 is
    rejected as "Suspiciously consistent high performance", which the
    specification excludes. *)
Theorem C6_single_excellent_game_rejected :
  Core.performance_history Inputs.new_player = [] /\
  Safety.check_suspicious_patterns Safety.as_written Safety.default_config
    Inputs.new_player 0.96
  = Py.Ok (false, "Suspiciously consistent high performance"%string) /\
  Safety.check_suspicious_patterns Safety.as_written Safety.default_config
    Inputs.streak_player 0.97
  = Py.Ok (false, "Suspiciously consistent high performance"%string).
Proof. repeat split. Qed.

(** When the rejection is not returned, the class as written goes on to
    [detect_unusual_patterns], whose three sub-checks it does not define. *)
Lemma suspicious_patterns_below_threshold_as_written
    (config : Safety.Config) (player : Core.Player) (performance_score : Q) :
  performance_score <= Safety.suspicious_performance_threshold config ->
  Safety.check_suspicious_patterns Safety.as_written config player performance_score
  = Py.Raise (Py.AttributeError "check_impossible_stats").
Proof.
  intros Hle. unfold Safety.check_suspicious_patterns.
  apply gtb_false_iff in Hle. rewrite Hle. reflexivity.
Qed.

(** ** C7: the consistency check *)

(** With [np] bound to numpy the check is the one the specification describes:
    it fails exactly when the population variance of the five scores is
    above 0.09, that is when their standard deviation is above 0.3. *)
Lemma validate_consistency_with_numpy (m : Exceptional.ExceptionalMetrics) :
  let scores :=
    [Exceptional.combat_score m; Exceptional.farm_efficiency m;
     Exceptional.map_impact m; Exceptional.objective_control m;
     Exceptional.teamfight_contribution m] in
  Py.returns (Exceptional.validate_consistency (Some Globals.numpy) m)
    (fun ok => ok = false <-> 0.3 * 0.3 < Globals.variance scores).
Proof.
  intros scores. unfold Exceptional.validate_consistency.
  cbn [Py.load_global Py.bind]. fold scores.
  unfold Globals.root_gtb, Globals.std. cbn [Globals.radicand].
  replace (Py.leb 0 0.3) with true by reflexivity.
  destruct (Py.ltb (0.3 * 0.3) (Globals.variance scores)) eqn:E; cbn [Py.returns].
  - apply ltb_iff in E. split; [intros _; exact E | reflexivity].
  - split; [discriminate |]. intros H. apply ltb_iff in H. congruence.
Qed.

(** C7 (code defect).  The specification asks the consistency check to compute a
    standard deviation without raising.  exceptional.py never imports
    numpy, so [np.std] raises NameError on every bundle; a bundle that
    passes the duration and participation gates therefore makes
    [validate_performance] raise instead of returning a verdict. *)
Theorem C7_consistency_check_raises
    (config : Exceptional.Config) (m : Exceptional.ExceptionalMetrics)
    (match_data : Core.MatchData) :
  Exceptional.validate_consistency Globals.exceptional_np m
  = Py.Raise (Py.NameError "np") /\
  Exceptional.validate_performance Globals.exceptional_np config m match_data
  = match Core.duration match_data with
    | None => Py.Raise (Py.KeyError "duration")
    | Some d =>
        if (d <? Exceptional.min_game_duration config)%Z then Py.Ok false
        else if Py.ltb (Exceptional.teamfight_contribution m)
                       (Exceptional.min_teamfight_participation config)
        then Py.Ok false
        else Py.Raise (Py.NameError "np")
    end.
Proof.
  split; [reflexivity |].
  unfold Exceptional.validate_performance.
  destruct (Core.duration match_data) as [d |]; cbn [Py.getitem Py.bind];
    [| reflexivity].
  destruct (d <? _)%Z; [reflexivity |].
  destruct (Py.ltb _ _); reflexivity.
Qed.

(** The outcome of a failed eligibility gate:
    when [validate_performance] returns false the analysis reports the
    tier "normal" with adjustment 0. *)
Lemma analyze_ineligible_is_normal
    (PlayerStatsDict GameContext : Type)
    (self : Exceptional.Methods PlayerStatsDict GameContext)
    (np : option Globals.module) (config : Exceptional.Config)
    (player_stats : PlayerStatsDict) (match_data : Core.MatchData)
    (game_context : GameContext) (m : Exceptional.ExceptionalMetrics) :
  Exceptional.calculate_exceptional_metrics self
    player_stats match_data game_context = Py.Ok m ->
  Exceptional.validate_performance np config m match_data = Py.Ok false ->
  Exceptional.analyze_exceptional_performance
    self np config player_stats match_data game_context
  = Py.Ok (false, "normal"%string, 0, m).
Proof.
  intros Hm Hv. unfold Exceptional.analyze_exceptional_performance.
  rewrite Hm. cbn [Py.bind]. rewrite Hv. reflexivity.
Qed.

Lemma analyze_as_written
    (PlayerStatsDict GameContext : Type)
    (np : option Globals.module) (config : Exceptional.Config)
    (player_stats : PlayerStatsDict) (match_data : Core.MatchData)
    (game_context : GameContext) :
  Exceptional.analyze_exceptional_performance
    (@Exceptional.as_written PlayerStatsDict GameContext) np config
    player_stats match_data game_context
  = Py.Raise (Py.AttributeError "calculate_combat_score").
Proof. reflexivity. Qed.

(** ** C8 and C10: the exceptional tier *)

Ltac tier_cases :=
  repeat (match goal with
          | |- context [Py.geb ?x ?y] =>
              let E := fresh "E" in destruct (Py.geb x y) eqn:E
          end; cbn [andb fst snd]).

Ltac geb_facts :=
  repeat match goal with
         | H : Py.geb _ _ = true |- _ => apply geb_iff in H
         | H : Py.geb _ _ = false |- _ => apply geb_false_iff in H
         end.

(** C8.  [determine_tier_and_adjustment] returns the tier "exceptional"
    exactly when the overall score reaches the exceptional threshold (0.90
    by default) and each of [combat_score], [teamfight_contribution] and
    [game_impact] is at least 0.85; the adjustment is then
    [min(max_mmr_gain, (overall_score - 0.9) * 50)], with [max_mmr_gain]
    equal to 5 by default. *)
Theorem C8_exceptional_tier
    (config : Exceptional.Config) (overall_score : Q)
    (m : Exceptional.ExceptionalMetrics) (match_data : Core.MatchData) :
  let result :=
    Exceptional.determine_tier_and_adjustment config overall_score m match_data in
  (Exceptional.exceptional_threshold (Exceptional.init None) == 0.90 /\
   Exceptional.max_mmr_gain (Exceptional.init None) == 5) /\
  (fst result = "exceptional"%string <->
   Exceptional.exceptional_threshold config <= overall_score /\
   0.85 <= Exceptional.combat_score m /\
   0.85 <= Exceptional.teamfight_contribution m /\
   0.85 <= Exceptional.game_impact m) /\
  (fst result = "exceptional"%string ->
   snd result =
   Qmin (Exceptional.max_mmr_gain config) ((overall_score - 0.9) * 50)).
Proof.
  intros result. split; [split; reflexivity |].
  unfold result, Exceptional.determine_tier_and_adjustment.
  cbv zeta. cbn [forallb andb].
  tier_cases; cbn [fst snd]; geb_facts;
    (split; [split; [try discriminate; intros _; repeat split; assumption
                    | try reflexivity; intros (? & ? & ? & ?); exfalso; lra]
            | try discriminate; intros _; reflexivity]).
Qed.

Lemma C8_exceptional_tier_witness :
  Exceptional.determine_tier_and_adjustment Exceptional.default_config 0.95
    (Inputs.uniform_metrics 0.9) (Inputs.match_data_of 2400)
  = ("exceptional"%string, Qmin 5 ((0.95 - 0.9) * 50)).
Proof.
  pose proof (C8_exceptional_tier Exceptional.default_config 0.95
                (Inputs.uniform_metrics 0.9) (Inputs.match_data_of 2400))
    as (_ & Htier & Hadj).
  assert (Hfst : fst (Exceptional.determine_tier_and_adjustment
                        Exceptional.default_config 0.95
                        (Inputs.uniform_metrics 0.9) (Inputs.match_data_of 2400))
                 = "exceptional"%string).
  { apply Htier. repeat split; vm_compute; discriminate. }
  specialize (Hadj Hfst).
  destruct (Exceptional.determine_tier_and_adjustment _ _ _ _) as [tier adj].
  cbn [fst snd] in Hfst, Hadj. rewrite Hfst, Hadj. reflexivity.
Defined.

(** C10.  With an overall score of at least 0.90 and one of
    [combat_score], [teamfight_contribution], [game_impact] below 0.85 the
    result is the tier "excellent" with adjustment 0: neither "very_good"
    nor "normal", and no penalty. *)
Theorem C10_failed_floor_is_excellent
    (overall_score : Q) (m : Exceptional.ExceptionalMetrics)
    (match_data : Core.MatchData) :
  0.90 <= overall_score ->
  Exceptional.combat_score m < 0.85 \/
  Exceptional.teamfight_contribution m < 0.85 \/
  Exceptional.game_impact m < 0.85 ->
  Exceptional.determine_tier_and_adjustment
    (Exceptional.init None) overall_score m match_data
  = ("excellent"%string, 0).
Proof.
  intros Hoverall Hfloor.
  unfold Exceptional.determine_tier_and_adjustment.
  cbv zeta. cbn [forallb andb].
  cbn [Exceptional.init Py.get Exceptional.default_config
       Exceptional.exceptional_threshold Exceptional.excellent_threshold
       Exceptional.very_good_threshold].
  tier_cases; geb_facts; try reflexivity; exfalso;
    try (destruct Hfloor as [H | [H | H]]; lra); lra.
Qed.

Lemma C10_failed_floor_is_excellent_witness :
  (0.90 <= 0.95 /\
   (Exceptional.combat_score Inputs.weak_combat_metrics < 0.85 \/
    Exceptional.teamfight_contribution Inputs.weak_combat_metrics < 0.85 \/
    Exceptional.game_impact Inputs.weak_combat_metrics < 0.85)) /\
  Exceptional.determine_tier_and_adjustment
    (Exceptional.init None) 0.95 Inputs.weak_combat_metrics
    (Inputs.match_data_of 2400)
  = ("excellent"%string, 0).
Proof.
  assert (H1 : 0.90 <= 0.95) by (vm_compute; discriminate).
  assert (H2 : Exceptional.combat_score Inputs.weak_combat_metrics < 0.85 \/
               Exceptional.teamfight_contribution Inputs.weak_combat_metrics < 0.85 \/
               Exceptional.game_impact Inputs.weak_combat_metrics < 0.85)
    by (left; vm_compute; reflexivity).
  split; [split; assumption |].
  exact (C10_failed_floor_is_excellent 0.95 Inputs.weak_combat_metrics
           (Inputs.match_data_of 2400) H1 H2).
Defined.

(** ** C9: the rating adjustment *)

Lemma mmr_adjustment_as_written
    (Player GameData : Type) (victory : GameData -> bool)
    (player : Player) (game_data : GameData) :
  Matchmaking.calculate_mmr_adjustment victory
    (@Matchmaking.as_written Player GameData) player game_data
  = Py.Raise (Py.NameError "calculate_performance_score").
Proof. reflexivity. Qed.

(** C9.  Taking the values that the four helper functions return on
    [(player, game_data)] as given, [calculate_mmr_adjustment] returns
    (0.8 * (+25 on victory, -25 otherwise)
     + 0.2 * (performance_score - 0.5) * 25)
    * (1 + team_play) * (1 + role_execution) * behavior_modifier;
    on a victory with performance score 0.5, both bonuses 0 and behavior
    modifier 1 this is 20. *)
Theorem C9_mmr_adjustment_formula
    (Player GameData : Type) (victory : GameData -> bool)
    (globals : Matchmaking.Helpers Player GameData)
    (player : Player) (game_data : GameData)
    (f_performance f_team_play f_role_execution f_behavior :
       Player -> GameData -> Py.result Q)
    (performance_score team_play role_execution behavior_modifier : Q) :
  Matchmaking.calculate_performance_score globals = Some f_performance ->
  Matchmaking.calculate_team_play_bonus globals = Some f_team_play ->
  Matchmaking.calculate_role_execution globals = Some f_role_execution ->
  Matchmaking.calculate_behavior_modifier globals = Some f_behavior ->
  f_performance player game_data = Py.Ok performance_score ->
  f_team_play player game_data = Py.Ok team_play ->
  f_role_execution player game_data = Py.Ok role_execution ->
  f_behavior player game_data = Py.Ok behavior_modifier ->
  Py.returns
    (Matchmaking.calculate_mmr_adjustment victory globals player game_data)
    (fun delta =>
       delta ==
         (0.8 * (if victory game_data then 25 else -25) +
          0.2 * (performance_score - 0.5) * 25) *
         (1 + team_play) * (1 + role_execution) * behavior_modifier /\
       (victory game_data = true -> performance_score == 0.5 ->
        team_play == 0 -> role_execution == 0 -> behavior_modifier == 1 ->
        delta == 20)).
Proof.
  intros Hp Ht Hr Hb Ep Et Er Eb.
  unfold Matchmaking.calculate_mmr_adjustment.
  rewrite Hp, Ht, Hr, Hb. cbn [Py.load_global Py.bind].
  rewrite Ep. cbn [Py.bind]. rewrite Et. cbn [Py.bind].
  rewrite Er. cbn [Py.bind]. rewrite Eb. cbn [Py.bind Py.returns].
  split.
  - destruct (victory game_data); ring.
  - intros Hv Hps Htp Hre Hbm. rewrite Hv, Hps, Htp, Hre, Hbm. reflexivity.
Qed.

Lemma C9_mmr_adjustment_formula_witness :
  Py.returns
    (Matchmaking.calculate_mmr_adjustment (fun won : bool => won)
       (Inputs.constant_helpers 0.5 0 0 1) tt true)
    (fun delta => delta == 20).
Proof.
  pose proof (C9_mmr_adjustment_formula unit bool (fun won => won)
                (Inputs.constant_helpers 0.5 0 0 1) tt true
                (fun _ _ => Py.Ok 0.5) (fun _ _ => Py.Ok 0)
                (fun _ _ => Py.Ok 0) (fun _ _ => Py.Ok 1)
                0.5 0 0 1
                eq_refl eq_refl eq_refl eq_refl eq_refl eq_refl eq_refl eq_refl)
    as H.
  destruct (Matchmaking.calculate_mmr_adjustment _ _ _ _) as [delta |];
    cbn [Py.returns] in *; [| exact H].
  destruct H as [_ H]. apply H; reflexivity.
Defined.

(** * Further properties of the code *)

(** ** metrics.py *)

Lemma min_unit_monotone (x y : Q) : x <= y -> Qmin 1 x <= Qmin 1 y.
Proof. intros H. apply Q.min_le_compat_l, H. Qed.

Lemma div_le_compat_pos (x y z : Q) : 0 < z -> x <= y -> x / z <= y / z.
Proof.
  intros Hz Hxy. unfold Qdiv. apply Qmult_le_compat_r; [exact Hxy |].
  apply Qlt_le_weak, Qinv_lt_0_compat, Hz.
Qed.

(** X1.  More last hits never lower the farm efficiency: for a positive
    duration, with every other field fixed, the score is monotone in
    [last_hits]. *)
Theorem farming_efficiency_monotone_in_last_hits
    (m : Metrics.GameMetrics) (n1 n2 d : Z) (role : Metrics.Role) :
  (0 < d)%Z -> (n1 <= n2)%Z ->
  exists v1 v2,
    Metrics.calculate_farming_efficiency (Scenarios.with_last_hits m n1) d role
    = Py.Ok v1 /\
    Metrics.calculate_farming_efficiency (Scenarios.with_last_hits m n2) d role
    = Py.Ok v2 /\
    v1 <= v2.
Proof.
  intros Hd Hn. unfold Metrics.calculate_farming_efficiency.
  destruct (role_expectations_pos role) as [Hcs Hexp].
  pose proof (minutes_pos d Hd) as Hmin.
  assert (Hden : 0 < Metrics.cs (Metrics.role_expectations role) * (inject_Z d / 60))
    by (apply Qmult_lt_0_compat; assumption).
  cbv zeta. cbn [Metrics.last_hits Metrics.gpm Scenarios.with_last_hits].
  rewrite !(truediv_pos _ _ Hden). cbn [Py.bind].
  rewrite !(truediv_pos _ _ Hexp). cbn [Py.bind].
  eexists. eexists. split; [reflexivity |]. split; [reflexivity |].
  apply div_le_compat_pos; [reflexivity |].
  apply Qplus_le_l, min_unit_monotone, div_le_compat_pos; [exact Hden |].
  rewrite <- Zle_Qle. exact Hn.
Qed.

Lemma farming_efficiency_monotone_in_last_hits_witness :
  ((0 < 2400)%Z /\ (300 <= 350)%Z) /\
  exists v1 v2,
    Metrics.calculate_farming_efficiency
      (Scenarios.with_last_hits Inputs.sample_metrics 300) 2400 Metrics.carry
    = Py.Ok v1 /\
    Metrics.calculate_farming_efficiency
      (Scenarios.with_last_hits Inputs.sample_metrics 350) 2400 Metrics.carry
    = Py.Ok v2 /\
    v1 <= v2.
Proof.
  split; [split; [reflexivity | intros H; discriminate H] |].
  apply (farming_efficiency_monotone_in_last_hits
           Inputs.sample_metrics 300 350 2400 Metrics.carry); [reflexivity |].
  intros H; discriminate H.
Defined.

(** X2.  Survival: for a positive duration and no attached death-impact
    attribute, more deaths never raise the score; without deaths the score
    is 1, and from the role's death threshold per minute on it is 0. *)
Theorem survival_score_in_deaths
    (m : Metrics.GameMetrics) (n1 n2 d : Z) (role : Metrics.Role) :
  (0 < d)%Z -> Metrics.death_impact_score m = None -> (n1 <= n2)%Z ->
  exists v1 v2,
    Metrics.calculate_survival_score (Scenarios.with_deaths m n1) d role = Py.Ok v1 /\
    Metrics.calculate_survival_score (Scenarios.with_deaths m n2) d role = Py.Ok v2 /\
    v2 <= v1 /\
    (n1 = 0%Z -> v1 == 1) /\
    (Metrics.role_death_thresholds role * (inject_Z d / 60) <= inject_Z n2 ->
     v2 == 0).
Proof.
  intros Hd Himpact Hn. unfold Metrics.calculate_survival_score.
  pose proof (minutes_pos d Hd) as Hmin.
  pose proof (role_death_thresholds_pos role) as Hthr.
  cbv zeta.
  cbn [Metrics.deaths Metrics.death_impact_score Scenarios.with_deaths].
  rewrite Himpact.
  rewrite !(truediv_pos _ _ Hmin). cbn [Py.bind].
  rewrite !(truediv_pos _ _ Hthr). cbn [Py.bind].
  set (rate1 := inject_Z n1 / (inject_Z d / 60) / Metrics.role_death_thresholds role).
  set (rate2 := inject_Z n2 / (inject_Z d / 60) / Metrics.role_death_thresholds role).
  eexists. eexists. split; [reflexivity |]. split; [reflexivity |].
  assert (Hrate : rate1 <= rate2).
  { unfold rate1, rate2. apply div_le_compat_pos; [exact Hthr |].
    apply div_le_compat_pos; [exact Hmin |]. rewrite <- Zle_Qle. exact Hn. }
  split; [| split].
  - apply min_unit_monotone, Q.max_le_compat_l. lra.
  - intros ->. unfold rate1.
    assert (H0 : inject_Z 0 / (inject_Z d / 60) / Metrics.role_death_thresholds role
                 == 0) by (unfold Qdiv; change (inject_Z 0) with 0; ring).
    rewrite H0. reflexivity.
  - intros Hmany.
    assert (H1 : 1 <= rate2).
    { unfold rate2. apply Qle_shift_div_l; [exact Hthr |].
      apply Qle_shift_div_l; [exact Hmin |]. lra. }
    rewrite (Q.max_l 0 (1 - rate2)) by lra. reflexivity.
Qed.

Lemma survival_score_in_deaths_witness :
  ((0 < 2400)%Z /\ Metrics.death_impact_score Inputs.sample_metrics = None /\
   (0 <= 6)%Z) /\
  exists v1 v2,
    Metrics.calculate_survival_score
      (Scenarios.with_deaths Inputs.sample_metrics 0) 2400 Metrics.carry = Py.Ok v1 /\
    Metrics.calculate_survival_score
      (Scenarios.with_deaths Inputs.sample_metrics 6) 2400 Metrics.carry = Py.Ok v2 /\
    v2 <= v1 /\
    (0%Z = 0%Z -> v1 == 1) /\
    (Metrics.role_death_thresholds Metrics.carry * (inject_Z 2400 / 60) <= inject_Z 6 ->
     v2 == 0).
Proof.
  split; [split; [reflexivity | split; [reflexivity | intros H; discriminate H]] |].
  apply (survival_score_in_deaths Inputs.sample_metrics 0 6 2400 Metrics.carry);
    [reflexivity | reflexivity | intros H; discriminate H].
Defined.

(** On the five roles the combat calculator returns, both of its input
    divisors being clamped: its result is at most 1, and at least 0 for
    non-negative kills, assists and hero damage. *)
Lemma combat_efficiency_bounded
    (m : Metrics.GameMetrics) (team_damage : Z) (role : Metrics.Role) :
  exists v,
    Metrics.calculate_combat_efficiency m team_damage role = Py.Ok v /\
    v <= 1 /\
    ((0 <= Metrics.hero_damage m)%Z -> (0 <= Metrics.kills m)%Z ->
     (0 <= Metrics.assists m)%Z -> 0 <= v).
Proof.
  unfold Metrics.calculate_combat_efficiency.
  rewrite (truediv_pos _ _ (inject_Z_max_pos team_damage)). cbn [Py.bind].
  rewrite (truediv_pos _ _ (inject_Z_max_pos (Metrics.deaths m))). cbn [Py.bind].
  rewrite (truediv_pos _ _ (role_damage_expectations_pos role)). cbn [Py.bind].
  eexists. split; [reflexivity |]. split.
  - match goal with
    | |- Qmin 1 ?a * _ + Qmin 1 ?b * _ <= 1 =>
        pose proof (Q.le_min_l 1 a); pose proof (Q.le_min_l 1 b)
    end. lra.
  - intros Hhd Hk Ha.
    pose proof (combat_efficiency_range m team_damage role Hhd Hk Ha) as Hrange.
    unfold Metrics.calculate_combat_efficiency in Hrange.
    rewrite (truediv_pos _ _ (inject_Z_max_pos team_damage)) in Hrange.
    cbn [Py.bind] in Hrange.
    rewrite (truediv_pos _ _ (inject_Z_max_pos (Metrics.deaths m))) in Hrange.
    cbn [Py.bind] in Hrange.
    rewrite (truediv_pos _ _ (role_damage_expectations_pos role)) in Hrange.
    exact (proj1 Hrange).
Qed.

(** The role tables have the five role names as keys, and a key outside a
    dict raises KeyError. *)
Lemma getitem_outside_keys {A : Type} (d : list (string * A)) (key : string) :
  ~ In key (Dict.keys d) -> Dict.getitem d key = Py.Raise (Py.KeyError key).
Proof.
  induction d as [| [k v] rest IH]; intros Hout; cbn [Dict.getitem];
    [reflexivity |].
  destruct (String.eqb k key) eqn:E.
  - apply String.eqb_eq in E. subst k. exfalso. apply Hout. left. reflexivity.
  - apply IH. intros Hin. apply Hout. right. exact Hin.
Qed.

Lemma role_tables_keys :
  Dict.keys MetricsCalculator.role_weights = MetricsCalculator.role_names /\
  Dict.keys MetricsCalculator.role_expectations = MetricsCalculator.role_names /\
  Dict.keys MetricsCalculator.role_damage_expectations
  = MetricsCalculator.role_names /\
  Dict.keys MetricsCalculator.role_death_thresholds = MetricsCalculator.role_names.
Proof. repeat split. Qed.

Lemma role_names_are_roles (role : string) :
  In role MetricsCalculator.role_names <->
  exists r, role = MetricsCalculator.role_name r.
Proof.
  split.
  - cbn [MetricsCalculator.role_names In].
    intros [H | [H | [H | [H | [H | []]]]]]; subst role.
    + exists Metrics.carry. reflexivity.
    + exists Metrics.mid. reflexivity.
    + exists Metrics.offlane. reflexivity.
    + exists Metrics.soft_support. reflexivity.
    + exists Metrics.hard_support. reflexivity.
  - intros [r ->]. destruct r; cbn; tauto.
Qed.

(** On the name of a role the methods are the functions of [Metrics]. *)
Lemma farming_efficiency_on_role
    (m : Metrics.GameMetrics) (d : Z) (r : Metrics.Role) :
  MetricsCalculator.calculate_farming_efficiency m d (MetricsCalculator.role_name r)
  = Metrics.calculate_farming_efficiency m d r.
Proof. destruct r; reflexivity. Qed.

Lemma combat_efficiency_on_role
    (m : Metrics.GameMetrics) (td : Z) (r : Metrics.Role) :
  MetricsCalculator.calculate_combat_efficiency m td (MetricsCalculator.role_name r)
  = Metrics.calculate_combat_efficiency m td r.
Proof. destruct r; reflexivity. Qed.

Lemma survival_score_on_role
    (m : Metrics.GameMetrics) (d : Z) (r : Metrics.Role) :
  MetricsCalculator.calculate_survival_score m d (MetricsCalculator.role_name r)
  = Metrics.calculate_survival_score m d r.
Proof. destruct r; reflexivity. Qed.


(** X3.  The combat calculator clamps both of its input divisors, so the
    lookup of the role is the only statement of it that can raise.  On a
    role that is a key of its table it returns a value of at most 1, and
    of at least 0 for non-negative kills, assists and hero damage; on any
    other string it raises KeyError for that string, whatever the
    statistics and the team damage. *)
Theorem combat_efficiency_raises_only_on_unknown_role
    (m : Metrics.GameMetrics) (team_damage : Z) (role : string) :
  (In role MetricsCalculator.role_names ->
   exists v,
     MetricsCalculator.calculate_combat_efficiency m team_damage role = Py.Ok v /\
     v <= 1 /\
     ((0 <= Metrics.hero_damage m)%Z -> (0 <= Metrics.kills m)%Z ->
      (0 <= Metrics.assists m)%Z -> 0 <= v)) /\
  (~ In role MetricsCalculator.role_names ->
   MetricsCalculator.calculate_combat_efficiency m team_damage role
   = Py.Raise (Py.KeyError role)).
Proof.
  split.
  - intros Hin. apply role_names_are_roles in Hin. destruct Hin as [r ->].
    rewrite combat_efficiency_on_role. apply combat_efficiency_bounded.
  - intros Hout. unfold MetricsCalculator.calculate_combat_efficiency.
    rewrite (truediv_pos _ _ (inject_Z_max_pos team_damage)). cbn [Py.bind].
    rewrite (truediv_pos _ _ (inject_Z_max_pos (Metrics.deaths m))). cbn [Py.bind].
    rewrite getitem_outside_keys; [reflexivity |].
    destruct role_tables_keys as (_ & _ & -> & _). exact Hout.
Qed.

Lemma combat_efficiency_raises_only_on_unknown_role_witness :
  (exists v,
      MetricsCalculator.calculate_combat_efficiency Inputs.sample_metrics 0 "offlane"
      = Py.Ok v /\ 0 <= v /\ v <= 1) /\
  MetricsCalculator.calculate_combat_efficiency Inputs.sample_metrics 0 "jungler"
  = Py.Raise (Py.KeyError "jungler").
Proof.
  split.
  - destruct (combat_efficiency_raises_only_on_unknown_role
                Inputs.sample_metrics 0 "offlane") as [Hknown _].
    destruct Hknown as (v & Hrun & Hle & Hge); [cbn; tauto |].
    exists v. split; [exact Hrun |]. split; [| exact Hle].
    apply Hge; intros H; discriminate H.
  - apply (combat_efficiency_raises_only_on_unknown_role
             Inputs.sample_metrics 0 "jungler").
    cbn. intros [H | [H | [H | [H | [H | []]]]]]; discriminate H.
Defined.

(** X4.  On well-formed statistics, a positive duration and a positive
    teamfight count, the farm, vision, utility, survival and
    space-creation calculators all return a value of [0,1]. *)
Theorem clamped_calculators_in_unit_interval
    (m : Metrics.GameMetrics) (g : Metrics.GameData) (d tf : Z)
    (role : Metrics.Role) :
  Inputs.well_formed m -> (0 < d)%Z -> (0 < tf)%Z ->
  Metrics.duration g = Some d ->
  0 <= Py.get (Metrics.enemy_attention_score g) 0.5 ->
  0 <= Py.get (Metrics.rotations_forced g) 0 ->
  Py.returns (Metrics.calculate_farming_efficiency m d role) in_unit_interval /\
  Py.returns (Metrics.calculate_vision_score m d) in_unit_interval /\
  Py.returns (Metrics.calculate_utility_score m tf) in_unit_interval /\
  Py.returns (Metrics.calculate_survival_score m d role) in_unit_interval /\
  Py.returns (Metrics.calculate_space_creation m g) in_unit_interval.
Proof.
  intros Hwf Hd Htf Hdur Hatt Hrot.
  destruct Hwf as (Hk & Hde & Ha & Hlh & _ & Hgpm & _ & Hhd & Htd & Hheal & Hstun
                   & _ & _ & Hwp & Hwd & [Hpart _] & Himpact).
  repeat split.
  - apply farming_efficiency_range; assumption.
  - apply vision_score_range; assumption.
  - apply utility_score_range; assumption.
  - apply survival_score_range; assumption.
  - apply (space_creation_range m g d); assumption.
Qed.

Lemma clamped_calculators_in_unit_interval_witness :
  Py.returns
    (Metrics.calculate_farming_efficiency Inputs.sample_metrics 2400 Metrics.mid)
    in_unit_interval /\
  Py.returns (Metrics.calculate_vision_score Inputs.sample_metrics 2400)
    in_unit_interval /\
  Py.returns (Metrics.calculate_utility_score Inputs.sample_metrics 10)
    in_unit_interval /\
  Py.returns
    (Metrics.calculate_survival_score Inputs.sample_metrics 2400 Metrics.mid)
    in_unit_interval /\
  Py.returns
    (Metrics.calculate_space_creation Inputs.sample_metrics Scenarios.full_game_data)
    in_unit_interval.
Proof.
  apply (clamped_calculators_in_unit_interval
           Inputs.sample_metrics Scenarios.full_game_data 2400 10 Metrics.mid).
  - exact sample_metrics_well_formed.
  - reflexivity.
  - reflexivity.
  - reflexivity.
  - intros H; discriminate H.
  - intros H; discriminate H.
Defined.

(** ** The aggregation *)

Ltac invert_bind H :=
  repeat match type of H with
         | Py.bind ?c _ = Py.Ok _ =>
             let v := fresh "v" in
             let E := fresh "E" in
             destruct c as [v |] eqn:E; cbn [Py.bind] in H; [| discriminate H]
         end.

Lemma truediv_returns_iff (x y : Q) :
  (exists v, Py.truediv x y = Py.Ok v) <-> ~ y == 0.
Proof.
  unfold Py.truediv. destruct (Qeq_bool y 0) eqn:E.
  - apply Qeq_bool_iff in E. split; [intros [v H]; discriminate H | contradiction].
  - apply Qeq_bool_neq in E. split; [intros _; exact E | intros _; eexists; reflexivity].
Qed.

Lemma truediv_raises (x y : Q) (e : Py.exn) :
  Py.truediv x y = Py.Raise e -> y == 0.
Proof.
  unfold Py.truediv. destruct (Qeq_bool y 0) eqn:E; [| discriminate].
  intros _. apply Qeq_bool_iff, E.
Qed.















(** X6.  The overall score is a convex combination of the detailed scores:
    whenever the aggregation returns and the nine detailed scores are in
    [0,1], so is the overall score, for every role. *)
Theorem overall_score_in_unit_interval
    (m : Metrics.GameMetrics) (g : Metrics.GameData) (role : Metrics.Role)
    (r : Metrics.OverallPerformance) :
  Metrics.calculate_overall_performance m g role = Py.Ok r ->
  (forall metric,
      in_unit_interval (Metrics.base_score (Metrics.detailed_scores r) metric)) ->
  in_unit_interval (Metrics.overall_score r).
Proof.
  intros H Hunit. unfold Metrics.calculate_overall_performance in H.
  invert_bind H. injection H as <-.
  cbn [Metrics.detailed_scores Metrics.overall_score] in *.
  pose proof (Hunit Metrics.farm_efficiency) as [? ?].
  pose proof (Hunit Metrics.damage_output) as [? ?].
  pose proof (Hunit Metrics.vision_control) as [? ?].
  pose proof (Hunit Metrics.utility) as [? ?].
  pose proof (Hunit Metrics.survival) as [? ?].
  pose proof (Hunit Metrics.map_presence) as [? ?].
  pose proof (Hunit Metrics.space_creation) as [? ?].
  pose proof (Hunit Metrics.objective_focus) as [? ?].
  pose proof (Hunit Metrics.teamfight_impact) as [? ?].
  cbn [Metrics.base_score Metrics.bs_farm_efficiency Metrics.bs_damage_output
       Metrics.bs_vision_control Metrics.bs_utility Metrics.bs_survival
       Metrics.bs_map_presence Metrics.bs_space_creation
       Metrics.bs_objective_focus Metrics.bs_teamfight_impact] in *.
  unfold in_unit_interval, Py.sum.
  destruct role; cbn [Metrics.role_weights map fold_left fst snd Metrics.base_score
       Metrics.bs_farm_efficiency Metrics.bs_damage_output
       Metrics.bs_vision_control Metrics.bs_utility Metrics.bs_survival
       Metrics.bs_map_presence Metrics.bs_space_creation
       Metrics.bs_objective_focus Metrics.bs_teamfight_impact]; split; lra.
Qed.

Lemma overall_score_in_unit_interval_witness :
  Py.returns
    (Metrics.calculate_overall_performance
       Inputs.sample_metrics Scenarios.full_game_data Metrics.carry)
    (fun r => in_unit_interval (Metrics.overall_score r)).
Proof.
  assert (Hrun : exists r,
             Metrics.calculate_overall_performance
               Inputs.sample_metrics Scenarios.full_game_data Metrics.carry
             = Py.Ok r /\
             forall metric,
               in_unit_interval
                 (Metrics.base_score (Metrics.detailed_scores r) metric)).
  { eexists. split; [vm_compute; reflexivity |].
    intros []; vm_compute; split; discriminate. }
  destruct Hrun as (r & Hr & Hunit). rewrite Hr. cbn [Py.returns].
  exact (overall_score_in_unit_interval
           Inputs.sample_metrics Scenarios.full_game_data Metrics.carry r Hr Hunit).
Defined.

Lemma sum_from_bounds (xs : list Q) (a : Q) :
  Forall in_unit_interval xs ->
  a <= fold_left Qplus xs a /\
  fold_left Qplus xs a <= a + inject_Z (Z.of_nat (length xs)).
Proof.
  intros Hxs. revert a. induction Hxs as [| x xs [Hx0 Hx1] _ IH]; intros a.
  - cbn [fold_left length Z.of_nat]. change (inject_Z 0) with 0. split; lra.
  - cbn [fold_left length]. destruct (IH (a + x)) as [IHlo IHhi].
    rewrite Nat2Z.inj_succ, <- Z.add_1_r, inject_Z_plus.
    change (inject_Z 1) with 1. split; lra.
Qed.

Lemma sum_bounds (xs : list Q) :
  Forall in_unit_interval xs ->
  0 <= Py.sum xs /\ Py.sum xs <= inject_Z (Z.of_nat (length xs)).
Proof.
  intros Hxs. unfold Py.sum. destruct (sum_from_bounds xs 0 Hxs). split; lra.
Qed.

(** X7.  The map-presence blend is not clamped, but it stays in [0,1] when the
    inputs are what the blend expects: a non-negative teleport count, at
    most three lanes with a participation in [0,1] each, and an objective
    presence in [0,1] (absent keys take their defaults). *)
Theorem map_presence_in_unit_interval
    (m : Metrics.GameMetrics) (g : Metrics.GameData) :
  let lanes := Py.get (Metrics.lane_participation g) [] in
  0 <= Py.get (Metrics.teleports_used g) 0 ->
  Forall in_unit_interval (map snd lanes) -> (length lanes <= 3)%nat ->
  in_unit_interval (Py.get (Metrics.objective_presence g) 0.5) ->
  Py.returns (Metrics.calculate_map_presence m g) in_unit_interval.
Proof.
  intros lanes Htp Hlanes Hlen [Ho0 Ho1].
  unfold Metrics.calculate_map_presence. cbv zeta. cbn [Py.returns].
  fold lanes.
  destruct (sum_bounds (map snd lanes) Hlanes) as [Hs0 Hs1].
  rewrite length_map in Hs1.
  assert (Hlen3 : inject_Z (Z.of_nat (length lanes)) <= 3).
  { change 3 with (inject_Z 3). rewrite <- Zle_Qle. lia. }
  assert (Hlane : in_unit_interval (Py.sum (map snd lanes) / 3)).
  { split.
    - apply Qle_shift_div_l; [reflexivity | lra].
    - apply Qle_shift_div_r; [reflexivity | lra]. }
  assert (Htps : in_unit_interval (Qmin 1 (Py.get (Metrics.teleports_used g) 0 / 10))).
  { apply clamp_min_unit, div_nonneg; [exact Htp | reflexivity]. }
  apply blend3_unit; try assumption; try lra.
  split; assumption.
Qed.

Lemma map_presence_in_unit_interval_witness :
  Py.returns
    (Metrics.calculate_map_presence Inputs.sample_metrics Scenarios.full_game_data)
    in_unit_interval.
Proof.
  apply (map_presence_in_unit_interval Inputs.sample_metrics Scenarios.full_game_data).
  - intros H; discriminate H.
  - repeat constructor; intros H; discriminate H.
  - cbn. apply le_n.
  - split; intros H; discriminate H.
Defined.

(** ** performance.py *)

Ltac split_keys :=
  repeat (match goal with
          | |- context [String.eqb ?a ?b] => destruct (String.eqb a b)
          end; cbn [Dict.get]).

Lemma role_state_modifier_bounds (role metric : string) :
  0.5 <= PerformanceAnalysis.get_role_state_modifier role metric /\
  PerformanceAnalysis.get_role_state_modifier role metric <= 1.3.
Proof.
  unfold PerformanceAnalysis.get_role_state_modifier,
    PerformanceAnalysis.role_modifiers.
  cbn [Dict.get]. split_keys; split; intros H; discriminate H.
Qed.

(** X8.  The role and state modifier is looked up with defaults: for a role
    that the table does not list it is 1.0 whatever the metric, and in
    every case it lies between 0.5 and 1.3. *)
Theorem role_state_modifier_defaults (role metric : string) :
  (Dict.mem role PerformanceAnalysis.role_modifiers = false ->
   PerformanceAnalysis.get_role_state_modifier role metric = 1.0) /\
  0.5 <= PerformanceAnalysis.get_role_state_modifier role metric /\
  PerformanceAnalysis.get_role_state_modifier role metric <= 1.3.
Proof.
  split; [| apply role_state_modifier_bounds].
  unfold PerformanceAnalysis.get_role_state_modifier,
    PerformanceAnalysis.role_modifiers.
  cbn [Dict.get Dict.mem].
  repeat (match goal with
          | |- context [String.eqb ?a ?b] => destruct (String.eqb a b)
          end; cbn [Dict.get orb]);
    try reflexivity; intros H; discriminate H.
Qed.

Lemma role_state_modifier_defaults_witness :
  PerformanceAnalysis.get_role_state_modifier "jungler" "kda" = 1.0.
Proof.
  apply (role_state_modifier_defaults "jungler" "kda"). reflexivity.
Defined.

Lemma adjusted_values_ordered
    (metrics : list (string * Q)) (role : string) (lo hi : Q) :
  0 <= lo -> lo <= hi ->
  Forall (fun item => 0 <= snd item) metrics ->
  Forall2 (fun a b => fst a = fst b /\ snd a <= snd b)
    (map (fun item =>
            (fst item,
             snd item * lo * PerformanceAnalysis.get_role_state_modifier role (fst item)))
         metrics)
    (map (fun item =>
            (fst item,
             snd item * hi * PerformanceAnalysis.get_role_state_modifier role (fst item)))
         metrics).
Proof.
  intros Hlo Hhi Hall. induction Hall as [| [k v] rest Hv _ IH]; cbn [map].
  - constructor.
  - constructor; [| exact IH]. cbn [fst snd] in *. split; [reflexivity |].
    destruct (role_state_modifier_bounds role k) as [Hm _].
    apply Qmult_le_compat_r; [| lra].
    setoid_replace (v * lo) with (lo * v) by ring.
    setoid_replace (v * hi) with (hi * v) by ring.
    apply Qmult_le_compat_r; assumption.
Qed.

(** X9.  The game-state adjustment keeps the keys of the metrics and values
    the same statistics higher the worse the game went: for non-negative
    metrics, each adjusted value while winning is at most the value while
    even, which is at most the value while losing. *)
Theorem adjust_for_game_state_orders_states
    (metrics : list (string * Q)) (role : string)
    (winning even losing : PerformanceAnalysis.PerformanceContext) :
  PerformanceAnalysis.game_state winning = "winning"%string ->
  PerformanceAnalysis.game_state even = "even"%string ->
  PerformanceAnalysis.game_state losing = "losing"%string ->
  Forall (fun item => 0 <= snd item) metrics ->
  exists aw ae al,
    PerformanceAnalysis.adjust_for_game_state metrics winning role = Py.Ok aw /\
    PerformanceAnalysis.adjust_for_game_state metrics even role = Py.Ok ae /\
    PerformanceAnalysis.adjust_for_game_state metrics losing role = Py.Ok al /\
    Dict.keys aw = Dict.keys metrics /\
    Forall2 (fun a b => fst a = fst b /\ snd a <= snd b) aw ae /\
    Forall2 (fun a b => fst a = fst b /\ snd a <= snd b) ae al.
Proof.
  intros Hw He Hl Hall. unfold PerformanceAnalysis.adjust_for_game_state.
  rewrite Hw, He, Hl. cbn [Dict.getitem PerformanceAnalysis.state_multiplier
                           String.eqb Ascii.eqb Bool.eqb Py.bind].
  eexists. eexists. eexists.
  split; [reflexivity |]. split; [reflexivity |]. split; [reflexivity |].
  split; [| split].
  - unfold Dict.keys. rewrite map_map. cbn [fst]. reflexivity.
  - apply adjusted_values_ordered; [| | exact Hall]; intros H; discriminate H.
  - apply adjusted_values_ordered; [| | exact Hall]; intros H; discriminate H.
Qed.

Lemma adjust_for_game_state_orders_states_witness :
  exists aw ae al,
    PerformanceAnalysis.adjust_for_game_state Scenarios.carry_metrics
      (Scenarios.context_of "winning") "carry" = Py.Ok aw /\
    PerformanceAnalysis.adjust_for_game_state Scenarios.carry_metrics
      (Scenarios.context_of "even") "carry" = Py.Ok ae /\
    PerformanceAnalysis.adjust_for_game_state Scenarios.carry_metrics
      (Scenarios.context_of "losing") "carry" = Py.Ok al /\
    Dict.keys aw = Dict.keys Scenarios.carry_metrics /\
    Forall2 (fun a b => fst a = fst b /\ snd a <= snd b) aw ae /\
    Forall2 (fun a b => fst a = fst b /\ snd a <= snd b) ae al.
Proof.
  apply (adjust_for_game_state_orders_states Scenarios.carry_metrics "carry"
           (Scenarios.context_of "winning") (Scenarios.context_of "even")
           (Scenarios.context_of "losing")); try reflexivity.
  repeat constructor; intros H; discriminate H.
Defined.

(** X10.  Every impact score is at most 1 and belongs to a metric that has an
    expectation: metrics without one are left out. *)
Theorem impact_scores_bounded
    (metrics expectations : list (string * Q))
    (context : PerformanceAnalysis.PerformanceContext)
    (scores : list (string * Q)) :
  PerformanceAnalysis.calculate_impact_scores metrics expectations context
  = Py.Ok scores ->
  Forall (fun item =>
            snd item <= 1 /\
            Dict.mem (fst item) expectations = true /\
            In (fst item) (Dict.keys metrics))
         scores.
Proof.
  revert scores. induction metrics as [| [metric value] rest IH]; intros scores H.
  - cbn in H. injection H as <-. constructor.
  - cbn [PerformanceAnalysis.calculate_impact_scores] in H.
    destruct (Dict.mem metric expectations) eqn:Emem.
    + invert_bind H. injection H as <-.
      constructor.
      * cbn [fst snd Dict.keys map]. split; [apply Q.le_min_l |].
        split; [exact Emem | left; reflexivity].
      * eapply Forall_impl; [| apply IH; reflexivity].
        intros item (H1 & H2 & H3). repeat split; try assumption.
        right. exact H3.
    + eapply Forall_impl; [| apply IH; exact H].
      intros item (H1 & H2 & H3). repeat split; try assumption.
      right. exact H3.
Qed.

Lemma impact_scores_bounded_witness :
  exists scores,
    PerformanceAnalysis.calculate_impact_scores
      [("gpm"%string, 700); ("kda"%string, 3); ("lh"%string, 120)]
      [("gpm"%string, 650); ("xpm"%string, 750); ("lh"%string, 160)]
      (Scenarios.context_of "losing")
    = Py.Ok scores /\
    Forall (fun item =>
              snd item <= 1 /\
              Dict.mem (fst item)
                [("gpm"%string, 650); ("xpm"%string, 750); ("lh"%string, 160)]
              = true /\
              In (fst item)
                 (Dict.keys [("gpm"%string, 700); ("kda"%string, 3);
                             ("lh"%string, 120)]))
           scores.
Proof.
  eexists. split; [vm_compute; reflexivity |].
  apply (impact_scores_bounded
           [("gpm"%string, 700); ("kda"%string, 3); ("lh"%string, 120)]
           [("gpm"%string, 650); ("xpm"%string, 750); ("lh"%string, 160)]
           (Scenarios.context_of "losing")).
  vm_compute. reflexivity.
Defined.

Lemma overall_weight_nonneg (metric : string) :
  0 <= Dict.get PerformanceAnalysis.weights metric 0.0.
Proof.
  unfold PerformanceAnalysis.weights. cbn [Dict.get].
  split_keys; intros H; discriminate H.
Qed.

Lemma accumulate_invariant (scores : list (string * Q)) (totals : Q * Q) :
  Forall (fun item => in_unit_interval (snd item)) scores ->
  0 <= fst totals -> fst totals <= snd totals ->
  let final := fold_left PerformanceAnalysis.accumulate scores totals in
  0 <= fst final /\ fst final <= snd final.
Proof.
  intros Hall. revert totals.
  induction Hall as [| [k v] rest [Hv0 Hv1] _ IH]; intros [ts tw] H0 H1.
  - cbn. split; assumption.
  - cbn [fold_left]. apply IH; unfold PerformanceAnalysis.accumulate; cbn [fst snd] in *.
    + pose proof (overall_weight_nonneg k) as Hw.
      pose proof (Qmult_le_0_compat _ _ Hv0 Hw). lra.
    + pose proof (overall_weight_nonneg k) as Hw.
      assert (v * Dict.get PerformanceAnalysis.weights k 0.0
              <= 1 * Dict.get PerformanceAnalysis.weights k 0.0)
        by (apply Qmult_le_compat_r; assumption).
      lra.
Qed.

Lemma accumulate_unknown_keys (scores : list (string * Q)) (totals : Q * Q) :
  Forall (fun item => Dict.mem (fst item) PerformanceAnalysis.weights = false) scores ->
  snd (fold_left PerformanceAnalysis.accumulate scores totals) == snd totals.
Proof.
  intros Hall. revert totals.
  induction Hall as [| [k v] rest Hk _ IH]; intros [ts tw].
  - reflexivity.
  - cbn [fold_left]. rewrite IH. unfold PerformanceAnalysis.accumulate.
    cbn [fst snd] in *.
    assert (Hw : Dict.get PerformanceAnalysis.weights k 0.0 == 0).
    { revert Hk. unfold PerformanceAnalysis.weights. cbn [Dict.get Dict.mem].
      repeat (match goal with
              | |- context [String.eqb ?a ?b] => destruct (String.eqb a b)
              end; cbn [Dict.get orb]);
        try (intros H; discriminate H); intros _; reflexivity. }
    rewrite Hw. ring.
Qed.

(** X11.  The overall performance score is a weighted mean: for impact scores
    in [0,1] it is in [0,1], and when no score belongs to one of the five
    weighted metrics (in particular for no score at all) it is 0. *)
Theorem overall_score_weighted_mean (impact_scores : list (string * Q)) :
  (Forall (fun item => in_unit_interval (snd item)) impact_scores ->
   in_unit_interval (PerformanceAnalysis.calculate_overall_score impact_scores)) /\
  (Forall (fun item => Dict.mem (fst item) PerformanceAnalysis.weights = false)
          impact_scores ->
   PerformanceAnalysis.calculate_overall_score impact_scores == 0).
Proof.
  unfold PerformanceAnalysis.calculate_overall_score. cbv zeta. split.
  - intros Hall.
    destruct (accumulate_invariant impact_scores (0.0, 0.0) Hall) as [H0 H1];
      [cbn; lra | cbn; lra |].
    destruct (Py.gtb _ 0) eqn:Egt.
    + apply gtb_iff in Egt. apply clamp_min_unit, div_nonneg; assumption.
    + split; intros H; discriminate H.
  - intros Hall.
    pose proof (accumulate_unknown_keys impact_scores (0.0, 0.0) Hall) as Hw.
    cbn [snd] in Hw.
    destruct (Py.gtb _ 0) eqn:Egt.
    + apply gtb_iff in Egt. rewrite Hw in Egt. discriminate Egt.
    + reflexivity.
Qed.

Lemma overall_score_weighted_mean_witness :
  in_unit_interval
    (PerformanceAnalysis.calculate_overall_score Scenarios.some_impact_scores) /\
  PerformanceAnalysis.calculate_overall_score [("gpm"%string, 0.9)] == 0.
Proof.
  split.
  - apply (overall_score_weighted_mean Scenarios.some_impact_scores).
    repeat constructor; intros H; discriminate H.
  - apply (overall_score_weighted_mean [("gpm"%string, 0.9)]).
    repeat constructor.
Defined.

(** X12.  No key of the base metrics (kda, cs_per_min, damage_share,
    vision_score, objective_score) occurs in any table of role
    expectations (gpm, xpm, lh, rotations, impact, ...).  Hence whenever
    [analyze_performance] returns, for whatever role, phase and game
    state, its impact scores are empty and its overall score is 0. *)
Theorem analyze_performance_scores_nothing
    (role : option string) (player : Core.Player) (match_data : Core.MatchData)
    (context : PerformanceAnalysis.PerformanceContext)
    (r : PerformanceAnalysis.Analysis) :
  PerformanceAnalysis.analyze_performance role player match_data context = Py.Ok r ->
  PerformanceAnalysis.impact_scores r = [] /\
  PerformanceAnalysis.overall_score r == 0 /\
  Dict.keys (PerformanceAnalysis.adjusted_metrics r)
  = ["kda"; "cs_per_min"; "damage_share"; "vision_score"; "objective_score"]%string.
Proof.
  unfold PerformanceAnalysis.analyze_performance. cbv zeta. intros H.
  destruct role as [player_role |]; [| discriminate H].
  cbn [Py.getattr Py.bind] in H.
  destruct (Dict.getitem PerformanceAnalysis.role_expectations player_role)
    as [by_phase |] eqn:Erole; [| discriminate H].
  cbn [Py.bind] in H.
  destruct (Dict.getitem by_phase _) as [role_metrics |] eqn:Ephase;
    [| discriminate H].
  cbn [Py.bind] in H.
  destruct (Performance.calculate_base_metrics player match_data) as [base |];
    [| discriminate H].
  cbn [Py.bind] in H.
  unfold PerformanceAnalysis.adjust_for_game_state in H.
  destruct (Dict.getitem PerformanceAnalysis.state_multiplier _) as [multiplier |];
    [| discriminate H].
  cbn [Py.bind PerformanceAnalysis.base_metrics_items map fst snd] in H.
  assert (Hnone :
            forall key, In key ["kda"; "cs_per_min"; "damage_share";
                                "vision_score"; "objective_score"]%string ->
                        Dict.mem key role_metrics = false).
  { unfold PerformanceAnalysis.role_expectations in Erole.
    cbn [Dict.getitem] in Erole.
    unfold PerformanceAnalysis.determine_game_phase in Ephase.
    repeat match type of Erole with
           | context [String.eqb ?a player_role] => destruct (String.eqb a player_role)
           end;
      try discriminate Erole; injection Erole as <-;
      destruct (_ <? 15)%Z; try destruct (_ <? 30)%Z;
      cbn in Ephase; injection Ephase as <-;
      intros key Hkey; cbn in Hkey;
      repeat (destruct Hkey as [<- | Hkey]; [reflexivity |]); contradiction. }
  cbn [PerformanceAnalysis.calculate_impact_scores] in H.
  rewrite !Hnone in H by (cbn; tauto).
  injection H as <-.
  cbn [PerformanceAnalysis.impact_scores PerformanceAnalysis.overall_score
       PerformanceAnalysis.adjusted_metrics].
  split; [reflexivity |]. split; reflexivity.
Qed.

Lemma analyze_performance_scores_nothing_witness :
  Py.returns
    (PerformanceAnalysis.analyze_performance (Some "carry"%string)
       Scenarios.warded_player Scenarios.test_match_data
       (Scenarios.context_of "winning"))
    (fun r =>
       PerformanceAnalysis.impact_scores r = [] /\
       PerformanceAnalysis.overall_score r == 0).
Proof.
  destruct (PerformanceAnalysis.analyze_performance (Some "carry"%string)
              Scenarios.warded_player Scenarios.test_match_data
              (Scenarios.context_of "winning")) as [r |] eqn:E.
  - cbn [Py.returns].
    destruct (analyze_performance_scores_nothing _ _ _ _ r E) as (H1 & H2 & _).
    split; assumption.
  - vm_compute in E. discriminate E.
Defined.

(** X13.  The objective score of the analyzer divides by the team's building
    damage as given: the default 1 applies only when the key is absent, a
    recorded 0 raises ZeroDivisionError, and any result is at most 1. *)
Theorem objective_score_divisor (player : Core.Player) (match_data : Core.MatchData) :
  (Core.team_building_damage match_data = Some 0%Z ->
   Performance.calculate_objective_score player match_data
   = Py.Raise Py.ZeroDivisionError) /\
  (Core.team_building_damage match_data <> Some 0%Z ->
   Py.returns (Performance.calculate_objective_score player match_data)
     (fun v => v <= 1)).
Proof.
  unfold Performance.calculate_objective_score. split.
  - intros ->. reflexivity.
  - intros Hnz.
    rewrite truediv_nonzero.
    + cbn [Py.bind Py.returns]. apply Q.le_min_l.
    + destruct (Core.team_building_damage match_data) as [z |]; cbn [Py.get].
      * intros H. apply Hnz. f_equal. unfold Qeq in H. cbn in H. lia.
      * intros H. discriminate H.
Qed.

Lemma objective_score_divisor_witness :
  Performance.calculate_objective_score Scenarios.warded_player
    {| Core.duration := Some 2400%Z; Core.team_total_damage := Some 100000%Z;
       Core.team_building_damage := Some 0%Z |}
  = Py.Raise Py.ZeroDivisionError /\
  Py.returns
    (Performance.calculate_objective_score Scenarios.warded_player
       Scenarios.test_match_data)
    (fun v => v <= 1).
Proof.
  split.
  - apply (objective_score_divisor Scenarios.warded_player). reflexivity.
  - apply (objective_score_divisor Scenarios.warded_player Scenarios.test_match_data).
    intros H. discriminate H.
Defined.

(** ** core/player.py *)

Lemma last_n_length {A : Type} (n : nat) (xs : list A) :
  (length (Py.last_n n xs) <= n)%nat.
Proof. unfold Py.last_n. rewrite length_skipn. lia. Qed.

(** X14.  The tilt factor is a fifth of the number of lost games among the five
    most recent ones, a game without a recorded outcome counting as lost:
    it is one of 0, 0.2, ..., 1, the clamp at 1 never cuts anything, and
    an empty history gives 0. *)
Theorem calculate_tilt_counts_recent_losses (p : Core.Player) :
  let losses :=
    Z.of_nat (length (filter PlayerOps.is_loss
                        (Py.last_n 5 (Core.performance_history p)))) in
  (0 <= losses <= 5)%Z /\
  PlayerOps.calculate_tilt p == inject_Z losses * 0.2 /\
  in_unit_interval (PlayerOps.calculate_tilt p).
Proof.
  intros losses.
  assert (Hrange : (0 <= losses <= 5)%Z).
  { unfold losses. split; [lia |].
    pose proof (filter_length_le PlayerOps.is_loss
                  (Py.last_n 5 (Core.performance_history p))).
    pose proof (last_n_length 5 (Core.performance_history p)). lia. }
  assert (Hq : 0 <= inject_Z losses * 0.2 /\ inject_Z losses * 0.2 <= 1).
  { destruct Hrange as [H0 H5].
    apply inject_Z_nonneg in H0.
    assert (inject_Z losses <= inject_Z 5) by (rewrite <- Zle_Qle; exact H5).
    change (inject_Z 5) with 5 in *. split; lra. }
  assert (Hvalue : PlayerOps.calculate_tilt p == inject_Z losses * 0.2).
  { unfold PlayerOps.calculate_tilt. unfold losses in *.
    destruct (Core.performance_history p) as [| e es] eqn:Ehist.
    - reflexivity.
    - apply Q.min_r. exact (proj2 Hq). }
  split; [exact Hrange |]. split; [exact Hvalue |].
  unfold in_unit_interval. rewrite Hvalue. exact Hq.
Qed.

(** X15.  Appending a match to a history of at most 20 entries keeps it at most
    20 long with the new entry last: below 20 nothing is dropped, at 20
    the oldest entry is. *)
Theorem add_match_performance_window (p : Core.Player) (entry : Core.HistoryEntry) :
  (length (Core.performance_history p) <= 20)%nat ->
  let history := Core.performance_history (Core.add_match_performance p entry) in
  (length history <= 20)%nat /\
  last history entry = entry /\
  ((length (Core.performance_history p) < 20)%nat ->
   history = Core.performance_history p ++ [entry]) /\
  (length (Core.performance_history p) = 20%nat ->
   history = tl (Core.performance_history p) ++ [entry]).
Proof.
  intros Hlen. unfold Core.add_match_performance. cbv zeta.
  cbn [Core.performance_history].
  rewrite length_app. cbn [length].
  destruct (20 <? Z.of_nat (length (Core.performance_history p) + 1))%Z eqn:E.
  - apply Z.ltb_lt in E.
    assert (H20 : length (Core.performance_history p) = 20%nat) by lia.
    destruct (Core.performance_history p) as [| e es]; [discriminate H20 |].
    cbn [app tl length] in *. repeat split.
    + rewrite length_app. cbn [length]. lia.
    + apply last_last.
    + intros Hlt. lia.
  - apply Z.ltb_ge in E. repeat split.
    + rewrite length_app. cbn [length]. lia.
    + apply last_last.
    + intros H20. lia.
Qed.

Lemma add_match_performance_window_witness :
  let history :=
    Core.performance_history
      (Core.add_match_performance Inputs.streak_player
         {| Core.score := Some 0.5; Core.victory := Some false |}) in
  (length history <= 20)%nat /\
  last history {| Core.score := Some 0.5; Core.victory := Some false |}
  = {| Core.score := Some 0.5; Core.victory := Some false |}.
Proof.
  pose proof (add_match_performance_window Inputs.streak_player
                {| Core.score := Some 0.5; Core.victory := Some false |}) as H.
  cbv zeta in *. split; apply H; cbn; repeat constructor.
Defined.

Lemma getitem_update_same {A : Type} (d : list (string * A)) (key : string) (old v : A) :
  Dict.getitem d key = Py.Ok old ->
  Dict.getitem (Dict.update d key v) key = Py.Ok v.
Proof.
  induction d as [| [k w] rest IH]; cbn; intros H; [discriminate H |].
  destruct (String.eqb k key) eqn:E; cbn; rewrite E; [reflexivity | apply IH, H].
Qed.

Lemma getitem_update_other {A : Type} (d : list (string * A)) (key other : string) (v : A) :
  other <> key ->
  Dict.getitem (Dict.update d key v) other = Dict.getitem d other.
Proof.
  intros Hne. induction d as [| [k w] rest IH]; cbn; [reflexivity |].
  destruct (String.eqb k key) eqn:E; cbn.
  - apply String.eqb_eq in E. subst k.
    destruct (String.eqb key other) eqn:E2; [| reflexivity].
    apply String.eqb_eq in E2. congruence.
  - destruct (String.eqb k other); [reflexivity | exact IH].
Qed.

Lemma keys_update {A : Type} (d : list (string * A)) (key : string) (v : A) :
  Dict.keys (Dict.update d key v) = Dict.keys d.
Proof.
  induction d as [| [k w] rest IH]; cbn; [reflexivity |].
  destruct (String.eqb k key); cbn; [reflexivity |].
  unfold Dict.keys in IH. rewrite IH. reflexivity.
Qed.

Lemma max_of_upper_bound (xs : list Z) (x : Z) :
  (x <= PlayerOps.max_of x xs)%Z /\
  Forall (fun y => (y <= PlayerOps.max_of x xs)%Z) xs.
Proof.
  unfold PlayerOps.max_of. revert x.
  induction xs as [| y ys IH]; intros x; cbn [fold_left].
  - split; [lia | constructor].
  - destruct (IH (Z.max x y)) as [Hx Hys]. split; [lia |].
    constructor; [lia | exact Hys].
Qed.

Lemma max_of_attained (xs : list Z) (x : Z) :
  PlayerOps.max_of x xs = x \/ In (PlayerOps.max_of x xs) xs.
Proof.
  unfold PlayerOps.max_of. revert x.
  induction xs as [| y ys IH]; intros x; cbn [fold_left].
  - left. reflexivity.
  - destruct (IH (Z.max x y)) as [H | H].
    + destruct (Z.max_spec x y) as [[_ Hm] | [_ Hm]]; rewrite Hm in *.
      * right. left. symmetry. exact H.
      * left. exact H.
    + right. right. exact H.
Qed.

Lemma in_values_update {A : Type} (d : list (string * A)) (key : string) (old v : A) :
  Dict.getitem d key = Py.Ok old -> In v (Dict.values (Dict.update d key v)).
Proof.
  induction d as [| [k w] rest IH]; cbn; intros H; [discriminate H |].
  destruct (String.eqb k key); cbn; [left; reflexivity | right; apply IH, H].
Qed.

(** X16.  [update_mmr] raises KeyError for a role without a rating.  Otherwise
    it adds the change to that role's rating, leaves the other ratings
    and the set of roles as they were, and sets the main rating to the
    highest role rating: it bounds every rating and is one of them. *)
Theorem update_mmr_main_rating_is_maximum
    (self : PlayerOps.Ratings) (change : Z) (role : string) :
  match Dict.getitem (PlayerOps.role_ratings self) role with
  | Py.Raise e => PlayerOps.update_mmr self change role = Py.Raise e
  | Py.Ok old =>
      exists updated,
        PlayerOps.update_mmr self change role = Py.Ok updated /\
        Dict.getitem (PlayerOps.role_ratings updated) role = Py.Ok (old + change)%Z /\
        (forall other, other <> role ->
           Dict.getitem (PlayerOps.role_ratings updated) other
           = Dict.getitem (PlayerOps.role_ratings self) other) /\
        Dict.keys (PlayerOps.role_ratings updated)
        = Dict.keys (PlayerOps.role_ratings self) /\
        Forall (fun rating => (rating <= PlayerOps.mmr updated)%Z)
               (Dict.values (PlayerOps.role_ratings updated)) /\
        In (PlayerOps.mmr updated) (Dict.values (PlayerOps.role_ratings updated))
  end.
Proof.
  unfold PlayerOps.update_mmr.
  destruct (Dict.getitem (PlayerOps.role_ratings self) role) as [old |] eqn:E;
    cbn [Py.bind]; [| reflexivity].
  eexists. split; [reflexivity |].
  cbn [PlayerOps.role_ratings PlayerOps.mmr].
  split; [exact (getitem_update_same _ _ _ _ E) |].
  split; [intros other Hne; apply getitem_update_other, Hne |].
  split; [apply keys_update |].
  split; [apply max_of_upper_bound |].
  destruct (max_of_attained
              (Dict.values (Dict.update (PlayerOps.role_ratings self) role
                              (old + change)%Z))
              (old + change)%Z) as [H | H].
  - rewrite H. exact (in_values_update _ _ _ _ E).
  - exact H.
Qed.

(** X17.  From the ratings of a new player, a change on one of the five roles
    moves the main rating to the larger of the initial rating and the new
    rating of that role: a loss on one role does not lower it. *)
Theorem update_mmr_of_new_player (initial_mmr change : Z) (role : string) :
  In role ["carry"; "mid"; "offlane"; "soft_support"; "hard_support"]%string ->
  Py.returns (PlayerOps.update_mmr (PlayerOps.initial initial_mmr) change role)
    (fun updated =>
       PlayerOps.mmr updated = Z.max initial_mmr (initial_mmr + change)).
Proof.
  intros Hrole. cbn in Hrole.
  repeat (destruct Hrole as [<- | Hrole]; [cbn; lia |]). contradiction.
Qed.

Lemma update_mmr_of_new_player_witness :
  Py.returns (PlayerOps.update_mmr (PlayerOps.initial 2000) (-25) "mid")
    (fun updated => PlayerOps.mmr updated = 2000%Z).
Proof.
  apply (update_mmr_of_new_player 2000 (-25) "mid"). cbn. tauto.
Defined.

(** ** exceptional.py *)

(** X18.  For thresholds in ascending order, raising the overall score of a
    fixed metrics bundle never moves the result to a lower tier. *)
Theorem tier_monotone_in_overall_score
    (config : Exceptional.Config) (s1 s2 : Q)
    (m : Exceptional.ExceptionalMetrics) (match_data : Core.MatchData) :
  Exceptional.very_good_threshold config <= Exceptional.excellent_threshold config ->
  Exceptional.excellent_threshold config <= Exceptional.exceptional_threshold config ->
  s1 <= s2 ->
  (Scenarios.tier_rank
     (fst (Exceptional.determine_tier_and_adjustment config s1 m match_data))
   <= Scenarios.tier_rank
        (fst (Exceptional.determine_tier_and_adjustment config s2 m match_data)))%nat.
Proof.
  intros Hvg Hex Hs.
  unfold Exceptional.determine_tier_and_adjustment.
  cbv zeta. cbn [forallb andb].
  tier_cases; geb_facts; cbn; try lia; exfalso; lra.
Qed.

Lemma tier_monotone_in_overall_score_witness :
  (Scenarios.tier_rank
     (fst (Exceptional.determine_tier_and_adjustment Exceptional.default_config
             0.75 (Inputs.uniform_metrics 0.9) (Inputs.match_data_of 2400)))
   <= Scenarios.tier_rank
        (fst (Exceptional.determine_tier_and_adjustment Exceptional.default_config
                0.95 (Inputs.uniform_metrics 0.9) (Inputs.match_data_of 2400))))%nat.
Proof.
  apply (tier_monotone_in_overall_score Exceptional.default_config 0.75 0.95);
    intros H; discriminate H.
Defined.

(** X19.  With the default configuration the adjustment is between -25 and 5.
    It is -25 for "normal", 0 for "excellent", between 0 and 5 for
    "exceptional" (for an overall score of at least 0.9), and for
    "very_good" it lies in (-5, 0]: the floor of -10 in the code is never
    reached. *)
Theorem adjustment_bounds_by_tier
    (overall_score : Q) (m : Exceptional.ExceptionalMetrics)
    (match_data : Core.MatchData) :
  let result :=
    Exceptional.determine_tier_and_adjustment (Exceptional.init None)
      overall_score m match_data in
  (-25 <= snd result /\ snd result <= 5) /\
  (fst result = "normal"%string -> snd result == -25) /\
  (fst result = "very_good"%string -> -5 < snd result /\ snd result <= 0) /\
  (fst result = "excellent"%string -> snd result == 0) /\
  (fst result = "exceptional"%string -> 0 <= snd result /\ snd result <= 5).
Proof.
  intros result. unfold result, Exceptional.determine_tier_and_adjustment.
  cbv zeta. cbn [forallb andb].
  cbn [Exceptional.init Py.get Exceptional.default_config
       Exceptional.exceptional_threshold Exceptional.excellent_threshold
       Exceptional.very_good_threshold Exceptional.max_mmr_gain].
  assert (Hvg : forall s, 0.70 <= s -> s < 0.80 ->
                  -5 < Qmax (-10) ((s - 0.7) * -50) /\
                  Qmax (-10) ((s - 0.7) * -50) <= 0).
  { intros s H1 H2. rewrite (Q.max_r (-10) ((s - 0.7) * -50)) by lra.
    split; lra. }
  assert (Hex : forall s, 0.90 <= s ->
                  0 <= Qmin 5 ((s - 0.9) * 50) /\ Qmin 5 ((s - 0.9) * 50) <= 5).
  { intros s H1. split; [apply Q.min_glb; lra | apply Q.le_min_l]. }
  tier_cases; geb_facts;
    repeat match goal with
           | |- _ /\ _ => split
           | |- _ -> _ => let H := fresh in intros H; try discriminate H
           end;
    try reflexivity;
    try (destruct (Hvg overall_score) as [? ?]; [assumption | assumption |]; lra);
    try (destruct (Hex overall_score) as [? ?]; [assumption |]; lra);
    try (intros H; discriminate H).
Qed.

Lemma adjustment_bounds_by_tier_witness :
  let result :=
    Exceptional.determine_tier_and_adjustment (Exceptional.init None)
      0.75 (Inputs.uniform_metrics 0.9) (Inputs.match_data_of 2400) in
  -5 < snd result /\ snd result <= 0.
Proof.
  apply (adjustment_bounds_by_tier 0.75 (Inputs.uniform_metrics 0.9)
           (Inputs.match_data_of 2400)).
  reflexivity.
Defined.

(** X20.  The game impact of a bundle whose seven scored components are in
    [0,1] is in [0,1]. *)
Theorem game_impact_in_unit_interval (m : Exceptional.ExceptionalMetrics) :
  in_unit_interval (Exceptional.combat_score m) ->
  in_unit_interval (Exceptional.farm_efficiency m) ->
  in_unit_interval (Exceptional.map_impact m) ->
  in_unit_interval (Exceptional.objective_control m) ->
  in_unit_interval (Exceptional.teamfight_contribution m) ->
  in_unit_interval (Exceptional.vision_control m) ->
  in_unit_interval (Exceptional.utility_score m) ->
  in_unit_interval (Exceptional.calculate_game_impact m).
Proof.
  intros [? ?] [? ?] [? ?] [? ?] [? ?] [? ?] [? ?].
  unfold Exceptional.calculate_game_impact, Py.sum, in_unit_interval.
  cbn [fold_left]. split; lra.
Qed.

Lemma game_impact_in_unit_interval_witness :
  in_unit_interval (Exceptional.calculate_game_impact Inputs.weak_combat_metrics).
Proof.
  apply (game_impact_in_unit_interval Inputs.weak_combat_metrics);
    split; intros H; discriminate H.
Defined.

(** X21.  Whatever definitions are supplied for the methods the analyzer lacks:
    when the analysis returns, the flag says whether the tier differs from
    "normal"; a positive flag implies that the match lasted at least the
    minimum duration and that the teamfight contribution reached the
    minimum; and the [game_impact] of the returned bundle is the weighted
    sum of its seven other components. *)
Theorem analysis_flag_and_bundle
    (PlayerStatsDict GameContext : Type)
    (self : Exceptional.Methods PlayerStatsDict GameContext)
    (np : option Globals.module) (config : Exceptional.Config)
    (player_stats : PlayerStatsDict) (match_data : Core.MatchData)
    (game_context : GameContext)
    (flag : bool) (tier : string) (adjustment : Q)
    (m : Exceptional.ExceptionalMetrics) :
  Exceptional.analyze_exceptional_performance self np config
    player_stats match_data game_context
  = Py.Ok (flag, tier, adjustment, m) ->
  (flag = true <-> tier <> "normal"%string) /\
  (flag = true ->
   exists d, Core.duration match_data = Some d /\
             (Exceptional.min_game_duration config <= d)%Z /\
             Exceptional.min_teamfight_participation config
             <= Exceptional.teamfight_contribution m) /\
  Exceptional.game_impact m = Exceptional.calculate_game_impact m.
Proof.
  unfold Exceptional.analyze_exceptional_performance. intros H.
  destruct (Exceptional.calculate_exceptional_metrics _ _ _ _) as [bundle |] eqn:Em;
    [| discriminate H].
  cbn [Py.bind] in H.
  assert (Himpact : Exceptional.game_impact bundle
                    = Exceptional.calculate_game_impact bundle).
  { unfold Exceptional.calculate_exceptional_metrics in Em.
    repeat match type of Em with
           | context [Py.getattr ?o ?n] =>
               destruct o as [? |]; cbn [Py.getattr Py.bind] in Em;
               [| discriminate Em]
           | Py.bind ?c _ = Py.Ok _ =>
               destruct c; cbn [Py.bind] in Em; [| discriminate Em]
           end.
    injection Em as <-. reflexivity. }
  destruct (Exceptional.validate_performance np config bundle match_data)
    as [valid |] eqn:Ev; [| discriminate H].
  cbn [Py.bind] in H.
  destruct valid; cbn [negb] in H.
  - destruct (Exceptional.calculate_overall_score _ _ self) as [f |];
      cbn [Py.getattr Py.bind] in H; [| discriminate H].
    destruct (f bundle) as [overall |]; cbn [Py.bind] in H; [| discriminate H].
    destruct (Exceptional.determine_tier_and_adjustment _ _ _ _) as [t a].
    injection H as <- <- <- <-.
    split; [| split; [| exact Himpact]].
    + rewrite negb_true_iff, String.eqb_neq. reflexivity.
    + intros _. unfold Exceptional.validate_performance in Ev.
      destruct (Core.duration match_data) as [d |]; [| discriminate Ev].
      cbn [Py.getitem Py.bind] in Ev.
      destruct (d <? _)%Z eqn:Ed; [discriminate Ev |].
      destruct (Py.ltb _ _) eqn:Et; [discriminate Ev |].
      exists d. split; [reflexivity |]. split.
      * apply Z.ltb_ge, Ed.
      * apply Qnot_lt_le. intros Hlt. apply ltb_iff in Hlt. congruence.
  - injection H as <- <- <- <-.
    split; [| split; [| exact Himpact]].
    + split; [discriminate | intros Hne; contradiction Hne; reflexivity].
    + discriminate.
Qed.

Lemma analysis_flag_and_bundle_witness :
  Py.returns
    (Exceptional.analyze_exceptional_performance Scenarios.steady_analyzer_methods
       (Some Globals.numpy) Exceptional.default_config tt
       (Inputs.match_data_of 2400) tt)
    (fun result =>
       fst (fst (fst result)) = true /\
       Exceptional.game_impact (snd result)
       = Exceptional.calculate_game_impact (snd result)).
Proof.
  destruct (Exceptional.analyze_exceptional_performance
              Scenarios.steady_analyzer_methods (Some Globals.numpy)
              Exceptional.default_config tt (Inputs.match_data_of 2400) tt)
    as [[[[flag tier] adjustment] m] |] eqn:E.
  - cbn [Py.returns fst snd].
    destruct (analysis_flag_and_bundle _ _ _ _ _ _ _ _ flag tier adjustment m E)
      as (_ & _ & Himpact).
    split; [| exact Himpact].
    vm_compute in E. injection E as <- _ _ _. reflexivity.
  - vm_compute in E. discriminate E.
Defined.

(** ** utils/safety.py *)

Lemma first_failure_reason (checks : list Safety.Check) :
  fst (Safety.first_failure checks) = true ->
  Safety.first_failure checks = (true, ""%string).
Proof.
  induction checks as [| [valid r] checks IH]; cbn; [reflexivity |].
  destruct valid; cbn; [exact IH | discriminate].
Qed.

(** X22.  With definitions supplied for the four missing checks and all six
    checks returning, the verdict is valid exactly when all six are, a
    valid verdict carries the empty reason whatever reasons the checks
    gave, and otherwise the verdict is the reason of the first invalid
    check in the order duration, participation, tilt, balance, recent
    performances, suspicious patterns. *)
Theorem safety_verdict_is_first_failure
    (self : Safety.Methods) (config : Safety.Config)
    (player : Core.Player) (match_data : Core.MatchData) (performance_score : Q)
    (f2 : Core.Player -> Core.MatchData -> Py.result Safety.Check)
    (f3 : Core.Player -> Py.result Safety.Check)
    (f4 : Core.MatchData -> Py.result Safety.Check)
    (f5 : Core.Player -> Py.result Safety.Check)
    (c1 c2 c3 c4 c5 c6 : Safety.Check) :
  Safety.check_teamfight_participation self = Some f2 ->
  Safety.check_tilt_factor self = Some f3 ->
  Safety.check_game_balance self = Some f4 ->
  Safety.check_recent_performances self = Some f5 ->
  Safety.check_game_duration config match_data = Py.Ok c1 ->
  f2 player match_data = Py.Ok c2 ->
  f3 player = Py.Ok c3 ->
  f4 match_data = Py.Ok c4 ->
  f5 player = Py.Ok c5 ->
  Safety.check_suspicious_patterns self config player performance_score = Py.Ok c6 ->
  exists verdict,
    Safety.validate_performance self config player match_data performance_score
    = Py.Ok verdict /\
    (fst verdict = true <->
     Forall (fun c => fst c = true) [c1; c2; c3; c4; c5; c6]) /\
    (fst verdict = true -> verdict = (true, ""%string)) /\
    (forall passed reason rest,
        [c1; c2; c3; c4; c5; c6] = passed ++ (false, reason) :: rest ->
        Forall (fun c => fst c = true) passed ->
        verdict = (false, reason)).
Proof.
  intros H2 H3 H4 H5 E1 E2 E3 E4 E5 E6.
  exists (Safety.first_failure [c1; c2; c3; c4; c5; c6]).
  split; [| split; [| split]].
  - unfold Safety.validate_performance.
    rewrite E1, H2, H3, H4, H5. cbn [Py.bind Py.getattr].
    rewrite E2. cbn [Py.bind]. rewrite E3. cbn [Py.bind].
    rewrite E4. cbn [Py.bind]. rewrite E5. cbn [Py.bind].
    rewrite E6. reflexivity.
  - apply first_failure_valid_iff.
  - apply first_failure_reason.
  - intros passed reason rest -> Hpassed. apply first_failure_found, Hpassed.
Qed.

Lemma safety_verdict_is_first_failure_witness :
  Safety.validate_performance Scenarios.tilted_safety_methods Safety.default_config
    Inputs.ordinary_player (Inputs.match_data_of 2400) 0.5
  = Py.Ok (false, "Player tilt factor too high"%string).
Proof.
  destruct (safety_verdict_is_first_failure
              Scenarios.tilted_safety_methods Safety.default_config
              Inputs.ordinary_player (Inputs.match_data_of 2400) 0.5
              (fun _ _ => Py.Ok (true, ""%string))
              (fun _ => Py.Ok (false, "Player tilt factor too high"%string))
              (fun _ => Py.Ok (false, "Game was too one-sided"%string))
              (fun _ => Py.Ok (true, ""%string))
              (true, ""%string) (true, ""%string)
              (false, "Player tilt factor too high"%string)
              (false, "Game was too one-sided"%string)
              (true, ""%string) (true, ""%string)
              eq_refl eq_refl eq_refl eq_refl eq_refl eq_refl eq_refl eq_refl
              eq_refl eq_refl)
    as (verdict & Hrun & _ & _ & Hfirst).
  rewrite Hrun. f_equal.
  apply (Hfirst [(true, ""%string); (true, ""%string)]
           "Player tilt factor too high"%string
           [(false, "Game was too one-sided"%string); (true, ""%string);
            (true, ""%string)]).
  - reflexivity.
  - repeat constructor.
Defined.

(** X23.  The rejection for a suspicious streak is returned exactly when the
    score exceeds the threshold and every recorded score among the (at
    most five) most recent ones exceeds it too, whatever the other checks
    would say. *)
Theorem rejection_exactly_on_recent_streak
    (self : Safety.Methods) (config : Safety.Config)
    (player : Core.Player) (performance_score : Q) :
  let threshold := Safety.suspicious_performance_threshold config in
  let recent := Py.last_n 5 (Core.performance_history player) in
  Forall (fun p => Core.score p <> None) recent ->
  Safety.check_suspicious_patterns self config player performance_score
  = Py.Ok (false, "Suspiciously consistent high performance"%string)
  <->
  threshold < performance_score /\
  Forall (fun p => threshold < Py.get (Core.score p) 0) recent.
Proof. exact (suspicious_patterns_rejection_iff self config player performance_score). Qed.

Lemma rejection_exactly_on_recent_streak_witness :
  Safety.check_suspicious_patterns Safety.as_written Safety.default_config
    Inputs.streak_player 0.97
  = Py.Ok (false, "Suspiciously consistent high performance"%string).
Proof.
  apply (rejection_exactly_on_recent_streak Safety.as_written Safety.default_config
           Inputs.streak_player 0.97).
  - repeat constructor; discriminate.
  - split; [reflexivity |]. repeat constructor.
Defined.

Lemma last_n_app {A : Type} (n : nat) (older xs : list A) :
  (n <= length xs)%nat -> Py.last_n n (older ++ xs) = Py.last_n n xs.
Proof.
  intros Hn. unfold Py.last_n. rewrite length_app, skipn_app.
  rewrite skipn_all2 by lia. cbn [app]. f_equal. lia.
Qed.

(** Only the five most recent entries of the history are read: putting
    any older entries (even entries without a score) before a history of
    at least five entries changes nothing in the result of the check. *)
Theorem suspicious_patterns_ignore_older_entries
    (self : Safety.Methods) (config : Safety.Config) (player : Core.Player)
    (older : list Core.HistoryEntry) (performance_score : Q) :
  (5 <= length (Core.performance_history player))%nat ->
  Safety.check_suspicious_patterns self config
    (Scenarios.with_history player (older ++ Core.performance_history player))
    performance_score
  = Safety.check_suspicious_patterns self config player performance_score.
Proof.
  intros Hlen. unfold Safety.check_suspicious_patterns.
  cbn [Scenarios.with_history Core.performance_history Core.stats].
  rewrite (last_n_app 5 older _ Hlen). reflexivity.
Qed.

Lemma suspicious_patterns_ignore_older_entries_witness :
  Safety.check_suspicious_patterns Safety.as_written Safety.default_config
    (Scenarios.with_history Inputs.streak_player
       ({| Core.score := None; Core.victory := None |}
        :: Core.performance_history Inputs.streak_player))
    0.97
  = Safety.check_suspicious_patterns Safety.as_written Safety.default_config
      Inputs.streak_player 0.97.
Proof.
  apply (suspicious_patterns_ignore_older_entries Safety.as_written
           Safety.default_config Inputs.streak_player
           [{| Core.score := None; Core.victory := None |}] 0.97).
  cbn. apply le_n.
Defined.

(** ** matchmaking/algorithm.py *)

(** X24.  A team passes the composition check exactly when it has the
    configured size and each of the five roles is preferred by at least
    one of its players; nothing requires the roles to be covered by
    different players. *)
Theorem valid_team_composition_iff
    (Player : Type) (preferred_roles : Player -> list string)
    (config : Algorithm.Config) (team : list Player) :
  MatchSearch.is_valid_team_composition preferred_roles config team = true <->
  Z.of_nat (length team) = Algorithm.team_size config /\
  forall role,
    In role ["carry"; "mid"; "offlane"; "soft_support"; "hard_support"]%string ->
    exists p, In p team /\ In role (preferred_roles p).
Proof.
  unfold MatchSearch.is_valid_team_composition.
  destruct (Z.of_nat (length team) =? Algorithm.team_size config)%Z eqn:Esize;
    cbn [negb].
  - apply Z.eqb_eq in Esize. rewrite forallb_forall.
    fold MatchSearch.required_roles.
    split.
    + intros Hall. split; [exact Esize |]. intros role Hrole.
      specialize (Hall role Hrole). apply existsb_exists in Hall.
      destruct Hall as (r & Hin & Heq). apply String.eqb_eq in Heq. subst r.
      apply in_flat_map in Hin. exact Hin.
    + intros [_ Hcover] role Hrole. apply existsb_exists. exists role.
      split; [apply in_flat_map, Hcover, Hrole | apply String.eqb_refl].
  - apply Z.eqb_neq in Esize. split; [discriminate | intros [H _]; contradiction].
Qed.

Lemma qabs_zero_iff (x : Q) : Qabs x == 0 <-> x == 0.
Proof.
  split; intros H.
  - pose proof (Qle_Qabs x). pose proof (Qle_Qabs (- x)).
    rewrite Qabs_opp in *. lra.
  - rewrite H. reflexivity.
Qed.

(** X25.  With a definition supplied for [calculate_team_mmr] and a positive
    [max_mmr_spread], the team balance is in [0,1], it is 1 exactly for
    equal team ratings and 0 as soon as the ratings differ by the spread
    or more, and it does not depend on which team is called team 1. *)
Theorem team_balance_properties
    (Team Match : Type) (team1 team2 : Match -> Team)
    (self : Algorithm.Methods Team Match) (config : Algorithm.Config)
    (m : Match) (f : Team -> Py.result Q) (r1 r2 : Q) :
  Algorithm.calculate_team_mmr _ _ self = Some f ->
  f (team1 m) = Py.Ok r1 -> f (team2 m) = Py.Ok r2 ->
  0 < Algorithm.max_mmr_spread config ->
  exists b b',
    Algorithm.calculate_team_balance team1 team2 self config m = Py.Ok b /\
    Algorithm.calculate_team_balance team2 team1 self config m = Py.Ok b' /\
    b == b' /\ in_unit_interval b /\
    (b == 1 <-> r1 == r2) /\
    (Algorithm.max_mmr_spread config <= Qabs (r1 - r2) -> b == 0).
Proof.
  intros Hf E1 E2 Hspread. unfold Algorithm.calculate_team_balance.
  rewrite Hf. cbn [Py.getattr Py.bind]. rewrite E1, E2. cbn [Py.bind].
  rewrite !(truediv_pos _ _ Hspread). cbn [Py.bind].
  eexists. eexists. split; [reflexivity |]. split; [reflexivity |].
  set (spread := Algorithm.max_mmr_spread config) in *.
  assert (Hsym : Qabs (r1 - r2) == Qabs (r2 - r1))
    by (rewrite (Qabs_Qminus r1 r2); reflexivity).
  assert (Hratio : 0 <= Qabs (r1 - r2) / spread)
    by (apply div_nonneg; [apply Qabs_nonneg | exact Hspread]).
  split; [rewrite Hsym; reflexivity |].
  split; [| split].
  - split; [apply Q.le_max_l |]. apply Q.max_lub; lra.
  - split.
    + intros H.
      assert (H0 : Qabs (r1 - r2) / spread == 0).
      { destruct (Q.max_spec 0 (1 - Qabs (r1 - r2) / spread))
          as [[_ Hm] | [_ Hm]]; rewrite Hm in H; lra. }
      assert (H1 : Qabs (r1 - r2) == 0).
      { setoid_replace (Qabs (r1 - r2))
          with (Qabs (r1 - r2) / spread * spread) by (field; lra).
        rewrite H0. ring. }
      apply (proj1 (qabs_zero_iff (r1 - r2))) in H1. lra.
    + intros H.
      assert (H1 : Qabs (r1 - r2) == 0)
        by (apply (proj2 (qabs_zero_iff (r1 - r2))); lra).
      rewrite H1.
      assert (Hz : 0 / spread == 0) by (unfold Qdiv; ring).
      rewrite Hz. reflexivity.
  - intros Hfar.
    assert (1 <= Qabs (r1 - r2) / spread)
      by (apply Qle_shift_div_l; [exact Hspread | lra]).
    apply Q.max_l. lra.
Qed.

Lemma team_balance_properties_witness :
  exists b b',
    Algorithm.calculate_team_balance (fun m : unit => m) (fun m : unit => m)
      Inputs.perfect_match_methods Algorithm.default_config tt = Py.Ok b /\
    Algorithm.calculate_team_balance (fun m : unit => m) (fun m : unit => m)
      Inputs.perfect_match_methods Algorithm.default_config tt = Py.Ok b' /\
    b == b' /\ in_unit_interval b /\
    (b == 1 <-> 2500 == 2500) /\
    (Algorithm.max_mmr_spread Algorithm.default_config <= Qabs (2500 - 2500) ->
     b == 0).
Proof.
  apply (team_balance_properties unit unit (fun m => m) (fun m => m)
           Inputs.perfect_match_methods Algorithm.default_config tt
           (fun _ => Py.Ok 2500) 2500 2500);
    reflexivity.
Defined.

Lemma subsequences_nonempty {A : Type} (pool : list A) (r : nat) :
  (r <= length pool)%nat -> MatchSearch.subsequences pool r <> [].
Proof.
  revert r. induction pool as [| x rest IH]; intros r Hr.
  - cbn in Hr. assert (r = 0%nat) by lia. subst r. cbn. discriminate.
  - destruct r as [| r']; cbn [MatchSearch.subsequences]; [discriminate |].
    cbn [length] in Hr.
    assert (Hrest : MatchSearch.subsequences rest r' <> []) by (apply IH; lia).
    destruct (MatchSearch.subsequences rest r'); [contradiction |].
    cbn. discriminate.
Qed.

(** A pool of fewer than [2 * team_size] players yields no match and is
    left as it was, whatever the rest of the class does. *)
Theorem find_match_small_pool
    (Player Match : Type) (preferred_roles : Player -> list string)
    (team1 team2 : Match -> list Player)
    (missing : MatchSearch.Missing Player Match)
    (methods : Algorithm.Methods (list Player) Match)
    (config : Algorithm.Config) (self : MatchSearch.State Player Match) :
  (Z.of_nat (length (MatchSearch.player_pool self))
   < Algorithm.team_size config * 2)%Z ->
  MatchSearch.find_match preferred_roles team1 team2 missing methods config self
  = MatchSearch.Return (None, self).
Proof.
  intros Hsmall. unfold MatchSearch.find_match.
  apply Z.ltb_lt in Hsmall. rewrite Hsmall. reflexivity.
Qed.

Lemma find_match_small_pool_witness :
  MatchSearch.find_match Scenarios.any_role fst snd Scenarios.duel_missing
    Scenarios.duel_methods Algorithm.default_config Scenarios.duel_state
  = MatchSearch.Return (None, Scenarios.duel_state).
Proof.
  apply (find_match_small_pool string (list string * list string)
           Scenarios.any_role fst snd Scenarios.duel_missing Scenarios.duel_methods
           Algorithm.default_config Scenarios.duel_state).
  reflexivity.
Defined.

(** X26.  The class as the repository has it finds no match in any pool: a
    pool that is too small gives "no match"; otherwise a negative team
    size makes [itertools.combinations] raise ValueError, and in every
    other case the first combination reaches the undefined
    [generate_team_splits] and the search raises AttributeError. *)
Theorem find_match_as_written
    (Player Match : Type) (preferred_roles : Player -> list string)
    (team1 team2 : Match -> list Player)
    (methods : Algorithm.Methods (list Player) Match)
    (config : Algorithm.Config) (self : MatchSearch.State Player Match) :
  MatchSearch.find_match preferred_roles team1 team2 MatchSearch.as_written
    methods config self
  = if (Z.of_nat (length (MatchSearch.player_pool self))
        <? Algorithm.team_size config * 2)%Z
    then MatchSearch.Return (None, self)
    else if (Algorithm.team_size config <? 0)%Z
    then MatchSearch.Raised (MatchSearch.ValueError "r must be non-negative")
    else MatchSearch.Raised
           (MatchSearch.Builtin (Py.AttributeError "generate_team_splits")).
Proof.
  unfold MatchSearch.find_match.
  destruct (Z.of_nat (length (MatchSearch.player_pool self))
            <? Algorithm.team_size config * 2)%Z eqn:Esmall; [reflexivity |].
  apply Z.ltb_ge in Esmall.
  unfold MatchSearch.generate_possible_matches, MatchSearch.combinations.
  cbv zeta.
  destruct (Algorithm.team_size config <? 0)%Z eqn:Eneg.
  - apply Z.ltb_lt in Eneg.
    assert (Hr : (Algorithm.team_size config * 2 <? 0)%Z = true)
      by (apply Z.ltb_lt; lia).
    rewrite Hr. reflexivity.
  - apply Z.ltb_ge in Eneg.
    assert (Hr : (Algorithm.team_size config * 2 <? 0)%Z = false)
      by (apply Z.ltb_ge; lia).
    rewrite Hr. cbn [MatchSearch.bind].
    assert (Hne : MatchSearch.subsequences (MatchSearch.player_pool self)
                    (Z.to_nat (Algorithm.team_size config * 2)) <> [])
      by (apply subsequences_nonempty; lia).
    destruct (MatchSearch.subsequences _ _); [contradiction |].
    reflexivity.
Qed.

Section Selection.

Variables Player Match : Type.
Variables team1 team2 : Match -> list Player.
Variable methods : Algorithm.Methods (list Player) Match.
Variable config : Algorithm.Config.
Variable threshold : Q.

(** The quality that the evaluator gives to each match. *)
Variable quality : Match -> Algorithm.MatchQuality.

Let score (m : Match) : Q := Algorithm.overall_score (quality m).

Lemma select_best_invariant (possible : list Match) (best0 : option Match * Q) :
  (forall m, In m possible ->
     Algorithm.evaluate_match_quality team1 team2 methods config m
     = Py.Ok (quality m)) ->
  exists best,
    MatchSearch.select_best team1 team2 methods config threshold possible best0
    = Py.Ok best /\
    ((best = best0 /\
      forall m, In m possible -> ~ (snd best0 < score m /\ threshold <= score m))
     \/
     (exists b earlier later,
         possible = earlier ++ b :: later /\
         best = (Some b, score b) /\
         snd best0 < score b /\ threshold <= score b /\
         (forall m, In m earlier -> threshold <= score m -> score m < score b) /\
         (forall m, In m later -> threshold <= score m -> score m <= score b))).
Proof.
  revert best0. induction possible as [| m rest IH]; intros best0 Heval.
  - exists best0. split; [reflexivity |]. left. split; [reflexivity |].
    intros m [].
  - cbn [MatchSearch.select_best]. rewrite (Heval m (or_introl eq_refl)).
    cbn [Py.bind]. fold (score m).
    assert (Hrest : forall x, In x rest ->
                      Algorithm.evaluate_match_quality team1 team2 methods config x
                      = Py.Ok (quality x))
      by (intros x Hx; apply Heval; right; exact Hx).
    destruct (Py.gtb (score m) (snd best0)) eqn:Egt;
      destruct (Py.geb (score m) threshold) eqn:Ege; cbn [andb].
    + apply gtb_iff in Egt. apply geb_iff in Ege.
      destruct (IH (Some m, score m) Hrest) as (best & Hrun & Hcase).
      exists best. split; [exact Hrun |]. right.
      destruct Hcase as [[-> Hnone] | (b & earlier & later & -> & -> & Hb & Hthr
                                        & Hearlier & Hlater)].
      * exists m, [], rest. cbn [snd] in Hnone.
        repeat split; try assumption; try reflexivity.
        -- intros x [].
        -- intros x Hx Hxthr. apply Qnot_lt_le. intros Hlt.
           apply (Hnone x Hx). split; assumption.
      * exists b, (m :: earlier), later. cbn [snd] in Hb.
        repeat split; try assumption; try reflexivity.
        -- lra.
        -- intros x [<- | Hx] Hxthr; [exact Hb | apply Hearlier; assumption].
    + apply gtb_iff in Egt. apply geb_false_iff in Ege.
      destruct (IH best0 Hrest) as (best & Hrun & Hcase).
      exists best. split; [exact Hrun |].
      destruct Hcase as [[-> Hnone] | (b & earlier & later & -> & -> & Hb & Hthr
                                        & Hearlier & Hlater)].
      * left. split; [reflexivity |].
        intros x [<- | Hx]; [intros [_ H]; lra | apply Hnone, Hx].
      * right. exists b, (m :: earlier), later.
        repeat split; try assumption; try reflexivity.
        intros x [<- | Hx] Hxthr; [lra | apply Hearlier; assumption].
    + apply gtb_false_iff in Egt.
      destruct (IH best0 Hrest) as (best & Hrun & Hcase).
      exists best. split; [exact Hrun |].
      destruct Hcase as [[-> Hnone] | (b & earlier & later & -> & -> & Hb & Hthr
                                        & Hearlier & Hlater)].
      * left. split; [reflexivity |].
        intros x [<- | Hx]; [intros [H _]; lra | apply Hnone, Hx].
      * right. exists b, (m :: earlier), later.
        repeat split; try assumption; try reflexivity.
        intros x [<- | Hx] Hxthr; [lra | apply Hearlier; assumption].
    + apply gtb_false_iff in Egt.
      destruct (IH best0 Hrest) as (best & Hrun & Hcase).
      exists best. split; [exact Hrun |].
      destruct Hcase as [[-> Hnone] | (b & earlier & later & -> & -> & Hb & Hthr
                                        & Hearlier & Hlater)].
      * left. split; [reflexivity |].
        intros x [<- | Hx]; [intros [H _]; lra | apply Hnone, Hx].
      * right. exists b, (m :: earlier), later.
        repeat split; try assumption; try reflexivity.
        intros x [<- | Hx] Hxthr; [lra | apply Hearlier; assumption].
Qed.

End Selection.

(** X27.  The selection policy of [find_match], with definitions supplied for
    what the class lacks and a pool that is large enough: it returns
    either no match, leaving the matchmaker untouched, and then no
    candidate has a positive quality at or above the threshold; or a
    candidate whose quality reaches the threshold and is at least that of
    every candidate reaching it, strictly above that of each such
    candidate enumerated before it (the first of several best candidates
    wins); that match is appended to the recent matches and its players
    leave the pool. *)
Theorem find_match_selects_best_or_nothing
    (Player Match : Type) (preferred_roles : Player -> list string)
    (team1 team2 : Match -> list Player)
    (missing : MatchSearch.Missing Player Match)
    (methods : Algorithm.Methods (list Player) Match)
    (config : Algorithm.Config) (self : MatchSearch.State Player Match)
    (possible : list Match) (quality : Match -> Algorithm.MatchQuality)
    (remove : Match -> list Player -> Py.result (list Player))
    (remaining : Match -> list Player) :
  (Algorithm.team_size config * 2
   <= Z.of_nat (length (MatchSearch.player_pool self)))%Z ->
  MatchSearch.generate_possible_matches preferred_roles missing config
    (MatchSearch.player_pool self) = MatchSearch.Return possible ->
  (forall m, In m possible ->
     Algorithm.evaluate_match_quality team1 team2 methods config m
     = Py.Ok (quality m)) ->
  MatchSearch.remove_players_from_pool _ _ missing = Some remove ->
  (forall m, In m possible ->
     remove m (MatchSearch.player_pool self) = Py.Ok (remaining m)) ->
  let score := fun m => Algorithm.overall_score (quality m) in
  let threshold := MatchSearch.quality_threshold self in
  exists found state,
    MatchSearch.find_match preferred_roles team1 team2 missing methods config self
    = MatchSearch.Return (found, state) /\
    match found with
    | None =>
        state = self /\
        forall m, In m possible -> ~ (0 < score m /\ threshold <= score m)
    | Some b =>
        (exists earlier later,
            possible = earlier ++ b :: later /\
            (forall m, In m earlier -> threshold <= score m -> score m < score b) /\
            (forall m, In m later -> threshold <= score m -> score m <= score b)) /\
        threshold <= score b /\
        MatchSearch.player_pool state = remaining b /\
        MatchSearch.recent_matches state = MatchSearch.recent_matches self ++ [b] /\
        MatchSearch.quality_threshold state = threshold
    end.
Proof.
  intros Hlarge Hgen Heval Hremove Hremaining score threshold.
  unfold MatchSearch.find_match.
  apply Z.ltb_ge in Hlarge. rewrite Hlarge, Hgen. cbn [MatchSearch.bind].
  destruct (select_best_invariant Player Match team1 team2 methods config
              threshold quality possible (None, 0.0) Heval)
    as (best & Hrun & Hcase).
  fold threshold. rewrite Hrun. cbn [MatchSearch.lift MatchSearch.bind].
  destruct Hcase as [[-> Hnone] | (b & earlier & later & Hsplit & -> & Hb & Hthr
                                    & Hearlier & Hlater)].
  - cbn [fst]. exists None, self. split; [reflexivity |].
    split; [reflexivity |]. intros m Hm [Hpos Hge].
    apply (Hnone m Hm). cbn [snd]. split; [| exact Hge].
    fold (score m). lra.
  - cbn [fst]. rewrite Hremove. cbn [Py.getattr Py.bind].
    rewrite (Hremaining b) by (rewrite Hsplit; apply in_elt).
    cbn [Py.bind MatchSearch.lift].
    eexists. eexists. split; [reflexivity |].
    cbn [MatchSearch.player_pool MatchSearch.recent_matches
         MatchSearch.quality_threshold].
    split; [exists earlier, later; repeat split; assumption |].
    repeat split; try reflexivity. exact Hthr.
Qed.

Lemma find_match_selects_best_or_nothing_witness :
  exists state,
    MatchSearch.find_match Scenarios.any_role fst snd Scenarios.duel_missing
      Scenarios.duel_methods Scenarios.duel_config Scenarios.duel_state
    = MatchSearch.Return (Some (["ana"%string], ["bo"%string]), state) /\
    MatchSearch.player_pool state = ["cy"%string] /\
    MatchSearch.recent_matches state = [(["ana"%string], ["bo"%string])].
Proof.
  assert (Hquality :
            forall m : list string * list string,
              exists q,
                Algorithm.evaluate_match_quality fst snd Scenarios.duel_methods
                  Scenarios.duel_config m = Py.Ok q).
  { intros m. unfold Algorithm.evaluate_match_quality,
      Algorithm.calculate_team_balance.
    cbn [Scenarios.duel_methods Algorithm.calculate_team_mmr
         Algorithm.calculate_role_synergy Algorithm.calculate_skill_distribution
         Algorithm.evaluate_communication_compatibility
         Algorithm.calculate_hero_synergy Py.getattr Py.bind].
    rewrite truediv_pos by reflexivity. cbn [Py.bind]. eexists. reflexivity. }
  pose (quality :=
          fun m : list string * list string =>
            match Algorithm.evaluate_match_quality fst snd Scenarios.duel_methods
                    Scenarios.duel_config m with
            | Py.Ok q => q
            | Py.Raise _ =>
                {| Algorithm.team_balance := 0; Algorithm.role_synergy := 0;
                   Algorithm.skill_distribution := 0;
                   Algorithm.communication_compatibility := 0;
                   Algorithm.hero_synergy := 0; Algorithm.overall_score := 0 |}
            end).
  destruct (find_match_selects_best_or_nothing
              string (list string * list string) Scenarios.any_role fst snd
              Scenarios.duel_missing Scenarios.duel_methods Scenarios.duel_config
              Scenarios.duel_state
              [(["ana"], ["bo"]); (["ana"], ["cy"]); (["bo"], ["cy"])]%string
              quality
              (fun m pool =>
                 Py.Ok (filter
                          (fun p => negb (existsb (String.eqb p) (fst m ++ snd m)))
                          pool))
              (fun m =>
                 filter (fun p => negb (existsb (String.eqb p) (fst m ++ snd m)))
                        (MatchSearch.player_pool Scenarios.duel_state)))
    as (found & state & Hrun & Hfound).
  - intros H. discriminate H.
  - reflexivity.
  - intros m _. unfold quality. destruct (Hquality m) as [q ->]. reflexivity.
  - reflexivity.
  - intros m _. reflexivity.
  - exists state.
    assert (Hcompute :
              exists s,
                MatchSearch.find_match Scenarios.any_role fst snd
                  Scenarios.duel_missing Scenarios.duel_methods
                  Scenarios.duel_config Scenarios.duel_state
                = MatchSearch.Return (Some (["ana"%string], ["bo"%string]), s))
      by (eexists; vm_compute; reflexivity).
    destruct Hcompute as [s Hs]. rewrite Hs in Hrun.
    injection Hrun as <- <-. split; [exact Hs |].
    destruct Hfound as (_ & _ & Hpool & Hrecent & _).
    split; [exact Hpool | exact Hrecent].
Defined.

(** ** matchmaking/quality.py *)

(** X28.  [calculate_overall_quality] returns exactly when the metrics have all
    five weighted keys (otherwise it raises KeyError), and for values of
    [0,1] under these keys the overall quality is in [0,1]. *)
Theorem overall_quality_keys_and_range (metrics : list (string * Q)) :
  ((exists v, Quality.calculate_overall_quality metrics = Py.Ok v) <->
   forall key, In key (Dict.keys Quality.weights) ->
               exists v, Quality.lookup metrics key = Py.Ok v) /\
  ((forall key, In key (Dict.keys Quality.weights) ->
                exists v, Quality.lookup metrics key = Py.Ok v /\ in_unit_interval v) ->
   Py.returns (Quality.calculate_overall_quality metrics) in_unit_interval).
Proof.
  unfold Quality.calculate_overall_quality, Quality.weights, Dict.keys.
  cbn [map fst Quality.weighted_terms Quality.lookup String.eqb Ascii.eqb Bool.eqb].
  split; [split |].
  - intros [v H] key Hkey.
    destruct (Quality.lookup metrics "role_balance") as [v1 |] eqn:E1;
      [| discriminate H].
    destruct (Quality.lookup metrics "skill_balance") as [v2 |] eqn:E2;
      [| discriminate H].
    destruct (Quality.lookup metrics "hero_synergy") as [v3 |] eqn:E3;
      [| discriminate H].
    destruct (Quality.lookup metrics "team_chemistry") as [v4 |] eqn:E4;
      [| discriminate H].
    destruct (Quality.lookup metrics "playstyle_compatibility") as [v5 |] eqn:E5;
      [| discriminate H].
    cbn in Hkey.
    repeat (destruct Hkey as [<- | Hkey]; [eexists; eassumption |]).
    contradiction.
  - intros Hall.
    destruct (Hall "role_balance"%string) as [v1 ->]; [cbn; tauto |].
    destruct (Hall "skill_balance"%string) as [v2 ->]; [cbn; tauto |].
    destruct (Hall "hero_synergy"%string) as [v3 ->]; [cbn; tauto |].
    destruct (Hall "team_chemistry"%string) as [v4 ->]; [cbn; tauto |].
    destruct (Hall "playstyle_compatibility"%string) as [v5 ->]; [cbn; tauto |].
    cbn [Py.bind]. eexists. reflexivity.
  - intros Hall.
    destruct (Hall "role_balance"%string) as (v1 & -> & [? ?]); [cbn; tauto |].
    destruct (Hall "skill_balance"%string) as (v2 & -> & [? ?]); [cbn; tauto |].
    destruct (Hall "hero_synergy"%string) as (v3 & -> & [? ?]); [cbn; tauto |].
    destruct (Hall "team_chemistry"%string) as (v4 & -> & [? ?]); [cbn; tauto |].
    destruct (Hall "playstyle_compatibility"%string) as (v5 & -> & [? ?]);
      [cbn; tauto |].
    unfold Quality.weights.
    cbn [Py.bind Py.returns Quality.lookup String.eqb Ascii.eqb Bool.eqb].
    unfold Py.sum, in_unit_interval. cbn [fold_left].
    split; lra.
Qed.

Lemma overall_quality_keys_and_range_witness :
  Py.returns (Quality.calculate_overall_quality (Inputs.uniform_quality 0.75))
    in_unit_interval.
Proof.
  apply (overall_quality_keys_and_range (Inputs.uniform_quality 0.75)).
  intros key Hkey. exists 0.75. cbn in Hkey.
  repeat (destruct Hkey as [<- | Hkey];
          [split; [reflexivity | split; intros H; discriminate H] |]).
  contradiction.
Defined.

Section RoleBalanceFacts.

Variable Player : Type.
Variable preferred_roles : Player -> list string.
Variable role_ratings : Player -> list (string * Z).

Lemma getitem_cases {A : Type} (d : list (string * A)) (key : string) :
  (exists v, Dict.getitem d key = Py.Ok v) \/
  Dict.getitem d key = Py.Raise (Py.KeyError key).
Proof.
  induction d as [| [k v] rest IH]; cbn; [right; reflexivity |].
  destruct (String.eqb k key); [left; eexists; reflexivity | exact IH].
Qed.

Lemma ratings_for_cases (players : list Player) (role : string) :
  (exists rs, RoleBalance.ratings_for role_ratings players role = Py.Ok rs) \/
  RoleBalance.ratings_for role_ratings players role = Py.Raise (Py.KeyError role).
Proof.
  induction players as [| p rest IH]; cbn; [left; eexists; reflexivity |].
  destruct (getitem_cases (role_ratings p) role) as [[v ->] | ->];
    [| right; reflexivity].
  cbn [Py.bind]. destruct IH as [[rs ->] | ->];
    [left; eexists; reflexivity | right; reflexivity].
Qed.

Lemma role_strength_cases (team : list Player) (role : string) :
  (exists s, RoleBalance.get_role_strength preferred_roles role_ratings team role
             = Py.Ok s) \/
  RoleBalance.get_role_strength preferred_roles role_ratings team role
  = Py.Raise (Py.KeyError role).
Proof.
  unfold RoleBalance.get_role_strength.
  destruct (filter _ team) as [| p others]; [left; eexists; reflexivity |].
  destruct (getitem_cases (role_ratings p) role) as [[v ->] | ->];
    [| right; reflexivity].
  cbn [Py.bind].
  destruct (ratings_for_cases others role) as [[rs ->] | ->];
    [left; eexists; reflexivity | right; reflexivity].
Qed.

Lemma role_differences_symmetric (team1 team2 : list Player) (rs : list string) :
  RoleBalance.role_differences preferred_roles role_ratings team1 team2 rs
  = RoleBalance.role_differences preferred_roles role_ratings team2 team1 rs.
Proof.
  induction rs as [| role rest IH]; cbn [RoleBalance.role_differences];
    [reflexivity |].
  destruct (role_strength_cases team1 role) as [[s1 ->] | ->];
    destruct (role_strength_cases team2 role) as [[s2 ->] | ->];
    cbn [Py.bind]; try reflexivity.
  rewrite IH, (Qabs_Qminus s1 s2). reflexivity.
Qed.

Lemma role_differences_nonneg (team1 team2 : list Player) (rs : list string)
    (diffs : list Q) :
  RoleBalance.role_differences preferred_roles role_ratings team1 team2 rs
  = Py.Ok diffs ->
  Forall (fun d => 0 <= d) diffs.
Proof.
  revert diffs. induction rs as [| role rest IH]; intros diffs H;
    cbn [RoleBalance.role_differences] in H.
  - injection H as <-. constructor.
  - destruct (RoleBalance.get_role_strength preferred_roles role_ratings team1 role)
      as [s1 |]; [| discriminate H].
    cbn [Py.bind] in H.
    destruct (RoleBalance.get_role_strength preferred_roles role_ratings team2 role)
      as [s2 |]; [| discriminate H].
    cbn [Py.bind] in H.
    destruct (RoleBalance.role_differences _ _ _ _ rest) as [ds |]; [| discriminate H].
    cbn [Py.bind] in H.
    assert (Hd : diffs = Qabs (s1 - s2) :: ds) by congruence. subst diffs.
    constructor; [apply Qabs_nonneg | apply IH; reflexivity].
Qed.

Lemma role_differences_same_team (team : list Player) (rs : list string)
    (diffs : list Q) :
  RoleBalance.role_differences preferred_roles role_ratings team team rs
  = Py.Ok diffs ->
  Forall (fun d => d == 0) diffs.
Proof.
  revert diffs. induction rs as [| role rest IH]; intros diffs H;
    cbn [RoleBalance.role_differences] in H.
  - injection H as <-. constructor.
  - destruct (RoleBalance.get_role_strength preferred_roles role_ratings team role)
      as [s |]; [| discriminate H].
    cbn [Py.bind] in H.
    destruct (RoleBalance.role_differences _ _ _ _ rest) as [ds |]; [| discriminate H].
    cbn [Py.bind] in H.
    assert (Hd : diffs = Qabs (s - s) :: ds) by congruence. subst diffs.
    constructor; [| apply IH; reflexivity].
    setoid_replace (s - s) with 0 by ring. reflexivity.
Qed.

Lemma sum_from_nonneg (xs : list Q) (a : Q) :
  Forall (fun d => 0 <= d) xs -> a <= fold_left Qplus xs a.
Proof.
  intros Hxs. revert a. induction Hxs as [| x xs Hx _ IH]; intros a; cbn [fold_left].
  - lra.
  - specialize (IH (a + x)). lra.
Qed.

Lemma sum_from_zero (xs : list Q) (a : Q) :
  Forall (fun d => d == 0) xs -> fold_left Qplus xs a == a.
Proof.
  intros Hxs. revert a. induction Hxs as [| x xs Hx _ IH]; intros a; cbn [fold_left].
  - reflexivity.
  - rewrite IH, Hx. ring.
Qed.

(** X29.  The role balance does not depend on the order of the two teams, not
    even in the exception it raises; when it returns, the result is in
    [0,1]; and a team compared with itself gets 1. *)
Theorem role_balance_symmetric_and_bounded (team1 team2 : list Player) :
  RoleBalance.assess_role_balance preferred_roles role_ratings team1 team2
  = RoleBalance.assess_role_balance preferred_roles role_ratings team2 team1 /\
  (forall v,
      RoleBalance.assess_role_balance preferred_roles role_ratings team1 team2
      = Py.Ok v -> in_unit_interval v) /\
  (forall v,
      RoleBalance.assess_role_balance preferred_roles role_ratings team1 team1
      = Py.Ok v -> v == 1).
Proof.
  unfold RoleBalance.assess_role_balance. split; [| split].
  - rewrite role_differences_symmetric. reflexivity.
  - intros v H.
    destruct (RoleBalance.role_differences _ _ team1 team2 _) as [diffs |] eqn:E;
      [| discriminate H].
    cbn [Py.bind] in H.
    assert (Hv : v = 1.0 - Qmin 1 (Py.sum diffs /
                                   inject_Z (1000 * Z.of_nat (length RoleBalance.roles))))
      by congruence.
    subst v.
    pose proof (role_differences_nonneg _ _ _ _ E) as Hnonneg.
    pose proof (sum_from_nonneg _ 0 Hnonneg) as Hsum. fold (Py.sum diffs) in Hsum.
    assert (Hratio : 0 <= Py.sum diffs /
                          inject_Z (1000 * Z.of_nat (length RoleBalance.roles)))
      by (apply div_nonneg; [exact Hsum | reflexivity]).
    destruct (clamp_min_unit _ Hratio) as [H0 H1].
    split; lra.
  - intros v H.
    destruct (RoleBalance.role_differences _ _ team1 team1 _) as [diffs |] eqn:E;
      [| discriminate H].
    cbn [Py.bind] in H.
    assert (Hv : v = 1.0 - Qmin 1 (Py.sum diffs /
                                   inject_Z (1000 * Z.of_nat (length RoleBalance.roles))))
      by congruence.
    subst v.
    pose proof (role_differences_same_team _ _ _ E) as Hzero.
    pose proof (sum_from_zero _ 0 Hzero) as Hsum. fold (Py.sum diffs) in Hsum.
    rewrite Hsum. reflexivity.
Qed.

(** When every player of both teams has a rating for each of the five
    roles, as every player does by construction, the role balance
    returns. *)
Theorem role_balance_returns (team1 team2 : list Player) :
  (forall p role, In p (team1 ++ team2) -> In role RoleBalance.roles ->
                  exists r, Dict.getitem (role_ratings p) role = Py.Ok r) ->
  exists v,
    RoleBalance.assess_role_balance preferred_roles role_ratings team1 team2
    = Py.Ok v.
Proof.
  intros Hcomplete.
  assert (Hratings : forall players role,
             (forall p, In p players -> In p (team1 ++ team2)) ->
             In role RoleBalance.roles ->
             exists rs, RoleBalance.ratings_for role_ratings players role = Py.Ok rs).
  { induction players as [| p rest IH]; intros role Hsub Hrole; cbn.
    - eexists. reflexivity.
    - destruct (Hcomplete p role (Hsub p (or_introl eq_refl)) Hrole) as [r ->].
      cbn [Py.bind].
      destruct (IH role (fun q Hq => Hsub q (or_intror Hq)) Hrole) as [rs ->].
      eexists. reflexivity. }
  assert (Hstrength : forall team role,
             (forall p, In p team -> In p (team1 ++ team2)) ->
             In role RoleBalance.roles ->
             exists s, RoleBalance.get_role_strength preferred_roles role_ratings
                         team role = Py.Ok s).
  { intros team role Hsub Hrole. unfold RoleBalance.get_role_strength.
    destruct (filter _ team) as [| p others] eqn:Efilter;
      [eexists; reflexivity |].
    assert (Hin : forall q, In q (p :: others) -> In q (team1 ++ team2)).
    { intros q Hq. apply Hsub. rewrite <- Efilter in Hq.
      apply filter_In in Hq. exact (proj1 Hq). }
    destruct (Hcomplete p role (Hin p (or_introl eq_refl)) Hrole) as [r ->].
    cbn [Py.bind].
    destruct (Hratings others role (fun q Hq => Hin q (or_intror Hq)) Hrole)
      as [rs ->].
    eexists. reflexivity. }
  assert (Hdiffs : forall rs,
             (forall role, In role rs -> In role RoleBalance.roles) ->
             exists diffs,
               RoleBalance.role_differences preferred_roles role_ratings
                 team1 team2 rs = Py.Ok diffs).
  { induction rs as [| role rest IH]; intros Hsub;
      cbn [RoleBalance.role_differences].
    - eexists. reflexivity.
    - destruct (Hstrength team1 role
                  (fun p Hp => in_or_app _ _ _ (or_introl Hp))
                  (Hsub role (or_introl eq_refl))) as [s1 ->].
      destruct (Hstrength team2 role
                  (fun p Hp => in_or_app _ _ _ (or_intror Hp))
                  (Hsub role (or_introl eq_refl))) as [s2 ->].
      cbn [Py.bind].
      destruct (IH (fun r Hr => Hsub r (or_intror Hr))) as [diffs ->].
      eexists. reflexivity. }
  unfold RoleBalance.assess_role_balance.
  destruct (Hdiffs RoleBalance.roles (fun role H => H)) as [diffs ->].
  eexists. reflexivity.
Qed.

End RoleBalanceFacts.

Lemma role_balance_symmetric_and_bounded_witness :
  Py.returns
    (RoleBalance.assess_role_balance Scenarios.any_role Scenarios.role_ratings_of
       ["ana"; "bo"]%string ["cy"]%string)
    in_unit_interval.
Proof.
  destruct (RoleBalance.assess_role_balance Scenarios.any_role
              Scenarios.role_ratings_of ["ana"; "bo"]%string ["cy"]%string)
    as [v |] eqn:E.
  - cbn [Py.returns].
    apply (role_balance_symmetric_and_bounded string Scenarios.any_role
             Scenarios.role_ratings_of ["ana"; "bo"]%string ["cy"]%string).
    exact E.
  - vm_compute in E. discriminate E.
Defined.

Lemma role_balance_returns_witness :
  exists v,
    RoleBalance.assess_role_balance Scenarios.any_role Scenarios.role_ratings_of
      ["ana"; "bo"]%string ["cy"]%string
    = Py.Ok v.
Proof.
  apply (role_balance_returns string Scenarios.any_role Scenarios.role_ratings_of
           ["ana"; "bo"]%string ["cy"]%string).
  intros p role _ Hrole. unfold Scenarios.role_ratings_of.
  cbn in Hrole.
  repeat (destruct Hrole as [<- | Hrole]; [eexists; reflexivity |]).
  contradiction.
Defined.

(** ** matchmaking.py *)

(** X30.  For a performance score in [0,1], bonuses above -1 and a positive
    behavior modifier, the outcome decides the sign of the rating change:
    a victory always gains and a defeat always loses, since the
    performance term is at most 2.5 against an outcome term of 20. *)
Theorem mmr_adjustment_sign_follows_outcome
    (Player GameData : Type) (victory : GameData -> bool)
    (globals : Matchmaking.Helpers Player GameData)
    (player : Player) (game_data : GameData)
    (f_performance f_team_play f_role_execution f_behavior :
       Player -> GameData -> Py.result Q)
    (performance_score team_play role_execution behavior_modifier : Q) :
  Matchmaking.calculate_performance_score globals = Some f_performance ->
  Matchmaking.calculate_team_play_bonus globals = Some f_team_play ->
  Matchmaking.calculate_role_execution globals = Some f_role_execution ->
  Matchmaking.calculate_behavior_modifier globals = Some f_behavior ->
  f_performance player game_data = Py.Ok performance_score ->
  f_team_play player game_data = Py.Ok team_play ->
  f_role_execution player game_data = Py.Ok role_execution ->
  f_behavior player game_data = Py.Ok behavior_modifier ->
  in_unit_interval performance_score ->
  -1 < team_play -> -1 < role_execution -> 0 < behavior_modifier ->
  Py.returns
    (Matchmaking.calculate_mmr_adjustment victory globals player game_data)
    (fun delta => if victory game_data then 0 < delta else delta < 0).
Proof.
  intros Hp Ht Hr Hb Ep Et Er Eb [Hp0 Hp1] Htp Hre Hbm.
  unfold Matchmaking.calculate_mmr_adjustment.
  rewrite Hp, Ht, Hr, Hb. cbn [Py.load_global Py.bind].
  rewrite Ep. cbn [Py.bind]. rewrite Et. cbn [Py.bind].
  rewrite Er. cbn [Py.bind]. rewrite Eb. cbn [Py.bind Py.returns].
  assert (Hscale : 0 < (1 + team_play) * (1 + role_execution) * behavior_modifier).
  { apply Qmult_lt_0_compat; [apply Qmult_lt_0_compat; lra | exact Hbm]. }
  destruct (victory game_data).
  - setoid_replace ((0.8 * 25 + 0.2 * (performance_score - 0.5) * 25) *
                    (1 + team_play) * (1 + role_execution) * behavior_modifier)
      with ((0.8 * 25 + 0.2 * (performance_score - 0.5) * 25) *
            ((1 + team_play) * (1 + role_execution) * behavior_modifier)) by ring.
    apply Qmult_lt_0_compat; [lra | exact Hscale].
  - setoid_replace ((0.8 * - (25) + 0.2 * (performance_score - 0.5) * 25) *
                    (1 + team_play) * (1 + role_execution) * behavior_modifier)
      with (- ((0.8 * 25 - 0.2 * (performance_score - 0.5) * 25) *
               ((1 + team_play) * (1 + role_execution) * behavior_modifier)))
      by ring.
    assert (0 < (0.8 * 25 - 0.2 * (performance_score - 0.5) * 25) *
                ((1 + team_play) * (1 + role_execution) * behavior_modifier))
      by (apply Qmult_lt_0_compat; [lra | exact Hscale]).
    lra.
Qed.

Lemma mmr_adjustment_sign_follows_outcome_witness :
  Py.returns
    (Matchmaking.calculate_mmr_adjustment (fun won : bool => won)
       (Inputs.constant_helpers 0.1 0.2 0.1 0.9) tt false)
    (fun delta => delta < 0).
Proof.
  apply (mmr_adjustment_sign_follows_outcome unit bool (fun won => won)
           (Inputs.constant_helpers 0.1 0.2 0.1 0.9) tt false
           (fun _ _ => Py.Ok 0.1) (fun _ _ => Py.Ok 0.2)
           (fun _ _ => Py.Ok 0.1) (fun _ _ => Py.Ok 0.9)
           0.1 0.2 0.1 0.9);
    try reflexivity.
  split; intros H; discriminate H.
Defined.
